(** * Message analysis and scoring pipeline of the Slack community bot

  A shallow embedding of [scoring_system.py], [content_analyzer.py],
  [message_processor.py] and the decision code of [demo_prototype.py],
  followed by the properties of the pipeline.

  Conventions of the embedding:
  - a Python [str] is a [string] holding its UTF-8 encoding; the substring
    test [a in b] is the same on code points and on their UTF-8 bytes;
  - a Python [dict] is an association list in insertion order with
    pairwise distinct keys ([dict_set] keeps the position of a key that
    is already present, as Python does);
  - a Python [int] is a [Z]; the derived score is a [float]: the weights
    [1.0], [5.0], [2.0] and [10.0] are whole numbers, so every value of the
    score arithmetic is a whole number rounded to 53 bits, an infinity or
    NaN ([Float.t]); a [float] that is stored or read from a file, and a
    time, is the rational it stands for;
  - a JSON document is the tree [json.load] returns; [json.dump] followed
    by [json.load] is taken to give back the same tree. *)

From Stdlib Require Import String Ascii List ZArith QArith Qminmax Bool Lia Lqa.
From Stdlib Require Import Permutation Sorted.
Import ListNotations.

Set Implicit Arguments.
Set Warnings "-register-all".
Open Scope string_scope.

(** ** Python values *)

Module Py.

(** What [json.loads] can return, which is also what a classifier stub
    hands to the message processor. *)
Inductive value : Type :=
| VNone
| VBool (b : bool)
| VInt (n : Z)
| VFloat (q : Q)
| VStr (s : string)
| VList (l : list value)
| VDict (d : list (string * value)).

Definition dict (V : Type) : Type := list (string * V).

(** [bool(v)]: the truth value Python gives [v] in an [if]. *)
Definition truthy (v : value) : bool :=
  match v with
  | VNone => false
  | VBool b => b
  | VInt n => negb (n =? 0)%Z
  | VFloat q => negb (Qeq_bool q 0%Q)
  | VStr s => negb (s =? "")
  | VList l => match l with [] => false | _ => true end
  | VDict d => match d with [] => false | _ => true end
  end.

(** [v > n] for an integer literal [n]; [None] where Python raises
    [TypeError] ([bool] is a subtype of [int] and compares as 0 or 1). *)
Definition gt_int (v : value) (n : Z) : option bool :=
  match v with
  | VInt m => Some (n <? m)%Z
  | VFloat q => Some (negb (Qle_bool q (inject_Z n)))
  | VBool b => Some (n <? (if b then 1 else 0))%Z
  | _ => None
  end.

Fixpoint dict_get {V} (k : string) (d : dict V) : option V :=
  match d with
  | [] => None
  | (k', v) :: d' => if k =? k' then Some v else dict_get k d'
  end.

(** [d.get(k, default)] *)
Definition get {V} (k : string) (default : V) (d : dict V) : V :=
  match dict_get k d with Some v => v | None => default end.

(** [k in d] *)
Definition dict_mem {V} (k : string) (d : dict V) : bool :=
  match dict_get k d with Some _ => true | None => false end.

(** [d[k] = v]: overwrite in place, or append a new key at the end. *)
Fixpoint dict_set {V} (k : string) (v : V) (d : dict V) : dict V :=
  match d with
  | [] => [(k, v)]
  | (k', v') :: d' =>
      if k =? k' then (k, v) :: d' else (k', v') :: dict_set k v d'
  end.

Definition keys {V} (d : dict V) : list string := map fst d.
Definition values {V} (d : dict V) : list V := map snd d.

(** [sub in s] *)
Fixpoint str_contains (sub s : string) : bool :=
  if prefix sub s then true
  else match s with
       | EmptyString => false
       | String _ s' => str_contains sub s'
       end.

(** [s.split(sep)] for a non-empty [sep]: the pieces between the
    leftmost, non-overlapping occurrences of [sep].  [skip] counts the
    characters of a matched separator that are still to be dropped and
    [cur] is the piece read so far. *)
Fixpoint split_from (sep : string) (skip : nat) (cur s : string) : list string :=
  match s with
  | EmptyString => [cur]
  | String c s' =>
      match skip with
      | S k => split_from sep k cur s'
      | O =>
          if prefix sep s
          then cur :: split_from sep (String.length sep - 1) "" s'
          else split_from sep 0 (cur ++ String c "") s'
      end
  end.

Definition str_split (sep s : string) : list string := split_from sep 0 "" s.

(** [any(p(x) for x in l)] *)
Definition any {A} (p : A -> bool) (l : list A) : bool := existsb p l.

(** [sum(l)] *)
Definition sum (l : list Z) : Z := fold_right Z.add 0%Z l.

(** [l[:n]] *)
Definition take {A} (n : nat) (l : list A) : list A := firstn n l.

(** [{k: v for k, v in items}], and any loop of assignments [d[k] = v]
    that starts from [d]. *)
Definition dict_update {V} (d : dict V) (items : list (string * V)) : dict V :=
  fold_left (fun acc kv => dict_set (fst kv) (snd kv) acc) items d.

Definition dict_of_items {V} (items : list (string * V)) : dict V :=
  dict_update [] items.

(** The dict in a value that is a dict. *)
Definition as_dict (v : value) : dict value :=
  match v with
  | VDict d => d
  | _ => []
  end.

(** The exceptions the embedded code can raise. *)
Inductive exn : Type :=
| KeyError (k : string)
| AttributeError
| TypeError
| OverflowError
| SlackApiError.

(** What a call comes to: it returns a value, it raises an exception, or
    it leaves what the embedding represents ([Unmodelled]); nothing is said
    about the call in the last case. *)
Inductive outcome (A : Type) : Type :=
| Ok (a : A)
| Raise (e : exn)
| Unmodelled.

Arguments Raise {A} e.
Arguments Unmodelled {A}.

(** The outcome of a call whose value is then passed through [f]. *)
Definition outcome_map {A B} (f : A -> B) (o : outcome A) : outcome B :=
  match o with
  | Ok a => Ok (f a)
  | Raise e => Raise e
  | Unmodelled => Unmodelled
  end.

End Py.

(** ** The floats of the score *)

Module Float.
Local Open Scope Z_scope.

(** A [float] of the score arithmetic.  The counts are whole numbers and so
    are the weights, and a product or a sum of whole numbers rounds to a
    whole number: a finite value is given by the integer it is equal to.
    No operation of the score gives [-0.0]. *)
Inductive t : Type :=
| Num (z : Z)
| PInf
| NInf
| NaN.

(** The bits of the significand and the first power of two that is out of
    range. *)
Definition prec : Z := 53.
Definition emax : Z := 1024.

(** [2^1024]: a result that rounds to it or beyond is out of range. *)
Definition out_of_range : Z := Eval vm_compute in 2 ^ emax.

(** Rounding to the nearest number with 53 significant bits, a tie going to
    the even one: [k] bits are dropped, [q] is what is kept and [r] what is
    dropped. *)
Definition round (z : Z) : Z :=
  let a := Z.abs z in
  let k := Z.log2 a + 1 - prec in
  if k <=? 0 then z
  else
    let q := Z.shiftr a k in
    let r := Z.land a (Z.ones k) in
    let half := Z.shiftl 1 (k - 1) in
    let q' := if (half <? r) || ((r =? half) && Z.odd q) then q + 1 else q in
    Z.sgn z * Z.shiftl q' k.

(** The float an operation gives when its exact result is [z]. *)
Definition of_exact (z : Z) : t :=
  let r := round z in
  if out_of_range <=? r then PInf
  else if r <=? - out_of_range then NInf
  else Num r.

(** The conversion of an [int] operand; [None] is the [OverflowError]
    ("int too large to convert to float"). *)
Definition of_int (n : Z) : option t :=
  match of_exact n with
  | Num r => Some (Num r)
  | _ => None
  end.

(** The infinity of the sign of [s]; NaN when [s] is zero. *)
Definition inf_of_sign (s : Z) : t :=
  if 0 <? s then PInf else if s <? 0 then NInf else NaN.

Definition sign (x : t) : Z :=
  match x with
  | Num z => Z.sgn z
  | PInf => 1
  | NInf => -1
  | NaN => 0
  end.

(** [x * y] *)
Definition mul (x y : t) : t :=
  match x, y with
  | NaN, _ | _, NaN => NaN
  | Num a, Num b => of_exact (a * b)
  | _, _ => inf_of_sign (sign x * sign y)
  end.

(** [x + y] *)
Definition add (x y : t) : t :=
  match x, y with
  | NaN, _ | _, NaN => NaN
  | Num a, Num b => of_exact (a + b)
  | PInf, NInf | NInf, PInf => NaN
  | PInf, _ | _, PInf => PInf
  | NInf, _ | _, NInf => NInf
  end.

(** [- x] *)
Definition neg (x : t) : t :=
  match x with
  | Num z => Num (- z)
  | PInf => NInf
  | NInf => PInf
  | NaN => NaN
  end.

(** [x - y] *)
Definition sub (x y : t) : t := add x (neg y).

(** [x < y]; a comparison with NaN is false. *)
Definition ltb (x y : t) : bool :=
  match x, y with
  | NaN, _ | _, NaN => false
  | Num a, Num b => a <? b
  | Num _, PInf => true
  | Num _, NInf => false
  | PInf, _ => false
  | NInf, NInf => false
  | NInf, _ => true
  end.

Definition is_nan (x : t) : bool :=
  match x with
  | NaN => true
  | _ => false
  end.

(** [x] and [y] are the same float (NaN is the same as NaN here, unlike
    for [==]). *)
Definition same (x y : t) : bool :=
  match x, y with
  | Num a, Num b => a =? b
  | PInf, PInf | NInf, NInf | NaN, NaN => true
  | _, _ => false
  end.

End Float.

(** ** scoring_system.py *)

Module ScoringSystem.
Import Py.
Local Open Scope Z_scope.

(** The dataclass [UserScore]. *)
Record UserScore : Type := mkUserScore {
  user_id : string;
  user_name : string;
  post_count : Z;
  positive_count : Z;
  reaction_count : Z;
  violation_count : Z;
  total_score : Q
}.

(** [UserScore(user_id=..., user_name=...)] with the field defaults. *)
Definition new_user (uid name : string) : UserScore :=
  mkUserScore uid name 0 0 0 0 0.

(** Each [int * float] converts its [int] operand first, which raises
    [OverflowError] for an [int] beyond the range of the floats. *)
Definition calculate_total_score (self : UserScore) : exn + Float.t :=
  match Float.of_int (post_count self), Float.of_int (positive_count self),
        Float.of_int (reaction_count self),
        Float.of_int (violation_count self) with
  | Some post, Some positive, Some reaction, Some violation =>
      inr (Float.sub
             (Float.add
                (Float.add (Float.mul post (Float.Num 1))
                   (Float.mul positive (Float.Num 5)))
                (Float.mul reaction (Float.Num 2)))
             (Float.mul violation (Float.Num 10)))
  | _, _, _, _ => inl OverflowError
  end.

(** The class [ScoringSystem]: its only attribute is the dict [users]. *)
Record t : Type := mk { users : dict UserScore }.

(** [ScoringSystem()] *)
Definition init : t := mk [].

Definition add_user_activity
    (uid name : string)
    (post positive reaction_received violation : Z) (self : t) : t :=
  let users1 :=
    if dict_mem uid (users self) then users self
    else dict_set uid (new_user uid name) (users self) in
  match dict_get uid users1 with
  | Some user =>
      mk (dict_set uid
            (mkUserScore (user_id user) (user_name user)
               (post_count user + post)
               (positive_count user + positive)
               (reaction_count user + reaction_received)
               (violation_count user + violation)
               (total_score user))
            users1)
  | None => mk users1
  end.

Definition update_user_post
    (uid name : string) (analysis_result : dict value) (reactions_count : Z)
    (self : t) : t :=
  let positive :=
    if truthy (get "positive_feedback" (VBool false) analysis_result)
    then 1 else 0 in
  let violation :=
    if truthy (get "guideline_violation" (VBool false) analysis_result)
    then 1 else 0 in
  add_user_activity uid name 1 positive reactions_count violation self.

(** [sorted(l, key=key, reverse=True)] once the keys are there and none
    of them is NaN: a stable sort by decreasing key; elements with equal
    keys keep the order they have in [l].  [insert_desc] puts [x], which
    stands before every element of [l] in the input, in front of the first
    element whose key is not greater. *)
Section Sorted.
Variable A : Type.
Variable key : A -> Float.t.

Fixpoint insert_desc (x : A) (l : list A) : list A :=
  match l with
  | [] => [x]
  | y :: l' =>
      if Float.ltb (key x) (key y) then y :: insert_desc x l' else x :: l
  end.

Definition sorted_reverse (l : list A) : list A :=
  fold_right insert_desc [] l.
End Sorted.

(** [sorted] calls [key] on every element, in the order of the list, before
    it compares any two; the first exception ends the call. *)
Fixpoint keyed (l : list UserScore) : exn + list (Float.t * UserScore) :=
  match l with
  | [] => inr []
  | u :: l' =>
      match calculate_total_score u with
      | inl e => inl e
      | inr k =>
          match keyed l' with
          | inl e => inl e
          | inr kl => inr ((k, u) :: kl)
          end
      end
  end.

(** With a key that is NaN the comparisons are no order, and the list that
    [sorted] returns depends on the runs and merges of its algorithm: the
    call is [Unmodelled] then. *)
Definition calculate_rankings (self : t) : outcome (list UserScore) :=
  match keyed (values (users self)) with
  | inl e => Raise e
  | inr kl =>
      if existsb (fun ku => Float.is_nan (fst ku)) kl then Unmodelled
      else Ok (map snd (sorted_reverse fst kl))
  end.

(** One dict of the list [get_rankings] returns. *)
Record RankEntry : Type := mkRankEntry {
  rank : nat;
  re_user_id : string;
  re_user_name : string;
  re_total_score : Float.t;
  re_post_count : Z;
  re_positive_count : Z;
  re_reaction_count : Z
}.

Fixpoint enumerate_from {A} (n : nat) (l : list A) : list (nat * A) :=
  match l with
  | [] => []
  | x :: l' => (n, x) :: enumerate_from (S n) l'
  end.

(** The loop of [get_rankings]; it computes the score of each listed user
    once more. *)
Fixpoint rank_entries (l : list (nat * UserScore)) : exn + list RankEntry :=
  match l with
  | [] => inr []
  | (r, user) :: l' =>
      match calculate_total_score user with
      | inl e => inl e
      | inr score =>
          match rank_entries l' with
          | inl e => inl e
          | inr rankings =>
              inr (mkRankEntry r (user_id user) (user_name user) score
                     (post_count user) (positive_count user)
                     (reaction_count user)
                   :: rankings)
          end
      end
  end.

Definition get_rankings (top_n : nat) (self : t) : outcome (list RankEntry) :=
  match calculate_rankings self with
  | Ok sorted_users =>
      match rank_entries (enumerate_from 1 (take top_n sorted_users)) with
      | inl e => Raise e
      | inr rankings => Ok rankings
      end
  | Raise e => Raise e
  | Unmodelled => Unmodelled
  end.

(** The files of the process: a path is bound to the JSON document
    that was written there. *)
Definition filesystem : Type := dict value.

Definition save_to_file (filepath : string) (self : t) (fs : filesystem)
  : filesystem :=
  let data :=
    dict_of_items
      (map (fun kv =>
              let score := snd kv in
              (fst kv,
               VDict [("user_name", VStr (user_name score));
                      ("post_count", VInt (post_count score));
                      ("positive_count", VInt (positive_count score));
                      ("reaction_count", VInt (reaction_count score));
                      ("violation_count", VInt (violation_count score));
                      ("total_score", VFloat (total_score score))]))
           (users self)) in
  dict_set filepath (VDict data) fs.

(** [score_data.get(k, 0)] read into an [int] field. *)
Definition get_int (k : string) (score_data : dict value) : option Z :=
  match dict_get k score_data with
  | None => Some 0%Z
  | Some (VInt n) => Some n
  | Some _ => None
  end.

(** [score_data.get(k, 0.0)] read into a [float] field. *)
Definition get_float (k : string) (score_data : dict value) : option Q :=
  match dict_get k score_data with
  | None => Some 0%Q
  | Some (VFloat q) => Some q
  | Some (VInt n) => Some (inject_Z n)
  | Some _ => None
  end.

(** The [UserScore(...)] call in the loop of [load_from_file].  An entry
    that is no dict cannot be indexed by a key ([TypeError]); an entry
    without name raises [KeyError].  The call checks no type: a name that is
    no string or a count that is no [int] is stored as it is, in a record
    that the typed [UserScore] above cannot hold ([Unmodelled]). *)
Definition load_user (uid : string) (score_data : value) : outcome UserScore :=
  match score_data with
  | VDict sd =>
      match dict_get "user_name" sd with
      | None => Raise (KeyError "user_name")
      | Some (VStr name) =>
          match get_int "post_count" sd, get_int "positive_count" sd,
                get_int "reaction_count" sd, get_int "violation_count" sd,
                get_float "total_score" sd with
          | Some p, Some pos, Some r, Some v, Some tot =>
              Ok (mkUserScore uid name p pos r v tot)
          | _, _, _, _, _ => Unmodelled
          end
      | Some _ => Unmodelled
      end
  | _ => Raise TypeError
  end.

(** The loop of [load_from_file]: the users read so far and the exception
    that ended the loop, if any; [None] when an entry is [Unmodelled]. *)
Fixpoint load_items (items : list (string * value)) (us : dict UserScore)
  : option (dict UserScore * option exn) :=
  match items with
  | [] => Some (us, None)
  | (uid, score_data) :: rest =>
      match load_user uid score_data with
      | Raise e => Some (us, Some e)
      | Ok u => load_items rest (dict_set uid u us)
      | Unmodelled => None
      end
  end.

(** Returns the engine after the call and the exception that left it, if
    any.  A missing file raises [FileNotFoundError], which is caught: the
    engine is unchanged.  Any other exception escapes, after [self.users]
    was reset: a document that is no object has no [items]
    ([AttributeError]), and a bad entry leaves the entries read before it. *)
Definition load_from_file (filepath : string) (fs : filesystem) (self : t)
  : option (t * option exn) :=
  match dict_get filepath fs with
  | None => Some (self, None)
  | Some (VDict data) =>
      match load_items data [] with
      | Some (us, e) => Some (mk us, e)
      | None => None
      end
  | Some _ => Some (mk [], Some AttributeError)
  end.

End ScoringSystem.

(** ** content_analyzer.py *)

Module ContentAnalyzer.
Import Py.

(** The attributes of a [ContentAnalyzer] that [analyze_post] uses.  The
    model handle [self.model] is the parameter [generate_content] below. *)
Record t : Type := mk {
  last_request_time : Q;
  request_interval : Q
}.

(** [ContentAnalyzer(api_key)] *)
Definition init : t := mk 0 (9 # 2).

(** Wall-clock time: [time.time()] reads [clock], [time.sleep(d)] moves
    it forward by [d]. *)
Record world : Type := mkWorld { clock : Q }.

Definition sleep (d : Q) (w : world) : world := mkWorld (clock w + d).

(** The value returned when anything in the [try] block raises. *)
Definition safe_default : value :=
  VDict [("guideline_violation", VInt 0);
         ("violation_reason", VNone);
         ("positive_feedback", VBool false);
         ("positive_type", VNone);
         ("contribution_score", VInt 0)].

Definition quote : string := String (ascii_of_nat 34) "".

(** The f-string sent to the model. *)
Definition prompt (text : string) : string :=
  "
        以下のSlack投稿を分析し、JSON形式で結果を返してください：
        
        投稿内容: " ++ quote ++ text ++ quote ++ "
        
        分析項目:
        1. guideline_violation: ガイドライン違反の可能性（0-100%）
        2. violation_reason: 違反理由（違反の場合のみ）
        3. positive_feedback: ポジティブフィードバックかどうか（true/false）
        4. positive_type: ポジティブの種類（感謝、称賛、励まし、その他）
        5. contribution_score: 貢献度スコア（0-10）
        
        返答はJSON形式のみで、説明は不要です。
        ".

(** [l[i]]; [None] is an [IndexError]. *)
Definition index {A} (l : list A) (i : nat) : option A := nth_error l i.

(** The two [split] lines that take the JSON block out of the reply. *)
Definition extract_json (result_text : string) : option string :=
  if str_contains "```json" result_text then
    match index (str_split "```json" result_text) 1 with
    | Some rest => index (str_split "```" rest) 0
    | None => None
    end
  else if str_contains "```" result_text then
    match index (str_split "```" result_text) 1 with
    | Some rest => index (str_split "```" rest) 0
    | None => None
    end
  else Some result_text.

Section Analyzer.
(** [self.model.generate_content(prompt).text]: [None] when the call or
    the access to [.text] raises. *)
Variable generate_content : string -> option string.
(** Time the call to the model takes. *)
Variable latency : string -> Q.
(** [str.strip()] *)
Variable strip : string -> string.
(** [json.loads]: [None] when it raises. *)
Variable json_loads : string -> option value.

(** The [try] block: [None] when an exception reaches [except]. *)
Definition try_block (text : string) : option value :=
  match generate_content (prompt text) with
  | None => None
  | Some response_text =>
      match extract_json (strip response_text) with
      | None => None
      | Some result_text => json_loads result_text
      end
  end.

Definition analyze_post (text : string) (st : t * world) : value * (t * world) :=
  let (self, w) := st in
  let current_time := clock w in
  let time_since_last_request := current_time - last_request_time self in
  let w1 :=
    if Qlt_le_dec time_since_last_request (request_interval self)
    then sleep (request_interval self - time_since_last_request) w
    else w in
  let self1 := mk (clock w1) (request_interval self) in
  let w2 := mkWorld (clock w1 + latency (prompt text)) in
  let result :=
    match try_block text with
    | Some payload => payload
    | None => safe_default
    end in
  (result, (self1, w2)).

Fixpoint batch_analyze (posts : list string) (st : t * world)
  : list value * (t * world) :=
  match posts with
  | [] => ([], st)
  | post :: rest =>
      let (result, st1) := analyze_post post st in
      let (results, st2) := batch_analyze rest st1 in
      (result :: results, st2)
  end.

(** The times at which the calls of [batch_analyze posts] are issued:
    the value of [last_request_time] after each call. *)
Fixpoint issue_times (posts : list string) (st : t * world) : list Q :=
  match posts with
  | [] => []
  | post :: rest =>
      let st1 := snd (analyze_post post st) in
      last_request_time (fst st1) :: issue_times rest st1
  end.
End Analyzer.

End ContentAnalyzer.

(** ** slack_client.py *)

Module SlackClient.
Import Py.

(** The dict [enrich_messages_with_user_info] attaches to a message.  A
    hand-made message may come without [real_name]. *)
Record UserInfo : Type := mkUserInfo {
  real_name : option string;
  display_name : string;
  is_bot : bool
}.

(** A message of [conversations.history], with the keys the pipeline
    reads; [None] is an absent key. *)
Record Message : Type := mkMessage {
  user : option string;
  text : option string;
  ts : option string;
  subtype : option string;
  user_info : option UserInfo
}.

(** A user of [users.info]. *)
Record SlackUser : Type := mkSlackUser {
  su_real_name : option string;
  su_display_name : option string;
  su_is_bot : option bool
}.

(** One entry of the [reactions] list of a message. *)
Record Reaction : Type := mkReaction {
  name : string;
  count : option Z
}.

(** A [SlackClient], given by what its API-backed methods come to.  The
    first three already turn a [SlackApiError] into an empty result;
    [post_message] raises it again: it is given by whether
    [chat_postMessage] accepts the channel and the text. *)
Record t : Type := mk {
  get_channel_messages : string -> Z -> list Message;
  get_user_info : string -> option SlackUser;
  get_reactions : string -> string -> list Reaction;
  post_message : string -> string -> bool
}.

Definition or_default {A} (default : A) (o : option A) : A :=
  match o with Some a => a | None => default end.

(** The loop of [enrich_messages_with_user_info], with its [user_cache]. *)
Fixpoint enrich_loop (self : t) (user_cache : dict UserInfo)
    (messages : list Message) : list Message :=
  match messages with
  | [] => []
  | message :: rest =>
      let user_cache1 :=
        match user message with
        | Some uid =>
            if negb (uid =? "") && negb (dict_mem uid user_cache) then
              match get_user_info self uid with
              | Some info =>
                  dict_set uid
                    (mkUserInfo (Some (or_default "" (su_real_name info)))
                       (or_default "" (su_display_name info))
                       (or_default false (su_is_bot info)))
                    user_cache
              | None => user_cache
              end
            else user_cache
        | None => user_cache
        end in
      let message1 :=
        match user message with
        | Some uid =>
            match dict_get uid user_cache1 with
            | Some cached =>
                mkMessage (user message) (text message) (ts message)
                  (subtype message) (Some cached)
            | None => message
            end
        | None => message
        end in
      message1 :: enrich_loop self user_cache1 rest
  end.

Definition enrich_messages_with_user_info (self : t) (messages : list Message)
  : list Message :=
  enrich_loop self [] messages.

End SlackClient.

(** ** message_processor.py *)

Module MessageProcessor.
Import Py.
Import SlackClient.

(** A [ContentAnalyzer] as the processor sees it: what [analyze_post]
    returns for a text, which is the safe default or whatever [json.loads]
    made of the reply of the model. *)
Record Analyzer : Type := mkAnalyzer {
  analyze_post : string -> value
}.

Inductive Severity : Type := low | medium | high.

(** Modelled from the spec: [ViolationAlert] of [src/notification_system.py],
    which is not among the sources; the fields are those of the data model
    and of the constructor call in [_analyze_message]. *)
Record ViolationAlert : Type := mkViolationAlert {
  va_user_id : string;
  va_user_name : string;
  va_real_name : option string;
  va_message_content : string;
  va_violation_reason : value;
  va_channel_id : string;
  va_message_id : string;
  va_timestamp : Q;
  va_severity : Severity
}.

(** Modelled from the spec: [NotificationSystem] of
    [src/notification_system.py], which is not among the sources.  It takes
    one alert per call; whether the delivery succeeds or fails changes
    nothing in the processor, so it is given by the alerts handed to it. *)
Record NotificationSystem : Type := mkNotificationSystem {
  dispatched : list ViolationAlert
}.

Definition send_violation_alert (alert : ViolationAlert)
    (ns : NotificationSystem) : NotificationSystem :=
  mkNotificationSystem (dispatched ns ++ [alert]).

(** An entry of [self.violations]. *)
Record Violation : Type := mkViolation {
  v_user_id : string;
  v_user_name : string;
  v_text : string;
  v_timestamp : string;
  v_channel_id : string;
  v_violation_reason : value
}.

(** An entry of [self.positive_messages]. *)
Record Positive : Type := mkPositive {
  p_user_id : string;
  p_user_name : string;
  p_text : string;
  p_timestamp : string;
  p_channel_id : string;
  p_positive_type : value
}.

(** The attributes of a [MessageProcessor] ([self.db] is not used by
    [process_channel]). *)
Record t : Type := mk {
  slack : option SlackClient.t;
  analyzer : option Analyzer;
  scoring : ScoringSystem.t;
  violations : list Violation;
  positive_messages : list Positive;
  notification_system : option NotificationSystem
}.

(** [MessageProcessor(...)]: the lists and the scoring engine start empty. *)
Definition init (slack : option SlackClient.t) (analyzer : option Analyzer)
    (notification_system : option NotificationSystem) : t :=
  mk slack analyzer ScoringSystem.init [] [] notification_system.

(** The values of the dict [process_channel] returns. *)
Inductive summary_value : Type :=
| SInt (n : Z)
| SScores (l : list ScoringSystem.UserScore).

(** What a call of [process_channel] comes to; [Unranked] when the ranking
    of the contributors is [Unmodelled]. *)
Inductive result : Type :=
| Returned (d : dict summary_value)
| Raised (e : exn)
| Unranked.

Definition _should_analyze (message : Message) : bool :=
  if or_default false (option_map is_bot (user_info message)) then false
  else if negb (or_default "" (subtype message) =? "") then false
  else if or_default "" (text message) =? "" then false
  else true.

Definition high_words : list string := ["緊急"; "重大"; "深刻"; "ひどい"].
Definition medium_words : list string := ["不適切"; "問題"; "良くない"].

Section Processor.
(** [str.lower()] *)
Variable lower : string -> string.
(** [datetime.fromtimestamp(float(s))], as seconds; [None] when [float]
    or [fromtimestamp] raises. *)
Variable fromtimestamp : string -> option Q.

(** Lines 121-127: the severity of a violation. *)
Definition severity_of (text : string) : Severity :=
  let violation_text := lower text in
  if any (fun word => str_contains word violation_text) high_words then high
  else if any (fun word => str_contains word violation_text) medium_words
  then medium
  else low.

(** The [try] block that builds and sends the alert; an exception in it
    is logged and dropped. *)
Definition send_alert (message : Message) (channel_id : string)
    (analysis : dict value) (ns : NotificationSystem) : NotificationSystem :=
  let text := or_default "" (SlackClient.text message) in
  let user_id := or_default "" (user message) in
  let user_name :=
    match user_info message with
    | Some info => or_default user_id (real_name info)
    | None => user_id
    end in
  let timestamp := or_default "" (ts message) in
  let severity := severity_of text in
  match fromtimestamp timestamp with
  | None => ns
  | Some alert_timestamp =>
      send_violation_alert
        (mkViolationAlert user_id user_name
           (match user_info message with
            | Some info => real_name info
            | None => None
            end)
           text
           (get "violation_details"
              (VStr "ガイドライン違反が検出されました") analysis)
           channel_id timestamp alert_timestamp severity)
        ns
  end.

Definition _analyze_message (message : Message) (channel_id : string)
    (self : t) : t * option exn :=
  let text := or_default "" (SlackClient.text message) in
  let user_id := or_default "" (user message) in
  let user_name :=
    match user_info message with
    | Some info => or_default user_id (real_name info)
    | None => user_id
    end in
  let timestamp := or_default "" (ts message) in
  match analyzer self with
  | None => (self, Some AttributeError)
  | Some an =>
      match analyze_post an text with
      | VDict analysis =>
          let self1 :=
            if truthy (get "guideline_violation" (VBool false) analysis) then
              mk (slack self) (analyzer self) (scoring self)
                 (violations self ++
                    [mkViolation user_id user_name text timestamp channel_id
                       (get "violation_details" (VStr "") analysis)])
                 (positive_messages self)
                 (option_map (send_alert message channel_id analysis)
                    (notification_system self))
            else self in
          let self2 :=
            if truthy (get "is_positive" (VBool false) analysis) then
              mk (slack self1) (analyzer self1) (scoring self1)
                 (violations self1)
                 (positive_messages self1 ++
                    [mkPositive user_id user_name text timestamp channel_id
                       (get "positive_details" (VStr "") analysis)])
                 (notification_system self1)
            else self1 in
          match slack self2 with
          | None => (self2, Some AttributeError)
          | Some sl =>
              let reactions := get_reactions sl channel_id timestamp in
              let reaction_count :=
                sum (map (fun r => or_default 0%Z (count r)) reactions) in
              (mk (slack self2) (analyzer self2)
                  (ScoringSystem.add_user_activity user_id user_name 1
                     (if truthy (get "is_positive" (VBool false) analysis)
                      then 1%Z else 0%Z)
                     reaction_count 0 (scoring self2))
                  (violations self2) (positive_messages self2)
                  (notification_system self2),
               None)
          end
      | _ =>
          (* [analysis.get] on a value that is no dict *)
          (self, Some AttributeError)
      end
  end.

(** The [for] loop of [process_channel]; it stops at the first
    exception. *)
Fixpoint analyze_all (messages : list Message) (channel_id : string)
    (self : t) : t * option exn :=
  match messages with
  | [] => (self, None)
  | message :: rest =>
      if _should_analyze message then
        match _analyze_message message channel_id self with
        | (self1, None) => analyze_all rest channel_id self1
        | (self1, Some e) => (self1, Some e)
        end
      else analyze_all rest channel_id self
  end.

Definition process_channel (channel_id : string) (hours : Z) (self : t)
  : result * t :=
  match slack self with
  | None => (Raised AttributeError, self)
  | Some sl =>
      let messages := get_channel_messages sl channel_id hours in
      match messages with
      | [] => (Returned [], self)
      | _ :: _ =>
          let messages1 := enrich_messages_with_user_info sl messages in
          match analyze_all messages1 channel_id self with
          | (self1, Some e) => (Raised e, self1)
          | (self1, None) =>
              match ScoringSystem.calculate_rankings (scoring self1) with
              | Ok scores =>
                  (Returned
                     [("total_messages", SInt (Z.of_nat (length messages1)));
                      ("violations_found",
                       SInt (Z.of_nat (length (violations self1))));
                      ("positive_messages",
                       SInt (Z.of_nat (length (positive_messages self1))));
                      ("top_contributors", SScores (take 5 scores))],
                   self1)
              | Raise e => (Raised e, self1)
              | Unmodelled => (Unranked, self1)
              end
          end
      end
  end.
End Processor.

End MessageProcessor.

(** ** demo_prototype.py *)

Module DemoPrototype.
Import Py.

(** The test of [run_demo] that records a post as a violation:
    [result.get("guideline_violation", 0) > 50]; [None] when the
    comparison raises [TypeError]. *)
Definition records_violation (result : dict value) : option bool :=
  gt_int (get "guideline_violation" (VInt 0) result) 50.

(** [run_demo] scores every post through [update_user_post]. *)
Definition score_post (uid name : string) (result : dict value)
    (reactions_count : Z) (scoring : ScoringSystem.t) : ScoringSystem.t :=
  ScoringSystem.update_user_post uid name result reactions_count scoring.

End DemoPrototype.

(** ** Vocabulary of the properties *)

Module Spec.
Import Py.

(** One call [add_user_activity(user_id, user_name, post_count,
    positive_count, reaction_received, violation_count)]. *)
Record Call : Type := mkCall {
  c_user_id : string;
  c_user_name : string;
  c_post : Z;
  c_positive : Z;
  c_reaction : Z;
  c_violation : Z
}.

Definition apply_call (c : Call) (s : ScoringSystem.t) : ScoringSystem.t :=
  ScoringSystem.add_user_activity (c_user_id c) (c_user_name c)
    (c_post c) (c_positive c) (c_reaction c) (c_violation c) s.

(** The calls of a list, made one after the other. *)
Definition record_all (calls : list Call) (s : ScoringSystem.t)
  : ScoringSystem.t :=
  fold_left (fun acc c => apply_call c acc) calls s.

(** The calls of a list that are about user [uid]. *)
Definition calls_of (uid : string) (calls : list Call) : list Call :=
  filter (fun c => c_user_id c =? uid) calls.

(** The ids of a list in the order in which each one first occurs,
    leaving out those of [seen]. *)
Fixpoint first_occurrences (seen ids : list string) : list string :=
  match ids with
  | [] => []
  | i :: rest =>
      if existsb (String.eqb i) seen then first_occurrences seen rest
      else i :: first_occurrences (i :: seen) rest
  end.

(** [x] stands somewhere before [y] in [l]. *)
Definition precedes {A} (x y : A) (l : list A) : Prop :=
  exists l1 l2 l3, l = (l1 ++ x :: l2 ++ y :: l3)%list.

(** [a] does not come after [b] in a list sorted by decreasing [key]:
    its key is not less. *)
Definition key_geq {A} (key : A -> Float.t) (a b : A) : Prop :=
  Float.ltb (key a) (key b) = false.

(** The derived total score as a number: [postCount*1.0 +
    positiveCount*5.0 + reactionCount*2.0 - violationCount*10.0]. *)
Definition derived_score (u : ScoringSystem.UserScore) : Z :=
  (ScoringSystem.post_count u * 1
   + ScoringSystem.positive_count u * 5
   + ScoringSystem.reaction_count u * 2
   - ScoringSystem.violation_count u * 10)%Z.

(** The derived score of [a] is not less than that of [b]. *)
Definition score_geq (a b : ScoringSystem.UserScore) : Prop :=
  (derived_score b <= derived_score a)%Z.

(** The counts of [u] are small enough for the floats to compute the
    derived score without rounding: no sum of its terms reaches [2^53]. *)
Definition in_exact_range (u : ScoringSystem.UserScore) : bool :=
  (Z.abs (ScoringSystem.post_count u)
   + 5 * Z.abs (ScoringSystem.positive_count u)
   + 2 * Z.abs (ScoringSystem.reaction_count u)
   + 10 * Z.abs (ScoringSystem.violation_count u) <? 2 ^ 53)%Z.

(** [calculate_total_score] returns a number for [u]: it does not raise
    and its result is not NaN. *)
Definition scored (u : ScoringSystem.UserScore) : bool :=
  match ScoringSystem.calculate_total_score u with
  | inr x => negb (Float.is_nan x)
  | inl _ => false
  end.

(** The float that [calculate_total_score] returns for [u]; NaN stands in
    when it raises. *)
Definition float_score (u : ScoringSystem.UserScore) : Float.t :=
  match ScoringSystem.calculate_total_score u with
  | inr x => x
  | inl _ => Float.NaN
  end.

Fixpoint distinct (l : list string) : bool :=
  match l with
  | [] => true
  | x :: l' => negb (existsb (String.eqb x) l') && distinct l'
  end.

(** The invariant of [ScoringSystem.users]: the keys are pairwise distinct
    and every record is stored under its own [user_id]. *)
Definition well_formed (s : ScoringSystem.t) : bool :=
  distinct (keys (ScoringSystem.users s))
  && forallb (fun kv => fst kv =? ScoringSystem.user_id (snd kv))
             (ScoringSystem.users s).

(** The record [u] with its stored [total_score] replaced by [g u]. *)
Definition retotal (g : ScoringSystem.UserScore -> Q)
    (u : ScoringSystem.UserScore) : ScoringSystem.UserScore :=
  ScoringSystem.mkUserScore
    (ScoringSystem.user_id u) (ScoringSystem.user_name u)
    (ScoringSystem.post_count u) (ScoringSystem.positive_count u)
    (ScoringSystem.reaction_count u) (ScoringSystem.violation_count u) (g u).

(** The engine [s] with the stored [total_score] of every record
    replaced. *)
Definition with_total (g : ScoringSystem.UserScore -> Q)
    (s : ScoringSystem.t) : ScoringSystem.t :=
  ScoringSystem.mk
    (map (fun kv => (fst kv, retotal g (snd kv))) (ScoringSystem.users s)).

(** [sub] occurs in [s]. *)
Definition occurs (sub s : string) : Prop :=
  exists a b, s = (a ++ sub ++ b)%string.

(** [s] without its first [n] characters. *)
Fixpoint drop (n : nat) (s : string) : string :=
  match n, s with
  | O, _ => s
  | S _, EmptyString => EmptyString
  | S n', String _ s' => drop n' s'
  end.

(** The text before and the text after the leftmost occurrence of [sep]
    in [s]. *)
Fixpoint cut (sep s : string) : option (string * string) :=
  if prefix sep s then Some (EmptyString, drop (String.length sep) s)
  else match s with
       | EmptyString => None
       | String c s' =>
           match cut sep s' with
           | Some (a, b) => Some (String c a, b)
           | None => None
           end
       end.

(** [s] up to its leftmost occurrence of [sep], all of [s] if there is
    none. *)
Definition before (sep s : string) : string :=
  match cut sep s with Some (a, _) => a | None => s end.

(** The reply without its fencing: what follows the first [```json] marker,
    up to the next [```json] or [```] marker; failing that, what follows the
    first [```] marker up to the next one; failing that, the reply itself. *)
Definition unfence (reply : string) : string :=
  match cut "```json" reply with
  | Some (_, rest) => before "```" (before "```json" rest)
  | None =>
      match cut "```" reply with
      | Some (_, rest) => before "```" rest
      | None => reply
      end
  end.

(** No character of [s] is [c]. *)
Fixpoint free_of (c : ascii) (s : string) : bool :=
  match s with
  | EmptyString => true
  | String a s' => negb (Ascii.eqb a c) && free_of c s'
  end.

Definition backtick : ascii := ascii_of_nat 96.


Fixpoint last_time (t : Q) (ts : list Q) : Q :=
  match ts with
  | [] => t
  | t' :: rest => last_time t' rest
  end.


(** The number of calls, as a rational. *)
Definition count_of {A} (l : list A) : Q := inject_Z (Z.of_nat (length l)).


(** What a run of [process_channel] over channel [ch] works on, for a Slack
    client [sl] and a classifier [an]. *)
Section Runs.
Import SlackClient MessageProcessor.
Variable sl : SlackClient.t.
Variable an : Analyzer.

(** The messages fetched for the channel, with their user information. *)
Definition fetched (ch : string) (hours : Z) : list Message :=
  enrich_messages_with_user_info sl (get_channel_messages sl ch hours).

(** Those of them that are analyzed. *)
Definition analyzed (ch : string) (hours : Z) : list Message :=
  filter _should_analyze (fetched ch hours).

(** The classifier answers with a dict for the text of [m]. *)
Definition answers_dict (m : Message) : bool :=
  match analyze_post an (or_default "" (text m)) with
  | VDict _ => true
  | _ => false
  end.

(** The dict the classifier answers for [m]. *)
Definition analysis_of (m : Message) : dict value :=
  as_dict (analyze_post an (or_default "" (text m))).

(** The value the classifier gives as violation score of [m]. *)
Definition violation_score (m : Message) : value :=
  get "guideline_violation" (VBool false) (analysis_of m).

(** The processor takes [m] for a violation. *)
Definition flagged (m : Message) : bool := truthy (violation_score m).

(** The processor takes [m] for a positive message. *)
Definition praised (m : Message) : bool :=
  truthy (get "is_positive" (VBool false) (analysis_of m)).

Definition author (m : Message) : string := or_default "" (user m).

Definition author_name (m : Message) : string :=
  match user_info m with
  | Some info => or_default (author m) (real_name info)
  | None => author m
  end.

(** The activity [_analyze_message] records for [m]. *)
Definition activity (ch : string) (m : Message) : Call :=
  mkCall (author m) (author_name m) 1
    (if praised m then 1 else 0)
    (sum (map (fun r => or_default 0%Z (count r))
            (get_reactions sl ch (or_default "" (ts m)))))
    0.

(** The entry [_analyze_message] adds to [self.violations] for [m]. *)
Definition violation_entry (ch : string) (m : Message) : Violation :=
  mkViolation (author m) (author_name m) (or_default "" (text m))
    (or_default "" (ts m)) ch
    (get "violation_details" (VStr "") (analysis_of m)).
(** The entry [_analyze_message] adds to [self.positive_messages] for [m]. *)
Definition positive_entry (ch : string) (m : Message) : Positive :=
  mkPositive (author m) (author_name m) (or_default "" (text m))
    (or_default "" (ts m)) ch
    (get "positive_details" (VStr "") (analysis_of m)).
End Runs.

End Spec.

(** ** Scenarios *)

Module Scenario.
Import Py SlackClient MessageProcessor.

(** [str.lower()] on the letters A to Z; the texts below have no other
    cased letter. *)
Definition lower_char (c : ascii) : ascii :=
  let n := nat_of_ascii c in
  if (65 <=? n)%nat && (n <=? 90)%nat then ascii_of_nat (n + 32) else c.

Fixpoint lower (s : string) : string :=
  match s with
  | EmptyString => EmptyString
  | String c s' => String (lower_char c) (lower s')
  end.

(** The time stamps of the messages below, read as seconds. *)
Definition fromtimestamp (s : string) : option Q :=
  if s =? "1.0" then Some 1%Q
  else if s =? "2.0" then Some 2%Q
  else if s =? "3.0" then Some 3%Q
  else None.

Definition thanks : Message :=
  mkMessage (Some "U1") (Some "ありがとうございます！") (Some "1.0") None None.

Definition blame : Message :=
  mkMessage (Some "U2") (Some "こんな簡単なこともわからないの？") (Some "2.0")
    None None.

(** A message the classifier scores 30 out of 100. *)
Definition doubt : Message :=
  mkMessage (Some "U3") (Some "その考え方は完全に間違ってますね。") (Some "3.0")
    None None.

(** Channel C1 holds [thanks] and [blame], channel C2 holds [doubt], any
    other channel is empty; U1 is called A, U2 is called B; no message has
    reactions; every post is accepted. *)
Definition stub_slack : SlackClient.t :=
  SlackClient.mk
    (fun ch _ =>
       if ch =? "C1" then [thanks; blame]
       else if ch =? "C2" then [doubt] else [])
    (fun uid =>
       if uid =? "U1" then Some (mkSlackUser (Some "A") None None)
       else if uid =? "U2" then Some (mkSlackUser (Some "B") None None)
       else None)
    (fun _ _ => [])
    (fun _ _ => true).

(** The stub classifier, with the keys [_analyze_message] reads. *)
Definition stub_classifier : Analyzer :=
  mkAnalyzer
    (fun text =>
       VDict
         (if text =? "ありがとうございます！"
          then [("guideline_violation", VInt 0); ("is_positive", VBool true)]
          else if text =? "こんな簡単なこともわからないの？"
          then [("guideline_violation", VInt 80); ("is_positive", VBool false)]
          else [("guideline_violation", VInt 30); ("is_positive", VBool false)])).

(** A processor over the stubs, without and with a notification system. *)
Definition processor : MessageProcessor.t :=
  MessageProcessor.init (Some stub_slack) (Some stub_classifier) None.

Definition notifying_processor : MessageProcessor.t :=
  MessageProcessor.init (Some stub_slack) (Some stub_classifier)
    (Some (mkNotificationSystem [])).

Definition run (ch : string) (p : MessageProcessor.t)
  : MessageProcessor.result * MessageProcessor.t :=
  process_channel lower fromtimestamp ch 24 p.

End Scenario.

(** ** Measures on the scoring engine *)

Module Measures.
Import Py ScoringSystem Spec.
Local Open Scope Z_scope.

(** The sum of a count over all the records of an engine. *)
Definition total (f : UserScore -> Z) (s : ScoringSystem.t) : Z :=
  sum (map f (values (users s))).

(** The points one call is worth, with the weights of
    [calculate_total_score]. *)
Definition points (c : Call) : Z :=
  c_post c * 1 + c_positive c * 5 + c_reaction c * 2 - c_violation c * 10.

(** The derived score of a user, as [calculate_total_score] computes it; a
    user without a record has none, which counts as 0. *)
Definition score_of (uid : string) (s : ScoringSystem.t) : exn + Float.t :=
  match dict_get uid (users s) with
  | Some u => calculate_total_score u
  | None => inr (Float.Num 0)
  end.

(** The weighted sum of the counts of a user. *)
Definition weighted_sum_of (uid : string) (s : ScoringSystem.t) : Z :=
  match dict_get uid (users s) with
  | Some u => derived_score u
  | None => 0
  end.

(** The counts of the user, if there is a record, are in the range in
    which the score is computed without rounding. *)
Definition exact_for (uid : string) (s : ScoringSystem.t) : bool :=
  match dict_get uid (users s) with
  | Some u => in_exact_range u
  | None => true
  end.

End Measures.

(** ** Measures on a batch of classifications *)

Module Timing.
Import ContentAnalyzer.

(** The time the calls to the model take for the posts of a batch. *)
Definition total_latency (latency : string -> Q) (posts : list string) : Q :=
  fold_right (fun post acc => latency (prompt post) + acc)%Q 0%Q posts.

End Timing.

(** ** slack_client.py: the calls to the Slack Web API *)

Module SlackApi.
Import Py SlackClient.
Local Open Scope list_scope.

(** A response of [conversations.history], with the keys the client reads:
    [messages], [has_more] and [response_metadata.next_cursor]. *)
Record HistoryPage : Type := mkHistoryPage {
  hp_messages : list Message;
  hp_has_more : option bool;
  hp_next_cursor : option string
}.

(** A channel of [conversations.list]. *)
Record Channel : Type := mkChannel {
  ch_id : string;
  ch_name : string;
  ch_is_member : option bool
}.

(** A response of [conversations.list]. *)
Record ChannelsPage : Type := mkChannelsPage {
  cp_channels : list Channel;
  cp_has_more : option bool;
  cp_next_cursor : option string
}.

(** The [WebClient]: what each call answers for its arguments, [None] when
    it raises [SlackApiError].  [conversations_history] takes the channel,
    [oldest] and the cursor, [conversations_list] takes the cursor. *)
Record WebClient : Type := mkWebClient {
  conversations_history : string -> string -> option string -> option HistoryPage;
  conversations_list : option string -> option ChannelsPage
}.

(** The [while True] loop of [get_channel_messages]; [fuel] bounds the
    number of pages that are asked for, and [None] means that the bound was
    reached before the loop ended. *)
Fixpoint history_loop (client : WebClient) (channel_id oldest : string)
    (fuel : nat) (cursor : option string) (messages : list Message)
  : option (list Message) :=
  match fuel with
  | O => None
  | S fuel' =>
      match conversations_history client channel_id oldest cursor with
      | None => Some []
      | Some response =>
          let messages1 := messages ++ hp_messages response in
          if negb (or_default false (hp_has_more response)) then Some messages1
          else history_loop client channel_id oldest fuel'
                 (hp_next_cursor response) messages1
      end
  end.

(** [oldest_of hours] is [str((datetime.now() - timedelta(hours)).timestamp())]. *)
Definition get_channel_messages (client : WebClient) (oldest_of : Z -> string)
    (channel_id : string) (hours : Z) (fuel : nat) : option (list Message) :=
  history_loop client channel_id (oldest_of hours) fuel None [].

(** The [while True] loop of [get_channels]. *)
Fixpoint channels_loop (client : WebClient) (fuel : nat)
    (cursor : option string) (channels : list Channel)
  : option (list Channel) :=
  match fuel with
  | O => None
  | S fuel' =>
      match conversations_list client cursor with
      | None => Some []
      | Some response =>
          let channels1 :=
            channels ++
            filter (fun channel => or_default false (ch_is_member channel))
              (cp_channels response) in
          if negb (or_default false (cp_has_more response)) then Some channels1
          else channels_loop client fuel' (cp_next_cursor response) channels1
      end
  end.

Definition get_channels (client : WebClient) (fuel : nat)
  : option (list Channel) :=
  channels_loop client fuel None [].

(** The pages the history of a channel is made of, from [cursor] on: each
    page but the last says that there is more. *)
Inductive history_pages (client : WebClient) (channel_id oldest : string)
  : option string -> list HistoryPage -> Prop :=
| pages_last cursor page :
    conversations_history client channel_id oldest cursor = Some page ->
    or_default false (hp_has_more page) = false ->
    history_pages client channel_id oldest cursor [page]
| pages_more cursor page pages :
    conversations_history client channel_id oldest cursor = Some page ->
    or_default false (hp_has_more page) = true ->
    history_pages client channel_id oldest (hp_next_cursor page) pages ->
    history_pages client channel_id oldest cursor (page :: pages).

(** From [cursor] on, the pages of [good] are answered and the call after
    them raises [SlackApiError]. *)
Inductive history_breaks (client : WebClient) (channel_id oldest : string)
  : option string -> list HistoryPage -> Prop :=
| breaks_now cursor :
    conversations_history client channel_id oldest cursor = None ->
    history_breaks client channel_id oldest cursor []
| breaks_later cursor page good :
    conversations_history client channel_id oldest cursor = Some page ->
    or_default false (hp_has_more page) = true ->
    history_breaks client channel_id oldest (hp_next_cursor page) good ->
    history_breaks client channel_id oldest cursor (page :: good).

(** The pages the list of channels is made of, from [cursor] on. *)
Inductive channel_pages (client : WebClient)
  : option string -> list ChannelsPage -> Prop :=
| channels_last cursor page :
    conversations_list client cursor = Some page ->
    or_default false (cp_has_more page) = false ->
    channel_pages client cursor [page]
| channels_more cursor page pages :
    conversations_list client cursor = Some page ->
    or_default false (cp_has_more page) = true ->
    channel_pages client (cp_next_cursor page) pages ->
    channel_pages client cursor (page :: pages).

(** From [cursor] on, the pages of [good] are answered and the call after
    them raises [SlackApiError]. *)
Inductive channel_breaks (client : WebClient)
  : option string -> list ChannelsPage -> Prop :=
| channels_break_now cursor :
    conversations_list client cursor = None ->
    channel_breaks client cursor []
| channels_break_later cursor page good :
    conversations_list client cursor = Some page ->
    or_default false (cp_has_more page) = true ->
    channel_breaks client (cp_next_cursor page) good ->
    channel_breaks client cursor (page :: good).

(** The bot is a member of the channel. *)
Definition is_member (channel : Channel) : bool :=
  or_default false (ch_is_member channel).

(** The [user_info] dict built from a user of [users.info]. *)
Definition info_of (raw : SlackUser) : UserInfo :=
  mkUserInfo (Some (or_default "" (su_real_name raw)))
    (or_default "" (su_display_name raw))
    (or_default false (su_is_bot raw)).

(** A message with the information on its author, when the author is known
    to Slack; the message as it is otherwise. *)
Definition with_user_info (self : SlackClient.t) (message : Message) : Message :=
  match user message with
  | Some uid =>
      if uid =? "" then message
      else match get_user_info self uid with
           | Some raw =>
               mkMessage (user message) (text message) (ts message)
                 (subtype message) (Some (info_of raw))
           | None => message
           end
  | None => message
  end.

End SlackApi.

(** ** Vocabulary on the alerts and on failed classifications *)

Module Alerts.
Import Py SlackClient MessageProcessor Spec.
Local Open Scope list_scope.

(** The time stamp of [m] can be read, so that an alert for [m] can be
    built. *)
Definition alertable (fromtimestamp : string -> option Q) (m : Message) : bool :=
  match fromtimestamp (or_default "" (ts m)) with
  | Some _ => true
  | None => false
  end.

(** The notification system after the alerts for the violations among
    [msgs] were handed to it, one after the other. *)
Definition alerted (lower : string -> string)
    (fromtimestamp : string -> option Q) (an : Analyzer) (ch : string)
    (msgs : list Message) (ns : NotificationSystem) : NotificationSystem :=
  fold_left
    (fun acc m => send_alert lower fromtimestamp m ch (analysis_of an m) acc)
    (filter (flagged an) msgs) ns.

End Alerts.

(** ** message_processor.py: the reports *)

Module Reports.
Import Py MessageProcessor.
Local Open Scope string_scope.

(** The character [\n]. *)
Definition nl : string := String (ascii_of_nat 10) "".

(** [s * n] *)
Fixpoint repeat_str (s : string) (n : nat) : string :=
  match n with
  | O => ""
  | S n' => s ++ repeat_str s n'
  end.

(** In UTF-8 a byte [10xxxxxx] goes on with the character begun before. *)
Definition is_continuation (c : ascii) : bool :=
  let n := nat_of_ascii c in (128 <=? n)%nat && (n <? 192)%nat.

(** [s[:n]]: the first [n] characters of [s]. *)
Fixpoint str_take (n : nat) (s : string) : string :=
  match s with
  | EmptyString => EmptyString
  | String c s' =>
      if is_continuation c then String c (str_take n s')
      else match n with
           | O => EmptyString
           | S n' => String c (str_take n' s')
           end
  end.

Section Format.
(** [str(v)], as an f-string formats a value. *)
Variable str_of : value -> string.

(** The lines the loop of [get_violations_report] adds for one violation. *)
Definition violation_block (v : Violation) : string :=
  "ユーザー: " ++ v_user_name v ++ nl
  ++ "投稿内容: " ++ str_take 50 (v_text v) ++ "..." ++ nl
  ++ "違反理由: " ++ str_of (v_violation_reason v) ++ nl
  ++ "チャンネル: <#" ++ v_channel_id v ++ ">" ++ nl
  ++ repeat_str "-" 40 ++ nl.

Definition get_violations_report (self : MessageProcessor.t) : string :=
  match violations self with
  | [] => "ガイドライン違反は検出されませんでした。"
  | _ :: _ =>
      fold_left (fun report v => report ++ violation_block v)
        (violations self)
        ("【ガイドライン違反レポート】" ++ nl ++ nl)
  end.

(** The lines the loop of [get_positive_report] adds for one message. *)
Definition positive_block (p : Positive) : string :=
  "ユーザー: " ++ p_user_name p ++ nl
  ++ "投稿内容: " ++ str_take 50 (p_text p) ++ "..." ++ nl
  ++ "種類: " ++ str_of (p_positive_type p) ++ nl
  ++ repeat_str "-" 40 ++ nl.

Definition get_positive_report (self : MessageProcessor.t) : string :=
  match positive_messages self with
  | [] => "ポジティブな投稿は検出されませんでした。"
  | _ :: _ =>
      fold_left (fun report p => report ++ positive_block p)
        (take 10 (positive_messages self))
        ("【ポジティブ投稿レポート】" ++ nl ++ nl)
  end.
End Format.

(** The line [notify_violations] adds for one violation. *)
Definition mention_line (v : Violation) : string :=
  "• <@" ++ v_user_id v ++ "> の投稿をチェックしてください" ++ nl.

(** [notify_violations]: the channel and the text handed to
    [slack.post_message], if the call is made, and the exception raised, if
    any.  A processor without Slack client has [self.slack = None]
    ([AttributeError]); [post_message] raises the [SlackApiError] of a post
    that is not accepted. *)
Definition notify_violations (admin_channel : string) (self : MessageProcessor.t)
  : option (string * string) * option exn :=
  match violations self with
  | [] => (None, None)
  | _ :: _ =>
      let text :=
        fold_left (fun text v => text ++ mention_line v)
          (violations self)
          ("⚠️ ガイドライン違反の可能性がある投稿を検出しました" ++ nl ++ nl) in
      match slack self with
      | None => (None, Some AttributeError)
      | Some sl =>
          (Some (admin_channel, text),
           if SlackClient.post_message sl admin_channel text then None
           else Some SlackApiError)
      end
  end.

End Reports.

(** ** main_slack_bot.py *)

Module Main.
Import Py MessageProcessor SlackApi Reports.
Local Open Scope string_scope.

Section Print.
(** [str(n)] for an [int], [str(x)] for a [float] and for the list of
    records, as an f-string formats them. *)
Variable str_int : Z -> string.
Variable str_float : Q -> string.
Variable str_scores : list ScoringSystem.UserScore -> string.

Definition show (v : summary_value) : string :=
  match v with
  | SInt n => str_int n
  | SScores l => str_scores l
  end.

(** [bool(v)] for a value of the summary. *)
Definition summary_truthy (v : summary_value) : bool :=
  match v with
  | SInt n => negb (n =? 0)%Z
  | SScores l => match l with [] => false | _ :: _ => true end
  end.

(** [print_summary]: the lines it prints, and the exception it raises, if
    any (slicing an [int] raises [TypeError]). *)
Definition print_summary (result : dict summary_value) (channel_name : string)
  : list string * option exn :=
  match result with
  | [] => ([], None)
  | _ :: _ =>
      let head :=
        [nl ++ "[" ++ channel_name ++ "] 分析結果:";
         "  総メッセージ数: " ++ show (get "total_messages" (SInt 0) result);
         "  ガイドライン違反: " ++ show (get "violations_found" (SInt 0) result);
         "  ポジティブ投稿: " ++ show (get "positive_messages" (SInt 0) result)] in
      match dict_get "top_contributors" result with
      | Some v =>
          if summary_truthy v then
            match v with
            | SScores l =>
                (List.app head
                   ("  上位貢献者:" ::
                    map (fun contributor =>
                           "    - " ++ ScoringSystem.user_name contributor
                           ++ ": "
                           ++ str_float (ScoringSystem.total_score contributor)
                           ++ "点")
                        (take 3 l)),
                 None)
            | SInt _ => (List.app head ["  上位貢献者:"], Some TypeError)
            end
          else (head, None)
      | None => (head, None)
      end
  end.

(** The line of the final ranking of [run_analysis] for one record. *)
Definition ranking_line (entry : nat * ScoringSystem.UserScore) : string :=
  str_int (Z.of_nat (fst entry)) ++ ". "
  ++ ScoringSystem.user_name (snd entry) ++ ": "
  ++ str_float (ScoringSystem.total_score (snd entry)) ++ "点".

(** The lines of the final ranking of [run_analysis]. *)
Definition ranking_lines (s : ScoringSystem.t) : outcome (list string) :=
  match ScoringSystem.calculate_rankings s with
  | Ok scores =>
      Ok (map ranking_line (ScoringSystem.enumerate_from 1 (take 10 scores)))
  | Raise e => Raise e
  | Unmodelled => Unmodelled
  end.
End Print.

Section Run.
Variable lower : string -> string.
Variable fromtimestamp : string -> option Q.

(** The loop of [run_analysis] over the channels: the result of each
    channel that was processed, the processor afterwards, and the exception
    that ended the loop, if any; [None] when a result is [Unranked]. *)
Fixpoint process_channels (channels : list Channel) (processor : MessageProcessor.t)
  : option (list (dict summary_value) * MessageProcessor.t * option exn) :=
  match channels with
  | [] => Some ([], processor, None)
  | channel :: rest =>
      match process_channel lower fromtimestamp (ch_id channel) 24 processor with
      | (Raised e, processor1) => Some ([], processor1, Some e)
      | (Returned result, processor1) =>
          match process_channels rest processor1 with
          | Some (results, processor2, e) =>
              Some ((result :: results)%list, processor2, e)
          | None => None
          end
      | (Unranked, _) => None
      end
  end.
End Run.

End Main.

(** ** demo_prototype.py: the display of the ranking *)

Module Demo.
Import Py.
Local Open Scope string_scope.

(** A value of the dicts of [get_rankings]. *)
Inductive cell : Type :=
| CInt (n : Z)
| CStr (s : string)
| CFloat (x : Float.t).

(** The dict [get_rankings] builds for one entry. *)
Definition rank_entry_dict (e : ScoringSystem.RankEntry) : dict cell :=
  [("rank", CInt (Z.of_nat (ScoringSystem.rank e)));
   ("user_id", CStr (ScoringSystem.re_user_id e));
   ("user_name", CStr (ScoringSystem.re_user_name e));
   ("total_score", CFloat (ScoringSystem.re_total_score e));
   ("post_count", CInt (ScoringSystem.re_post_count e));
   ("positive_count", CInt (ScoringSystem.re_positive_count e));
   ("reaction_count", CInt (ScoringSystem.re_reaction_count e))]%list.

Section Display.
(** [str(v)] and [format(v, ".1f")]. *)
Variable str_of : cell -> string.
Variable fixed1 : cell -> string.

(** The four [print] calls of [run_demo] for one entry [r]: the lines
    printed, and the [KeyError] of the first key that [r] does not have. *)
Definition show_entry (r : dict cell) : list string * option exn :=
  match dict_get "rank" r with
  | None => ([], Some (KeyError "rank"))
  | Some rk =>
  match dict_get "user_name" r with
  | None => ([], Some (KeyError "user_name"))
  | Some name =>
  let line1 := str_of rk ++ "位: " ++ str_of name in
  match dict_get "total_score" r with
  | None => ([line1], Some (KeyError "total_score"))
  | Some score =>
  let line2 := "   総合スコア: " ++ fixed1 score in
  match dict_get "total_posts" r with
  | None => ([line1; line2], Some (KeyError "total_posts"))
  | Some posts =>
  match dict_get "positive_posts" r with
  | None => ([line1; line2], Some (KeyError "positive_posts"))
  | Some positive =>
  match dict_get "reactions_received" r with
  | None => ([line1; line2], Some (KeyError "reactions_received"))
  | Some reactions =>
      ([line1; line2;
        "   投稿数: " ++ str_of posts ++ ", ポジティブ: " ++ str_of positive
        ++ ", " ++ "リアクション: " ++ str_of reactions;
        ""],
       None)
  end end end end end end.

(** The loop over the ranking; it stops at the first exception. *)
Fixpoint show_rankings (rankings : list (dict cell)) : list string * option exn :=
  match rankings with
  | [] => ([], None)
  | r :: rest =>
      match show_entry r with
      | (lines, Some e) => (lines, Some e)
      | (lines, None) =>
          let (more, e) := show_rankings rest in ((lines ++ more)%list, e)
      end
  end.

(** The end of [run_demo], from line 135 on: the title of the ranking, the
    ranking of the five best users, then the scores are saved.  The lines
    printed, the files afterwards and the exception raised, if any; [None]
    when the ranking is [Unmodelled]. *)
Definition finish (scoring : ScoringSystem.t) (fs : ScoringSystem.filesystem)
  : option (list string * ScoringSystem.filesystem * option exn) :=
  let title :=
    [String (ascii_of_nat 10) "🏆 貢献度ランキング TOP 5";
     Reports.repeat_str "-" 50] in
  match ScoringSystem.get_rankings 5 scoring with
  | Ok rankings =>
      match show_rankings (map rank_entry_dict rankings) with
      | (lines, Some e) => Some (List.app title lines, fs, Some e)
      | (lines, None) =>
          Some
            (List.app title
               (List.app lines
                  ["✅ スコアデータを data/scores.json に保存しました"]),
             ScoringSystem.save_to_file "data/scores.json" scoring fs, None)
      end
  | Raise e => Some (title, fs, Some e)
  | Unmodelled => None
  end.
End Display.

End Demo.

(** * Properties *)

Open Scope list_scope.
Unset Implicit Arguments.

(** ** Dictionaries *)

Section DictFacts.
Import Py.
Variable V : Type.
Implicit Types (d : dict V) (k : string) (v : V).

Lemma dict_get_set_same d k v : dict_get k (dict_set k v d) = Some v.
Proof.
induction d as [|[k' v'] d IH]; simpl.
- now rewrite String.eqb_refl.
- destruct (k =? k') eqn:E; simpl.
  + now rewrite String.eqb_refl.
  + now rewrite E.
Qed.

Lemma dict_get_set_other d k k' v :
k <> k' -> dict_get k' (dict_set k v d) = dict_get k' d.
Proof.
intros Hne. induction d as [|[k0 v0] d IH]; simpl.
- destruct (k' =? k) eqn:E; [|reflexivity].
  apply String.eqb_eq in E. congruence.
- destruct (k =? k0) eqn:E; simpl.
  + apply String.eqb_eq in E. subst k0.
    destruct (k' =? k) eqn:E'; [|reflexivity].
    apply String.eqb_eq in E'. congruence.
  + now rewrite IH.
Qed.

Lemma dict_set_absent d k v :
dict_get k d = None -> dict_set k v d = d ++ [(k, v)].
Proof.
induction d as [|[k' v'] d IH]; simpl; [reflexivity|].
destruct (k =? k'); [discriminate|].
intros H. now rewrite IH.
Qed.

Lemma keys_dict_set_present d k v v0 :
dict_get k d = Some v0 -> keys (dict_set k v d) = keys d.
Proof.
unfold keys. induction d as [|[k' v'] d IH]; simpl; [discriminate|].
destruct (k =? k') eqn:E; simpl.
- apply String.eqb_eq in E. now subst.
- intros H. now rewrite IH.
Qed.

Lemma dict_get_none_existsb d k :
dict_get k d = None <-> existsb (String.eqb k) (keys d) = false.
Proof.
unfold keys. induction d as [|[k' v'] d IH]; simpl; [tauto|].
destruct (k =? k'); simpl; [split; discriminate|exact IH].
Qed.

Lemma dict_update_distinct (items : list (string * V)) d :
Spec.distinct (keys d ++ keys items) = true ->
dict_update d items = d ++ items.
Proof.
revert d. induction items as [|[k v] items IH]; intros d Hd; simpl.
- now rewrite app_nil_r.
- unfold dict_update in *. simpl.
  assert (Hk : dict_get k d = None).
  { apply dict_get_none_existsb.
    clear IH. unfold keys in *. simpl in Hd.
    induction (map fst d) as [|x l IHl]; simpl in *; [reflexivity|].
    apply andb_prop in Hd. destruct Hd as [Hx Hl].
    rewrite (IHl Hl), orb_false_r.
    apply negb_true_iff in Hx. rewrite existsb_app in Hx.
    apply orb_false_elim in Hx. destruct Hx as [_ Hx]. simpl in Hx.
    apply orb_false_elim in Hx. destruct Hx as [Hx _].
    rewrite String.eqb_sym. exact Hx. }
  rewrite (dict_set_absent d k v Hk), IH.
  + now rewrite <- app_assoc.
  + unfold keys in *. rewrite map_app, <- app_assoc. exact Hd.
Qed.

Lemma dict_of_items_distinct (items : list (string * V)) :
Spec.distinct (keys items) = true -> dict_of_items items = items.
Proof. intros H. unfold dict_of_items. now rewrite dict_update_distinct. Qed.
End DictFacts.

(** ** The scoring engine: accumulation *)

Section Accumulation.
Import Py ScoringSystem Spec.
Local Open Scope Z_scope.

Lemma add_user_activity_present uid name p q r v s u :
  dict_get uid (users s) = Some u ->
  dict_get uid (users (add_user_activity uid name p q r v s)) =
  Some (mkUserScore (user_id u) (user_name u)
          (post_count u + p) (positive_count u + q)
          (reaction_count u + r) (violation_count u + v) (total_score u)).
Proof.
  intros H. unfold add_user_activity, dict_mem.
  rewrite H. simpl. rewrite H. simpl. apply dict_get_set_same.
Qed.

Lemma add_user_activity_absent uid name p q r v s :
  dict_get uid (users s) = None ->
  dict_get uid (users (add_user_activity uid name p q r v s)) =
  Some (mkUserScore uid name p q r v 0%Q).
Proof.
  intros H. unfold add_user_activity, dict_mem.
  rewrite H, dict_get_set_same. simpl. apply dict_get_set_same.
Qed.

Lemma add_user_activity_other uid uid' name p q r v s :
  uid <> uid' ->
  dict_get uid' (users (add_user_activity uid name p q r v s)) =
  dict_get uid' (users s).
Proof.
  intros Hne. unfold add_user_activity.
  destruct (dict_mem uid (users s)).
  - destruct (dict_get uid (users s)); simpl; [|reflexivity].
    now apply dict_get_set_other.
  - rewrite dict_get_set_same. simpl.
    now rewrite !dict_get_set_other.
Qed.

Lemma record_all_cons a calls s :
  record_all (a :: calls) s = record_all calls (apply_call a s).
Proof. reflexivity. Qed.

Lemma calls_of_cons uid a calls :
  calls_of uid (a :: calls) =
  if String.eqb (c_user_id a) uid then a :: calls_of uid calls
  else calls_of uid calls.
Proof. reflexivity. Qed.

(** Once a user has a record, later calls add to its counts and leave its
    name and id alone; calls about other users do not touch it. *)
Lemma record_all_present uid calls : forall s u,
  dict_get uid (users s) = Some u ->
  dict_get uid (users (record_all calls s)) =
  Some (mkUserScore (user_id u) (user_name u)
          (post_count u + sum (map c_post (calls_of uid calls)))
          (positive_count u + sum (map c_positive (calls_of uid calls)))
          (reaction_count u + sum (map c_reaction (calls_of uid calls)))
          (violation_count u + sum (map c_violation (calls_of uid calls)))
          (total_score u)).
Proof.
  induction calls as [|a calls IH]; intros s u H.
  - simpl. rewrite H. destruct u; simpl. do 2 f_equal; lia.
  - rewrite record_all_cons, calls_of_cons.
    destruct (String.eqb (c_user_id a) uid) eqn:E.
    + apply String.eqb_eq in E. subst uid. unfold apply_call.
      rewrite (IH _ _ (add_user_activity_present _ (c_user_name a) (c_post a)
                         (c_positive a) (c_reaction a) (c_violation a) _ _ H)).
      simpl. do 2 f_equal; lia.
    + apply String.eqb_neq in E.
      apply IH. unfold apply_call.
      now rewrite add_user_activity_other.
Qed.

(** C3. Accumulation, not overwrite: after any list of calls made on an
    engine that does not know [uid] yet, the record of [uid] holds, count by
    count, the sum of the arguments of the calls made for [uid], and the
    name given by the first of these calls. *)
Theorem add_user_activity_accumulates uid calls : forall s0 c cs,
  dict_get uid (users s0) = None ->
  calls_of uid calls = c :: cs ->
  dict_get uid (users (record_all calls s0)) =
  Some (mkUserScore uid (c_user_name c)
          (sum (map c_post (c :: cs)))
          (sum (map c_positive (c :: cs)))
          (sum (map c_reaction (c :: cs)))
          (sum (map c_violation (c :: cs)))
          0%Q).
Proof.
  induction calls as [|a calls IH]; intros s0 c cs Hnew Hcalls.
  - discriminate.
  - rewrite record_all_cons. rewrite calls_of_cons in Hcalls.
    destruct (String.eqb (c_user_id a) uid) eqn:E.
    + apply String.eqb_eq in E. subst uid.
      injection Hcalls as -> <-.
      unfold apply_call.
      rewrite (record_all_present _ _ _ _
                 (add_user_activity_absent _ (c_user_name c) (c_post c)
                    (c_positive c) (c_reaction c) (c_violation c) _ Hnew)).
      reflexivity.
    + apply String.eqb_neq in E.
      apply IH; [|exact Hcalls].
      unfold apply_call. now rewrite add_user_activity_other.
Qed.

(** Three calls for U1, the second under another name, with a call for U2
    in between. *)
Lemma add_user_activity_accumulates_witness :
  dict_get "U1"
    (users (record_all
              [mkCall "U1" "A" 1 1 2 0; mkCall "U2" "B" 1 0 0 1;
               mkCall "U1" "renamed" 1 0 3 1; mkCall "U1" "A" 2 0 0 0]
              init)) =
  Some (mkUserScore "U1" "A" 4 1 5 1 0%Q).
Proof.
  apply (add_user_activity_accumulates "U1"
           [mkCall "U1" "A" 1 1 2 0; mkCall "U2" "B" 1 0 0 1;
            mkCall "U1" "renamed" 1 0 3 1; mkCall "U1" "A" 2 0 0 0]
           init (mkCall "U1" "A" 1 1 2 0)
           [mkCall "U1" "renamed" 1 0 3 1; mkCall "U1" "A" 2 0 0 0]);
    reflexivity.
Defined.
End Accumulation.

(** ** The scoring engine: rankings *)

Section FloatFacts.
Local Open Scope Z_scope.

(** A whole number below [2^53] is a float. *)
Lemma round_exact z : Z.abs z < 2 ^ 53 -> Float.round z = z.
Proof.
  intros H. unfold Float.round, Float.prec.
  destruct (Z.eq_dec (Z.abs z) 0) as [E|E].
  - rewrite E. reflexivity.
  - assert (Hl : Z.log2 (Z.abs z) < 53) by (apply Z.log2_lt_pow2; lia).
    destruct (Z.leb_spec (Z.log2 (Z.abs z) + 1 - 53) 0); [reflexivity|lia].
Qed.

Lemma of_exact_small z : Z.abs z < 2 ^ 53 -> Float.of_exact z = Float.Num z.
Proof.
  intros H. unfold Float.of_exact. rewrite (round_exact z H).
  assert (Hp : 2 ^ 53 < Float.out_of_range) by (now vm_compute).
  destruct (Z.leb_spec Float.out_of_range z); [lia|].
  destruct (Z.leb_spec z (- Float.out_of_range)); [lia|reflexivity].
Qed.

Lemma of_int_small z : Z.abs z < 2 ^ 53 -> Float.of_int z = Some (Float.Num z).
Proof. intros H. unfold Float.of_int. now rewrite (of_exact_small z H). Qed.

Lemma ltb_irrefl x : Float.ltb x x = false.
Proof. destruct x; simpl; try reflexivity. apply Z.ltb_irrefl. Qed.

Lemma ltb_asym x y : Float.ltb x y = true -> Float.ltb y x = false.
Proof.
  destruct x, y; simpl; try reflexivity; try discriminate.
  intros H. apply Z.ltb_lt in H. apply Z.ltb_ge. lia.
Qed.

(** Floats that are not NaN are totally ordered. *)
Lemma ltb_geq_trans x y z :
  Float.is_nan y = false ->
  Float.ltb x y = false -> Float.ltb y z = false -> Float.ltb x z = false.
Proof.
  destruct x, y, z; simpl; try reflexivity; try discriminate.
  intros _ H1 H2. apply Z.ltb_ge in H1, H2. apply Z.ltb_ge. lia.
Qed.

Lemma same_eq x y : Float.same x y = true <-> x = y.
Proof.
  destruct x, y; simpl; split; try reflexivity; try discriminate.
  - intros H. apply Z.eqb_eq in H. now subst.
  - intros H. injection H as ->. apply Z.eqb_refl.
Qed.

Lemma same_refl x : Float.same x x = true.
Proof. now apply same_eq. Qed.

Lemma ltb_num a b : Float.ltb (Float.Num a) (Float.Num b) = (a <? b).
Proof. reflexivity. Qed.
End FloatFacts.

Section SortedReverse.
Import ScoringSystem.
Variable A : Type.
Variable key : A -> Float.t.

Lemma insert_desc_perm x l : Permutation (x :: l) (insert_desc key x l).
Proof.
  induction l as [|y l IH]; simpl; [apply Permutation_refl|].
  destruct (Float.ltb (key x) (key y)); [|apply Permutation_refl].
  eapply Permutation_trans; [apply perm_swap|]. now apply perm_skip.
Qed.

Lemma sorted_reverse_perm l : Permutation l (sorted_reverse key l).
Proof.
  induction l as [|x l IH]; simpl; [constructor|].
  eapply Permutation_trans; [|apply insert_desc_perm]. now apply perm_skip.
Qed.

Local Abbreviation key_geq := (Spec.key_geq key).
Local Abbreviation no_nan := (fun a : A => Float.is_nan (key a) = false).

Lemma insert_desc_sorted x l :
  Forall no_nan l ->
  StronglySorted key_geq l -> StronglySorted key_geq (insert_desc key x l).
Proof.
  induction l as [|y l IH]; intros Hn Hs; simpl.
  - repeat constructor.
  - inversion Hs as [|y' l' Hl Hy]; subst.
    inversion Hn as [|y' l' Hny Hnl]; subst.
    destruct (Float.ltb (key x) (key y)) eqn:E.
    + constructor; [now apply IH|].
      eapply Permutation_Forall; [apply insert_desc_perm|].
      constructor; [unfold Spec.key_geq; now apply ltb_asym|exact Hy].
    + constructor; [exact Hs|].
      constructor; [exact E|].
      eapply Forall_impl; [|exact Hy].
      unfold Spec.key_geq. intros b Hb.
      exact (ltb_geq_trans _ _ _ Hny E Hb).
Qed.

Lemma sorted_reverse_sorted l :
  Forall no_nan l -> StronglySorted key_geq (sorted_reverse key l).
Proof.
  induction l as [|x l IH]; intros Hn; simpl; [constructor|].
  inversion Hn as [|x' l' Hx Hl]; subst.
  apply insert_desc_sorted; [|now apply IH].
  eapply Permutation_Forall; [apply sorted_reverse_perm|exact Hl].
Qed.

(** Stability: among the elements of one key, the order of the input is
    kept. *)
Lemma insert_desc_filter k x l :
  filter (fun a => Float.same (key a) k) (insert_desc key x l) =
  filter (fun a => Float.same (key a) k) (x :: l).
Proof.
  induction l as [|y l IH]; [reflexivity|].
  simpl. destruct (Float.ltb (key x) (key y)) eqn:E; [|reflexivity].
  simpl. rewrite IH. simpl.
  destruct (Float.same (key x) k) eqn:Ex; [|reflexivity].
  apply same_eq in Ex.
  destruct (Float.same (key y) k) eqn:Ey; [|reflexivity].
  apply same_eq in Ey. rewrite Ex, Ey, ltb_irrefl in E. discriminate.
Qed.

Lemma sorted_reverse_filter k l :
  filter (fun a => Float.same (key a) k) (sorted_reverse key l) =
  filter (fun a => Float.same (key a) k) l.
Proof.
  induction l as [|x l IH]; [reflexivity|].
  simpl sorted_reverse. rewrite insert_desc_filter.
  simpl. now rewrite IH.
Qed.

Lemma filter_split (p : A -> bool) x : forall l u v,
  filter p l = u ++ x :: v ->
  exists l1 l2, l = l1 ++ x :: l2 /\ filter p l1 = u /\ filter p l2 = v.
Proof.
  induction l as [|y l IH]; intros u v H; simpl in H.
  - now destruct u.
  - destruct (p y) eqn:E.
    + destruct u as [|u0 u]; simpl in H; injection H as -> H.
      * exists [], l. now rewrite <- H.
      * destruct (IH _ _ H) as (l1 & l2 & -> & <- & <-).
        exists (u0 :: l1), l2. simpl. now rewrite E.
    + destruct (IH _ _ H) as (l1 & l2 & -> & <- & <-).
      exists (y :: l1), l2. simpl. now rewrite E.
Qed.

Lemma sorted_reverse_precedes a b l :
  Spec.precedes a b l -> key a = key b ->
  Spec.precedes a b (sorted_reverse key l).
Proof.
  intros (l1 & l2 & l3 & ->) Hk.
  pose proof (sorted_reverse_filter (key a) (l1 ++ a :: l2 ++ b :: l3)) as H.
  rewrite filter_app in H. simpl in H.
  rewrite same_refl, filter_app in H. simpl in H.
  rewrite <- Hk, same_refl in H.
  destruct (filter_split _ _ _ _ _ H) as (o1 & o2 & Ho & _ & H2).
  destruct (filter_split _ _ _ _ _ H2) as (o3 & o4 & -> & _ & _).
  exists o1, o3, o4. exact Ho.
Qed.

Lemma insert_desc_map (B : Type) (f : B -> A) x l :
  map f (insert_desc (fun b => key (f b)) x l) = insert_desc key (f x) (map f l).
Proof.
  induction l as [|y l IH]; simpl; [reflexivity|].
  destruct (Float.ltb (key (f x)) (key (f y))); simpl;
    [now rewrite IH|reflexivity].
Qed.

Lemma sorted_reverse_map (B : Type) (f : B -> A) l :
  map f (sorted_reverse (fun b => key (f b)) l) = sorted_reverse key (map f l).
Proof.
  induction l as [|x l IH]; simpl; [reflexivity|].
  now rewrite insert_desc_map, IH.
Qed.

Lemma insert_desc_ext (key' : A -> Float.t) x l :
  key x = key' x -> Forall (fun a => key a = key' a) l ->
  insert_desc key x l = insert_desc key' x l.
Proof.
  intros Hx Hl. induction Hl as [|y l Hy Hl IH]; simpl; [reflexivity|].
  now rewrite Hx, Hy, IH.
Qed.

Lemma sorted_reverse_ext (key' : A -> Float.t) l :
  Forall (fun a => key a = key' a) l ->
  sorted_reverse key l = sorted_reverse key' l.
Proof.
  intros Hl. induction Hl as [|x l Hx Hl IH]; simpl; [reflexivity|].
  rewrite <- IH. apply insert_desc_ext; [exact Hx|].
  eapply Permutation_Forall; [apply sorted_reverse_perm|exact Hl].
Qed.
End SortedReverse.

Section Rankings.
Import Py ScoringSystem Spec.
Local Open Scope Z_scope.

Lemma add_user_activity_keys_present uid name p q r v s u :
  dict_get uid (users s) = Some u ->
  keys (users (add_user_activity uid name p q r v s)) = keys (users s).
Proof.
  intros H. unfold add_user_activity, dict_mem.
  rewrite H. simpl. rewrite H. simpl.
  now apply keys_dict_set_present with (v0 := u).
Qed.

Lemma add_user_activity_keys_absent uid name p q r v s :
  dict_get uid (users s) = None ->
  keys (users (add_user_activity uid name p q r v s)) = keys (users s) ++ [uid].
Proof.
  intros H. unfold add_user_activity, dict_mem.
  rewrite H, dict_get_set_same. simpl.
  rewrite keys_dict_set_present with (v0 := new_user uid name)
    by apply dict_get_set_same.
  rewrite (dict_set_absent _ _ _ _ H). unfold keys. now rewrite map_app.
Qed.

Lemma first_occurrences_ext ids : forall seen1 seen2,
  (forall i, existsb (String.eqb i) seen1 = existsb (String.eqb i) seen2) ->
  first_occurrences seen1 ids = first_occurrences seen2 ids.
Proof.
  induction ids as [|i ids IH]; intros seen1 seen2 H; simpl; [reflexivity|].
  rewrite <- H. destruct (existsb (String.eqb i) seen1); [now apply IH|].
  f_equal. apply IH. intros j. simpl. now rewrite H.
Qed.

(** The keys of [users] are the user ids in the order of their first
    activity. *)
Lemma record_all_keys calls : forall s,
  keys (users (record_all calls s)) =
  keys (users s) ++ first_occurrences (keys (users s)) (map c_user_id calls).
Proof.
  induction calls as [|a calls IH]; intros s.
  - simpl. now rewrite app_nil_r.
  - rewrite record_all_cons, IH. unfold apply_call. simpl.
    destruct (dict_get (c_user_id a) (users s)) as [u|] eqn:E.
    + rewrite (add_user_activity_keys_present _ _ _ _ _ _ _ _ E).
      assert (Hin : existsb (String.eqb (c_user_id a)) (keys (users s)) = true).
      { destruct (existsb (String.eqb (c_user_id a)) (keys (users s))) eqn:Ex;
          [reflexivity|].
        apply dict_get_none_existsb in Ex. congruence. }
      now rewrite Hin.
    + rewrite (add_user_activity_keys_absent _ _ _ _ _ _ _ E).
      apply dict_get_none_existsb in E. rewrite E, <- app_assoc. simpl.
      do 2 f_equal. apply first_occurrences_ext.
      intros i. rewrite existsb_app. simpl. now rewrite orb_false_r, orb_comm.
Qed.

Lemma distinct_snoc x l :
  distinct l = true -> existsb (String.eqb x) l = false ->
  distinct (l ++ [x]) = true.
Proof.
  induction l as [|y l IH]; simpl; intros Hd Hx; [reflexivity|].
  apply andb_prop in Hd. destruct Hd as [Hy Hl].
  apply orb_false_elim in Hx. destruct Hx as [Hxy Hx].
  rewrite (IH Hl Hx), andb_true_r, existsb_app. simpl.
  apply negb_true_iff in Hy. rewrite Hy, orb_false_r. simpl.
  now rewrite String.eqb_sym, Hxy.
Qed.

Lemma forallb_dict_set (V : Type) (P : string * V -> bool) k v d :
  forallb P d = true -> P (k, v) = true -> forallb P (dict_set k v d) = true.
Proof.
  intros Hd Hk. induction d as [|[k' v'] d IH]; simpl in *.
  - now rewrite Hk.
  - apply andb_prop in Hd. destruct Hd as [H1 H2].
    destruct (String.eqb k k'); simpl.
    + now rewrite Hk, H2.
    + now rewrite H1, IH.
Qed.

Lemma forallb_dict_get (V : Type) (P : string * V -> bool) k v d :
  forallb P d = true -> dict_get k d = Some v -> P (k, v) = true.
Proof.
  intros Hd Hk. induction d as [|[k' v'] d IH]; simpl in *; [discriminate|].
  apply andb_prop in Hd. destruct Hd as [H1 H2].
  destruct (String.eqb k k') eqn:E.
  - apply String.eqb_eq in E. injection Hk as <-. now subst.
  - now apply IH.
Qed.

(** [add_user_activity] keeps the invariant of [users]. *)
Lemma add_user_activity_well_formed uid name p q r v s :
  well_formed s = true ->
  well_formed (add_user_activity uid name p q r v s) = true.
Proof.
  unfold well_formed. intros H. apply andb_prop in H. destruct H as [Hd Ho].
  apply andb_true_intro. split.
  - destruct (dict_get uid (users s)) as [u|] eqn:E.
    + now rewrite (add_user_activity_keys_present _ _ _ _ _ _ _ _ E).
    + rewrite (add_user_activity_keys_absent _ _ _ _ _ _ _ E).
      apply distinct_snoc; [exact Hd|]. now apply dict_get_none_existsb.
  - unfold add_user_activity, dict_mem.
    destruct (dict_get uid (users s)) as [u|] eqn:E.
    + rewrite E. simpl. apply forallb_dict_set; [exact Ho|]. simpl.
      exact (forallb_dict_get _ _ _ _ _ Ho E).
    + rewrite dict_get_set_same. simpl.
      apply forallb_dict_set; [|simpl; apply String.eqb_refl].
      apply forallb_dict_set; [exact Ho|simpl; apply String.eqb_refl].
Qed.

Lemma record_all_well_formed calls : forall s,
  well_formed s = true -> well_formed (record_all calls s) = true.
Proof.
  induction calls as [|a calls IH]; intros s H; [exact H|].
  rewrite record_all_cons. apply IH. now apply add_user_activity_well_formed.
Qed.

Lemma well_formed_user_ids s :
  well_formed s = true -> map user_id (values (users s)) = keys (users s).
Proof.
  unfold well_formed, values, keys. intros H.
  apply andb_prop in H. destruct H as [_ Ho].
  induction (users s) as [|[k u] d IH]; simpl in *; [reflexivity|].
  apply andb_prop in Ho. destruct Ho as [Hk Hd].
  apply String.eqb_eq in Hk. rewrite IH by exact Hd. now rewrite Hk.
Qed.

(** In the exact range the float score is the weighted sum of the
    counts. *)
Lemma calculate_total_score_exact u :
  in_exact_range u = true ->
  calculate_total_score u = inr (Float.Num (derived_score u)).
Proof.
  unfold in_exact_range, calculate_total_score, derived_score.
  intros H. apply Z.ltb_lt in H.
  rewrite !of_int_small by lia.
  cbn [Float.mul Float.add Float.sub Float.neg].
  repeat (rewrite of_exact_small by lia;
          cbn [Float.mul Float.add Float.sub Float.neg]).
  reflexivity.
Qed.

Lemma in_exact_range_scored u : in_exact_range u = true -> scored u = true.
Proof.
  intros H. unfold scored. now rewrite (calculate_total_score_exact u H).
Qed.

Lemma in_exact_range_float_score u :
  in_exact_range u = true -> float_score u = Float.Num (derived_score u).
Proof.
  intros H. unfold float_score. now rewrite (calculate_total_score_exact u H).
Qed.

Lemma scored_float_score u :
  scored u = true ->
  calculate_total_score u = inr (float_score u)
  /\ Float.is_nan (float_score u) = false.
Proof.
  unfold scored, float_score.
  destruct (calculate_total_score u) as [e|x]; [discriminate|].
  intros H. split; [reflexivity|]. now apply negb_true_iff.
Qed.

(** The keys [sorted] works with. *)
Lemma keyed_scored l :
  forallb scored l = true ->
  keyed l = inr (map (fun u => (float_score u, u)) l).
Proof.
  induction l as [|u l IH]; intros H; [reflexivity|].
  simpl in H. apply andb_prop in H. destruct H as [Hu Hl].
  simpl. destruct (scored_float_score u Hu) as [-> _].
  now rewrite (IH Hl).
Qed.

Lemma keyed_inr l : forall kl,
  keyed l = inr kl ->
  kl = map (fun u => (float_score u, u)) l
  /\ Forall (fun u => exists x, calculate_total_score u = inr x) l.
Proof.
  induction l as [|u l IH]; intros kl H; simpl in H.
  - injection H as <-. now split.
  - unfold float_score. simpl.
    destruct (calculate_total_score u) as [e|x] eqn:E; [discriminate|].
    destruct (keyed l) as [e|kl'] eqn:K; [discriminate|].
    injection H as <-. destruct (IH kl' eq_refl) as [-> Hall].
    split; [reflexivity|]. constructor; [now exists x|exact Hall].
Qed.

Lemma keyed_inl l : forall e,
  keyed l = inl e -> exists u, In u l /\ calculate_total_score u = inl e.
Proof.
  induction l as [|u l IH]; intros e H; simpl in H; [discriminate|].
  destruct (calculate_total_score u) as [e'|x] eqn:E.
  - injection H as <-. exists u. split; [now left|exact E].
  - destruct (keyed l) as [e'|kl'] eqn:K; [|discriminate].
    injection H as <-. destruct (IH e' eq_refl) as (u' & Hin & Hu').
    exists u'. split; [now right|exact Hu'].
Qed.

Lemma calculate_total_score_raises u e :
  calculate_total_score u = inl e -> e = OverflowError.
Proof.
  unfold calculate_total_score.
  destruct (Float.of_int (post_count u)), (Float.of_int (positive_count u)),
    (Float.of_int (reaction_count u)), (Float.of_int (violation_count u));
    intros H; try discriminate; now injection H as <-.
Qed.

Lemma sorted_decorated (l : list UserScore) :
  map snd (sorted_reverse fst (map (fun u => (float_score u, u)) l)) =
  sorted_reverse float_score l.
Proof.
  rewrite (sorted_reverse_ext _ fst (fun ku => float_score (snd ku))).
  - rewrite (sorted_reverse_map _ float_score _ snd), map_map. simpl.
    now rewrite map_id.
  - apply Forall_forall. intros ku Hin. apply in_map_iff in Hin.
    now destruct Hin as (u & <- & _).
Qed.

Lemma existsb_nan_keys (l : list UserScore) :
  existsb (fun ku => Float.is_nan (fst ku)) (map (fun u => (float_score u, u)) l)
  = existsb (fun u => Float.is_nan (float_score u)) l.
Proof. induction l as [|u l IH]; simpl; [reflexivity|now rewrite IH]. Qed.

(** When every score is a number, the ranking is the stable sort of the
    records by decreasing score. *)
Lemma calculate_rankings_scored s :
  forallb scored (values (users s)) = true ->
  calculate_rankings s = Ok (sorted_reverse float_score (values (users s))).
Proof.
  intros H. unfold calculate_rankings. rewrite (keyed_scored _ H).
  rewrite existsb_nan_keys, sorted_decorated.
  assert (Hn : existsb (fun u => Float.is_nan (float_score u))
                 (values (users s)) = false).
  { induction (values (users s)) as [|u l IH]; [reflexivity|].
    simpl in *. apply andb_prop in H. destruct H as [Hu Hl].
    destruct (scored_float_score u Hu) as [_ ->]. now apply IH. }
  now rewrite Hn.
Qed.

(** And the ranking is returned only then. *)
Lemma calculate_rankings_ok s ranking :
  calculate_rankings s = Ok ranking ->
  forallb scored (values (users s)) = true
  /\ ranking = sorted_reverse float_score (values (users s)).
Proof.
  unfold calculate_rankings.
  destruct (keyed (values (users s))) as [e|kl] eqn:K; [discriminate|].
  destruct (keyed_inr _ _ K) as [-> Hall].
  rewrite existsb_nan_keys, sorted_decorated.
  destruct (existsb _ (values (users s))) eqn:Ex; [discriminate|].
  intros H. injection H as <-. split; [|reflexivity].
  apply forallb_forall. intros u Hin. unfold scored.
  rewrite Forall_forall in Hall. destruct (Hall u Hin) as [x Hx].
  assert (Hf : float_score u = x) by (unfold float_score; now rewrite Hx).
  rewrite Hx. apply negb_true_iff. rewrite <- Hf.
  destruct (Float.is_nan (float_score u)) eqn:En; [|reflexivity].
  assert (Ht : existsb (fun u => Float.is_nan (float_score u))
                 (values (users s)) = true)
    by (apply existsb_exists; now exists u).
  congruence.
Qed.

Lemma calculate_rankings_raise s e :
  calculate_rankings s = Raise e ->
  e = OverflowError
  /\ exists u, In u (values (users s))
               /\ calculate_total_score u = inl OverflowError
               /\ in_exact_range u = false.
Proof.
  unfold calculate_rankings.
  destruct (keyed (values (users s))) as [e'|kl] eqn:K.
  - intros H. injection H as <-.
    destruct (keyed_inl _ _ K) as (u & Hin & Hu).
    pose proof (calculate_total_score_raises u e' Hu) as ->.
    split; [reflexivity|]. exists u. split; [exact Hin|].
    split; [exact Hu|].
    destruct (in_exact_range u) eqn:Er; [|reflexivity].
    rewrite (calculate_total_score_exact u Er) in Hu. discriminate.
  - destruct (existsb _ kl); discriminate.
Qed.

(** The ranking is left out of the embedding only for a score that is
    NaN. *)
Lemma calculate_rankings_unmodelled s :
  calculate_rankings s = Unmodelled ->
  exists u, In u (values (users s))
            /\ calculate_total_score u = inr Float.NaN.
Proof.
  unfold calculate_rankings.
  destruct (keyed (values (users s))) as [e'|kl] eqn:K; [discriminate|].
  destruct (keyed_inr _ _ K) as [-> Hall].
  rewrite existsb_nan_keys.
  destruct (existsb _ (values (users s))) eqn:Ex; [|discriminate].
  intros _. apply existsb_exists in Ex. destruct Ex as (u & Hin & Hn).
  exists u. split; [exact Hin|].
  rewrite Forall_forall in Hall. destruct (Hall u Hin) as [x Hx].
  unfold float_score in Hn. rewrite Hx in Hn. rewrite Hx.
  now destruct x.
Qed.

Lemma strongly_sorted_impl (B : Type) (R R' : B -> B -> Prop) (P : B -> Prop) l :
  (forall a b, P a -> P b -> R a b -> R' a b) ->
  Forall P l -> StronglySorted R l -> StronglySorted R' l.
Proof.
  intros HR HP Hs. induction Hs as [|a l Hs IH Ha]; [constructor|].
  inversion HP as [|a' l' Pa Pl]; subst.
  constructor; [now apply IH|].
  rewrite Forall_forall in *. intros b Hb. apply HR; auto.
Qed.

(** C4. The derived score of a record is the weighted sum
    [post_count*1 + positive_count*5 + reaction_count*2 -
    violation_count*10] of its counts, computed as a float; below [2^53]
    the float is that sum.  For an engine whose counts are in this range
    [calculate_rankings] returns all the records, sorted by decreasing
    weighted sum, and two records of equal sum stand in the order in which
    they are in [users].  Whatever the counts, when [calculate_rankings]
    returns, it returns all the records by decreasing float score, records
    of equal score in the order of [users]; it raises only [OverflowError],
    and only for a record whose score raises it, which has a count outside
    that range; the ranking is left open only for a score that is NaN.
    [users] holds the users in the order of their first recorded
    activity. *)
Theorem calculate_rankings_sorted_stable :
  (forall u : UserScore,
      in_exact_range u = true ->
      calculate_total_score u =
      inr (Float.Num (post_count u * 1 + positive_count u * 5
                      + reaction_count u * 2 - violation_count u * 10)))
  /\ (forall s : ScoringSystem.t,
        forallb in_exact_range (values (users s)) = true ->
        exists ranking,
          calculate_rankings s = Ok ranking
          /\ Permutation (values (users s)) ranking
          /\ StronglySorted score_geq ranking
          /\ (forall a b,
                precedes a b (values (users s)) ->
                derived_score a = derived_score b ->
                precedes a b ranking))
  /\ (forall (s : ScoringSystem.t) ranking,
        calculate_rankings s = Ok ranking ->
        Permutation (values (users s)) ranking
        /\ StronglySorted (key_geq float_score) ranking
        /\ (forall a b,
              precedes a b (values (users s)) ->
              float_score a = float_score b ->
              precedes a b ranking))
  /\ (forall (s : ScoringSystem.t) e,
        calculate_rankings s = Raise e ->
        e = OverflowError
        /\ exists u, In u (values (users s))
                     /\ calculate_total_score u = inl OverflowError
                     /\ in_exact_range u = false)
  /\ (forall s : ScoringSystem.t,
        calculate_rankings s = Unmodelled ->
        exists u, In u (values (users s))
                  /\ calculate_total_score u = inr Float.NaN)
  /\ (forall calls : list Call,
        map user_id (values (users (record_all calls init))) =
        first_occurrences [] (map c_user_id calls)).
Proof.
  assert (Hgen : forall (s : ScoringSystem.t) ranking,
             calculate_rankings s = Ok ranking ->
             Permutation (values (users s)) ranking
             /\ StronglySorted (key_geq float_score) ranking
             /\ (forall a b,
                   precedes a b (values (users s)) ->
                   float_score a = float_score b ->
                   precedes a b ranking)).
  { intros s ranking H.
    destruct (calculate_rankings_ok s ranking H) as [Hsc ->].
    split; [apply sorted_reverse_perm|]. split.
    - apply sorted_reverse_sorted. apply Forall_forall. intros u Hin.
      rewrite forallb_forall in Hsc.
      now destruct (scored_float_score u (Hsc u Hin)).
    - intros a b. apply sorted_reverse_precedes. }
  split; [|split; [|split; [exact Hgen|split; [|split]]]].
  - intros u H. exact (calculate_total_score_exact u H).
  - intros s Hr.
    assert (Hsc : forallb scored (values (users s)) = true).
    { apply forallb_forall. intros u Hin. apply in_exact_range_scored.
      rewrite forallb_forall in Hr. now apply Hr. }
    exists (sorted_reverse float_score (values (users s))).
    pose proof (calculate_rankings_scored s Hsc) as Hok.
    destruct (Hgen s _ Hok) as (Hp & Hs & Hst).
    assert (Hall : Forall (fun u => in_exact_range u = true)
                     (values (users s)))
      by (apply Forall_forall; now apply forallb_forall).
    split; [exact Hok|]. split; [exact Hp|]. split.
    + apply (strongly_sorted_impl _ (key_geq float_score) score_geq
               (fun u => in_exact_range u = true)); [| |exact Hs].
      * intros a b Ha Hb. unfold key_geq, score_geq.
        rewrite (in_exact_range_float_score a Ha),
          (in_exact_range_float_score b Hb), ltb_num.
        intros H. now apply Z.ltb_ge.
      * eapply Permutation_Forall; [exact Hp|exact Hall].
    + intros a b Hpre Heq. apply Hst; [exact Hpre|].
      assert (Hin : In a (values (users s)) /\ In b (values (users s))).
      { destruct Hpre as (l1 & l2 & l3 & ->).
        split; apply in_or_app; right; [now left|].
        right. apply in_or_app. right. now left. }
      rewrite Forall_forall in Hall.
      rewrite (in_exact_range_float_score a (Hall a (proj1 Hin))),
        (in_exact_range_float_score b (Hall b (proj2 Hin))).
      now rewrite Heq.
  - exact calculate_rankings_raise.
  - exact calculate_rankings_unmodelled.
  - intros calls.
    rewrite well_formed_user_ids by (now apply record_all_well_formed).
    now rewrite record_all_keys.
Qed.

(** U2 and U3 both score 6 and U2 was seen first; U4 scores 4 and U1, who
    has the most reactions and a violation, scores 1. *)
Lemma calculate_rankings_sorted_stable_witness :
  let s := record_all
             [mkCall "U1" "A" 3 0 4 1; mkCall "U2" "B" 1 1 0 0;
              mkCall "U3" "C" 6 0 0 0; mkCall "U4" "D" 2 0 1 0]
             init in
  forallb in_exact_range (values (users s)) = true
  /\ exists ranking,
       calculate_rankings s = Ok ranking
       /\ map user_id ranking = ["U2"; "U3"; "U4"; "U1"]
       /\ map derived_score ranking = [6; 6; 4; 1]
       /\ StronglySorted score_geq ranking
       /\ precedes (mkUserScore "U2" "B" 1 1 0 0 0%Q)
            (mkUserScore "U3" "C" 6 0 0 0 0%Q) ranking.
Proof.
  intros s. split; [reflexivity|].
  destruct (proj1 (proj2 calculate_rankings_sorted_stable) s eq_refl)
    as (ranking & Hr & _ & Hs & Hst).
  exists ranking. split; [exact Hr|].
  assert (He : Ok ranking =
               Ok [mkUserScore "U2" "B" 1 1 0 0 0%Q;
                   mkUserScore "U3" "C" 6 0 0 0 0%Q;
                   mkUserScore "U4" "D" 2 0 1 0 0%Q;
                   mkUserScore "U1" "A" 3 0 4 1 0%Q])
    by (now rewrite <- Hr).
  split; [now injection He as ->|]. split; [now injection He as ->|].
  split; [exact Hs|].
  apply Hst; [|reflexivity].
  exists [mkUserScore "U1" "A" 3 0 4 1 0%Q], [], [mkUserScore "U4" "D" 2 0 1 0 0%Q].
  reflexivity.
Defined.

(** From [2^53] on the float score rounds: one post more is lost, so that
    two records whose counts differ tie, and a count that no float can hold
    makes the score, and with it the ranking, raise [OverflowError]. *)
Lemma calculate_total_score_rounds :
  calculate_total_score (mkUserScore "U1" "A" (2 ^ 53) 0 0 0 0%Q)
  = inr (Float.Num (2 ^ 53))
  /\ calculate_total_score (mkUserScore "U2" "B" (2 ^ 53 + 1) 0 0 0 0%Q)
     = inr (Float.Num (2 ^ 53))
  /\ calculate_total_score (mkUserScore "U3" "C" (2 ^ 53 + 3) 0 0 0 0%Q)
     = inr (Float.Num (2 ^ 53 + 4))
  /\ calculate_total_score (mkUserScore "U4" "D" (2 ^ 1024) 0 0 0 0%Q)
     = inl OverflowError
  /\ calculate_total_score (mkUserScore "U5" "E" 0 (2 ^ 1023) 0 0 0%Q)
     = inr Float.PInf
  /\ calculate_total_score
       (mkUserScore "U6" "F" 0 (2 ^ 1023) 0 (2 ^ 1023) 0%Q)
     = inr Float.NaN
  /\ calculate_rankings
       (mk [("U4", mkUserScore "U4" "D" (2 ^ 1024) 0 0 0 0%Q)])
     = Raise OverflowError.
Proof. repeat split; vm_compute; reflexivity. Qed.
End Rankings.

(** ** The scoring engine: persistence *)

Section Persistence.
Import Py ScoringSystem Spec.
Local Open Scope Z_scope.

(** The entry [save_to_file] writes for a record. *)
Local Abbreviation encode := (fun kv : string * UserScore =>
  (fst kv,
   VDict [("user_name", VStr (user_name (snd kv)));
          ("post_count", VInt (post_count (snd kv)));
          ("positive_count", VInt (positive_count (snd kv)));
          ("reaction_count", VInt (reaction_count (snd kv)));
          ("violation_count", VInt (violation_count (snd kv)));
          ("total_score", VFloat (total_score (snd kv)))])).

Lemma load_user_encode k u :
  load_user k (snd (encode (k, u))) =
  Ok (mkUserScore k (user_name u) (post_count u) (positive_count u)
        (reaction_count u) (violation_count u) (total_score u)).
Proof. reflexivity. Qed.

Lemma distinct_head_absent (V : Type) k (rest : list string) (d : dict V) :
  distinct (keys d ++ k :: rest) = true -> dict_get k d = None.
Proof.
  intros Hd. apply dict_get_none_existsb. unfold keys in *.
  induction (map fst d) as [|x l IHl]; simpl in *; [reflexivity|].
  apply andb_prop in Hd. destruct Hd as [Hx Hl].
  rewrite (IHl Hl), orb_false_r.
  apply negb_true_iff in Hx. rewrite existsb_app in Hx.
  apply orb_false_elim in Hx. destruct Hx as [_ Hx]. simpl in Hx.
  apply orb_false_elim in Hx. destruct Hx as [Hx _].
  now rewrite String.eqb_sym.
Qed.

Lemma load_items_encode d : forall acc,
  distinct (keys acc ++ keys d) = true ->
  forallb (fun kv => String.eqb (fst kv) (user_id (snd kv))) d = true ->
  load_items (map encode d) acc = Some (acc ++ d, None).
Proof.
  induction d as [|[k u] d IH]; intros acc Hd Ho; simpl in *.
  - now rewrite app_nil_r.
  - apply andb_prop in Ho. destruct Ho as [Hk Ho].
    apply String.eqb_eq in Hk.
    rewrite (dict_set_absent _ _ _ _ (distinct_head_absent _ _ _ _ Hd)).
    rewrite IH.
    + rewrite <- app_assoc. simpl. destruct u; simpl in *. now subst.
    + unfold keys in *. now rewrite map_app, <- app_assoc.
    + exact Ho.
Qed.

Lemma keys_encode (d : dict UserScore) : keys (map encode d) = keys d.
Proof. unfold keys. rewrite map_map. reflexivity. Qed.

(** Loading what was saved gives back the engine, field by field. *)
Lemma load_save_state path fs s s0 :
  well_formed s = true ->
  load_from_file path (save_to_file path s fs) s0 = Some (s, None).
Proof.
  unfold well_formed. intros H. apply andb_prop in H. destruct H as [Hd Ho].
  unfold load_from_file, save_to_file. rewrite dict_get_set_same.
  rewrite dict_of_items_distinct by (now rewrite keys_encode).
  rewrite load_items_encode by assumption.
  now destruct s.
Qed.

Lemma with_total_well_formed g s :
  well_formed s = true -> well_formed (with_total g s) = true.
Proof.
  unfold well_formed. intros H. apply andb_prop in H. destruct H as [Hd Ho].
  assert (Hk : keys (users (with_total g s)) = keys (users s)).
  { unfold with_total, keys. simpl. rewrite map_map. now apply map_ext. }
  rewrite Hk, Hd. simpl. clear Hk Hd.
  induction (users s) as [|[k u] d IH]; simpl in *; [reflexivity|].
  apply andb_prop in Ho. destruct Ho as [Hk Ho].
  now rewrite Hk, IH.
Qed.

Lemma keyed_retotal g l :
  keyed (map (retotal g) l) =
  match keyed l with
  | inl e => inl e
  | inr kl => inr (map (fun ku => (fst ku, retotal g (snd ku))) kl)
  end.
Proof.
  induction l as [|u l IH]; [reflexivity|].
  cbn [map keyed]. rewrite IH.
  change (calculate_total_score (retotal g u)) with (calculate_total_score u).
  destruct (calculate_total_score u); [reflexivity|].
  now destruct (keyed l).
Qed.

Lemma existsb_map_compose (A B : Type) (f : A -> B) (p : B -> bool) l :
  existsb p (map f l) = existsb (fun a => p (f a)) l.
Proof. induction l as [|a l IH]; simpl; [reflexivity|now rewrite IH]. Qed.

(** The stored [total_score] plays no part in the ranking. *)
Lemma calculate_rankings_with_total g s :
  calculate_rankings (with_total g s) =
  outcome_map (map (retotal g)) (calculate_rankings s).
Proof.
  unfold calculate_rankings, with_total, values. cbn [users].
  rewrite map_map. cbn [snd]. rewrite <- map_map with (g := retotal g).
  rewrite keyed_retotal.
  destruct (keyed (map snd (users s))) as [e|kl]; [reflexivity|].
  rewrite existsb_map_compose. cbn [fst].
  destruct (existsb _ kl); [reflexivity|]. cbn [outcome_map]. f_equal.
  rewrite <- (sorted_reverse_map _ fst _
                (fun ku => (fst ku, retotal g (snd ku)))).
  cbn [fst]. now rewrite !map_map.
Qed.

(** C5 as stated fails: nothing is recomputed on load.  An engine with one
    user, who has one positive post and so a derived score of 6, is saved
    and loaded; the loaded record has the [total_score] of the file, which
    is the 0.0 the record was created with. *)
Lemma stored_total_score_is_trusted :
  ~ (forall (s loaded : ScoringSystem.t) uid u z,
        well_formed s = true ->
        load_from_file "data/scores.json"
          (save_to_file "data/scores.json" s []) init = Some (loaded, None) ->
        dict_get uid (users loaded) = Some u ->
        calculate_total_score u = inr (Float.Num z) ->
        total_score u == inject_Z z).
Proof.
  intros H.
  specialize (H (record_all [mkCall "U1" "A" 1 1 0 0] init)
                (record_all [mkCall "U1" "A" 1 1 0 0] init)
                "U1" (mkUserScore "U1" "A" 1 1 0 0 0%Q) 6
                eq_refl eq_refl eq_refl eq_refl).
  discriminate H.
Qed.

(** C5, amended.  Round trip: an engine loaded from the file another engine
    was saved to is that engine, field by field, so its rankings are the
    same.  The [total_score] of a record is written as it is stored and read
    back as it is written, whatever it is: it is not recomputed.  The
    ranking does not look at it: the loaded engine ranks the users as the
    counts do, and the score of a record is the weighted sum of its
    counts. *)
Theorem save_load_round_trip path fs s s0 :
  well_formed s = true ->
  load_from_file path (save_to_file path s fs) s0 = Some (s, None)
  /\ (forall loaded e,
        load_from_file path (save_to_file path s fs) s0 = Some (loaded, e) ->
        e = None
        /\ calculate_rankings loaded = calculate_rankings s
        /\ map total_score (values (users loaded)) =
           map total_score (values (users s)))
  /\ (forall g : UserScore -> Q,
        load_from_file path (save_to_file path (with_total g s) fs) s0
        = Some (with_total g s, None)
        /\ map total_score (values (users (with_total g s))) =
           map g (values (users s))
        /\ calculate_rankings (with_total g s) =
           outcome_map (map (retotal g)) (calculate_rankings s))
  /\ (forall (g : UserScore -> Q) u,
        in_exact_range u = true ->
        calculate_total_score (retotal g u) =
        inr (Float.Num (post_count u * 1 + positive_count u * 5
                        + reaction_count u * 2 - violation_count u * 10))).
Proof.
  intros Hwf. rewrite (load_save_state _ _ _ _ Hwf).
  split; [reflexivity|]. split; [|split].
  - intros loaded e H. injection H as <- <-. now repeat split.
  - intros g. split; [|split].
    + apply load_save_state. now apply with_total_well_formed.
    + unfold with_total, values. cbn [users]. now rewrite !map_map.
    + apply calculate_rankings_with_total.
  - intros g u Hu. exact (calculate_total_score_exact u Hu).
Qed.

(** An engine with two users, saved to a file and loaded into a fresh
    engine. *)
Lemma save_load_round_trip_witness :
  let s := record_all
             [mkCall "U2" "B" 1 0 0 1; mkCall "U1" "A" 1 1 0 0] init in
  load_from_file "data/scores.json" (save_to_file "data/scores.json" s []) init
  = Some (s, None)
  /\ calculate_rankings s =
     Ok [mkUserScore "U1" "A" 1 1 0 0 0%Q; mkUserScore "U2" "B" 1 0 0 1 0%Q]
  /\ map total_score (values (users s)) = [0%Q; 0%Q].
Proof.
  split; [|split; reflexivity].
  apply (save_load_round_trip "data/scores.json" []
           (record_all [mkCall "U2" "B" 1 0 0 1; mkCall "U1" "A" 1 1 0 0] init)
           init).
  reflexivity.
Defined.
End Persistence.

(** ** Strings: occurrences and [split] *)

Section StringFacts.
Import Py Spec.
Local Open Scope string_scope.

Lemma str_app_nil_r s : s ++ "" = s.
Proof. induction s as [|c s IH]; simpl; [reflexivity|now rewrite IH]. Qed.

Lemma str_app_assoc a b c : (a ++ b) ++ c = a ++ (b ++ c).
Proof. induction a as [|x a IH]; simpl; [reflexivity|now rewrite IH]. Qed.

Lemma prefix_app p : forall r, prefix p (p ++ r) = true.
Proof.
  induction p as [|c p IH]; intros r; simpl; [now destruct r|].
  destruct (ascii_dec c c); [apply IH|congruence].
Qed.

Lemma prefix_split p : forall s,
  prefix p s = true -> s = p ++ drop (String.length p) s.
Proof.
  induction p as [|c p IH]; intros s H.
  - now destruct s.
  - destruct s as [|d s]; simpl in H; [discriminate|].
    destruct (ascii_dec c d); [|discriminate].
    subst d. simpl. f_equal. now apply IH.
Qed.

Lemma prefix_app_mono p : forall x y, prefix p x = true -> prefix p (x ++ y) = true.
Proof.
  induction p as [|c p IH]; intros x y H.
  - now destruct (x ++ y).
  - destruct x as [|d x]; simpl in H; [discriminate|]. simpl.
    destruct (ascii_dec c d); [now apply IH|discriminate].
Qed.

Lemma drop_app p : forall r, drop (String.length p) (p ++ r) = r.
Proof. induction p as [|c p IH]; intros r; simpl; [now destruct r|apply IH]. Qed.

Lemma cut_eq sep s :
  cut sep s =
  if prefix sep s then Some ("", drop (String.length sep) s)
  else match s with
       | EmptyString => None
       | String c s' =>
           match cut sep s' with
           | Some (a, b) => Some (String c a, b)
           | None => None
           end
       end.
Proof. now destruct s. Qed.

Lemma str_contains_eq sub s :
  str_contains sub s =
  if prefix sub s then true
  else match s with
       | EmptyString => false
       | String _ s' => str_contains sub s'
       end.
Proof. now destruct s. Qed.

Lemma cut_some sep s : forall a b,
  cut sep s = Some (a, b) -> s = a ++ sep ++ b.
Proof.
  induction s as [|c s IH]; intros a b; rewrite cut_eq;
    destruct (prefix sep _) eqn:P;
    try (intros H; injection H as <- <-; simpl; now apply prefix_split);
    [discriminate|].
  destruct (cut sep s) as [[a' b']|]; [|discriminate].
  intros H. injection H as <- <-. simpl. f_equal. now apply IH.
Qed.

Lemma cut_none sep s : cut sep s = None <-> str_contains sep s = false.
Proof.
  induction s as [|c s IH]; rewrite cut_eq, str_contains_eq;
    destruct (prefix sep _); try (split; discriminate); [tauto|].
  destruct (cut sep s) as [[a b]|].
  - split; [discriminate|]. intros H. apply IH in H. discriminate.
  - split; [|reflexivity]. intros _. now apply IH.
Qed.

(** The boolean test [sub in s] decides that [sub] occurs in [s]. *)
Lemma str_contains_occurs sub s : str_contains sub s = true <-> occurs sub s.
Proof.
  split.
  - assert (Hp : forall t, prefix sub t = true -> occurs sub t).
    { intros t P. exists "", (drop (String.length sub) t). simpl.
      now apply prefix_split. }
    induction s as [|c s IH]; rewrite str_contains_eq;
      destruct (prefix sub _) eqn:P; intros H.
    + now apply Hp.
    + discriminate.
    + now apply Hp.
    + destruct (IH H) as (a & b & ->). now exists (String c a), b.
  - intros (a & b & ->). induction a as [|c a IH].
    + change ("" ++ sub ++ b) with (sub ++ b).
      now rewrite str_contains_eq, prefix_app.
    + change (String c a ++ sub ++ b) with (String c (a ++ sub ++ b)).
      rewrite str_contains_eq, IH. now destruct (prefix sub _).
Qed.

Lemma cut_before_none c0 sep' s : forall a b,
  cut (String c0 sep') s = Some (a, b) -> cut (String c0 sep') a = None.
Proof.
  induction s as [|c s IH]; intros a b; rewrite cut_eq;
    destruct (prefix _ _) eqn:P;
    try (intros H; injection H as <- <-; reflexivity);
    [discriminate|].
  destruct (cut _ s) as [[a' b']|] eqn:E; [|discriminate].
  intros H. injection H as <- <-.
  rewrite cut_eq. rewrite (IH _ _ eq_refl).
  destruct (prefix _ (String c a')) eqn:P'; [|reflexivity].
  apply cut_some in E. subst s.
  change (String c (a' ++ String c0 sep' ++ b'))
    with (String c a' ++ String c0 sep' ++ b') in P.
  rewrite (prefix_app_mono _ _ _ P') in P. discriminate.
Qed.

Lemma before_before c0 sep' s :
  before (String c0 sep') (before (String c0 sep') s) = before (String c0 sep') s.
Proof.
  unfold before at 2 3. destruct (cut _ s) as [[a b]|] eqn:E.
  - unfold before. now rewrite (cut_before_none _ _ _ _ _ E).
  - unfold before. now rewrite E.
Qed.

Lemma split_from_skip sep s1 : forall cur s2,
  split_from sep (String.length s1) cur (s1 ++ s2) = split_from sep 0 cur s2.
Proof.
  induction s1 as [|c s1 IH]; intros cur s2; simpl; [reflexivity|apply IH].
Qed.

(** [split] cuts at the leftmost occurrence and goes on after it. *)
Lemma split_from_cut c0 sep' s : forall cur,
  split_from (String c0 sep') 0 cur s =
  match cut (String c0 sep') s with
  | None => [cur ++ s]
  | Some (a, b) => (cur ++ a) :: split_from (String c0 sep') 0 "" b
  end.
Proof.
  induction s as [|c s IH]; intros cur.
  - simpl. now rewrite str_app_nil_r.
  - rewrite cut_eq. cbn [split_from].
    destruct (prefix (String c0 sep') (String c s)) eqn:P.
    + rewrite str_app_nil_r. f_equal.
      simpl in P. destruct (ascii_dec c0 c); [|discriminate].
      simpl. rewrite Nat.sub_0_r.
      rewrite (prefix_split _ _ P) at 1. apply split_from_skip.
    + rewrite IH. destruct (cut (String c0 sep') s) as [[a b]|];
        now rewrite str_app_assoc.
Qed.

Lemma index_split_0 c0 sep' s :
  ContentAnalyzer.index (str_split (String c0 sep') s) 0 =
  Some (before (String c0 sep') s).
Proof.
  unfold str_split, before. rewrite split_from_cut.
  now destruct (cut _ s) as [[a b]|].
Qed.

Lemma index_split_1 c0 sep' s :
  ContentAnalyzer.index (str_split (String c0 sep') s) 1 =
  match cut (String c0 sep') s with
  | Some (_, rest) => Some (before (String c0 sep') rest)
  | None => None
  end.
Proof.
  unfold str_split. rewrite split_from_cut.
  destruct (cut _ s) as [[a b]|]; [|reflexivity].
  exact (index_split_0 c0 sep' b).
Qed.

(** The two [split] lines never raise [IndexError], and what they return is
    the reply without its fencing. *)
Lemma extract_json_unfence reply :
  ContentAnalyzer.extract_json reply = Some (unfence reply).
Proof.
  unfold ContentAnalyzer.extract_json, unfence.
  destruct (str_contains "```json" reply) eqn:C1.
  - rewrite index_split_1.
    destruct (cut "```json" reply) as [[a rest]|] eqn:E.
    + apply index_split_0.
    + apply cut_none in E. congruence.
  - apply cut_none in C1. rewrite C1.
    destruct (str_contains "```" reply) eqn:C2.
    + rewrite index_split_1.
      destruct (cut "```" reply) as [[a rest]|] eqn:E.
      * rewrite index_split_0. now rewrite before_before.
      * apply cut_none in E. congruence.
    + apply cut_none in C2. now rewrite C2.
Qed.

Lemma cut_first c0 sep' pre : forall rest,
  free_of c0 pre = true ->
  cut (String c0 sep') (pre ++ String c0 sep' ++ rest) = Some (pre, rest).
Proof.
  induction pre as [|c pre IH]; intros rest H; rewrite cut_eq.
  - change ("" ++ String c0 sep' ++ rest) with (String c0 sep' ++ rest).
    now rewrite prefix_app, drop_app.
  - simpl in H. apply andb_prop in H. destruct H as [Hc Hp].
    cbn [append prefix]. destruct (ascii_dec c0 c) as [->|_].
    + rewrite Ascii.eqb_refl in Hc. discriminate.
    + change (String c0 (sep' ++ rest)) with (String c0 sep' ++ rest).
      now rewrite IH.
Qed.

(** A reply without any fence is taken as it is. *)
Lemma unfence_plain reply :
  str_contains "```" reply = false -> unfence reply = reply.
Proof.
  intros H. unfold unfence.
  assert (Hj : str_contains "```json" reply = false).
  { destruct (str_contains "```json" reply) eqn:E; [|reflexivity].
    apply str_contains_occurs in E. destruct E as (a & b & ->).
    assert (Ho : str_contains "```" (a ++ "```json" ++ b) = true).
    { apply str_contains_occurs. now exists a, ("json" ++ b). }
    congruence. }
  apply cut_none in Hj. apply cut_none in H. now rewrite Hj, H.
Qed.

(** A [```json] block: the body between the markers is taken. *)
Lemma unfence_json_block pre body post :
  free_of backtick pre = true -> free_of backtick body = true ->
  str_contains "```json" (body ++ "```" ++ post) = false ->
  unfence (pre ++ "```json" ++ body ++ "```" ++ post) = body.
Proof.
  intros Hpre Hbody Hrest. unfold unfence.
  rewrite (cut_first backtick "``json" pre _ Hpre).
  apply cut_none in Hrest. unfold before at 2. rewrite Hrest.
  unfold before. now rewrite (cut_first backtick "``" body _ Hbody).
Qed.

(** A bare [```] block: the body between the markers is taken. *)
Lemma unfence_bare_block pre body post :
  free_of backtick pre = true -> free_of backtick body = true ->
  str_contains "```json" (pre ++ "```" ++ body ++ "```" ++ post) = false ->
  unfence (pre ++ "```" ++ body ++ "```" ++ post) = body.
Proof.
  intros Hpre Hbody Hj. unfold unfence.
  apply cut_none in Hj. rewrite Hj.
  rewrite (cut_first backtick "``" pre _ Hpre).
  unfold before. now rewrite (cut_first backtick "``" body _ Hbody).
Qed.
End StringFacts.

(** ** The classification client *)

Section AnalyzerFacts.
Import Py ContentAnalyzer Spec.
Local Open Scope Q_scope.
Variable generate_content : string -> option string.
Variable latency : string -> Q.
Variable strip : string -> string.
Variable json_loads : string -> option value.

Local Abbreviation analyze := (analyze_post generate_content latency strip json_loads).
Local Abbreviation times := (issue_times generate_content latency strip json_loads).

(** C6. [analyze_post] returns a value on every input: the safe default when
    the call to the model raises or when [json.loads] raises, and otherwise
    the payload parsed from the reply without its fencing.  The two [split]
    lines never raise. *)
Theorem analyze_post_absorbs_failures text st :
  fst (analyze text st) =
  match generate_content (prompt text) with
  | None => safe_default
  | Some reply =>
      match json_loads (unfence (strip reply)) with
      | None => safe_default
      | Some payload => payload
      end
  end
  /\ safe_default =
     VDict [("guideline_violation", VInt 0); ("violation_reason", VNone);
            ("positive_feedback", VBool false); ("positive_type", VNone);
            ("contribution_score", VInt 0)].
Proof.
  split; [|reflexivity].
  destruct st as [self w]. unfold analyze_post, try_block. simpl.
  destruct (generate_content (prompt text)) as [reply|]; [|reflexivity].
  now rewrite extract_json_unfence.
Qed.

(** One call: the time recorded is the later of the current time and the
    end of the interval that the previous call opened. *)
Lemma analyze_post_clock text self w :
  last_request_time (fst (snd (analyze text (self, w)))) ==
  Qmax (clock w) (last_request_time self + request_interval self)
  /\ request_interval (fst (snd (analyze text (self, w)))) = request_interval self.
Proof.
  unfold analyze_post. simpl. split; [|reflexivity].
  destruct (Qlt_le_dec _ _) as [Hlt|Hge]; simpl.
  - rewrite Q.max_r by lra. ring.
  - rewrite Q.max_l by lra. reflexivity.
Qed.

Lemma count_of_cons (A : Type) (x : A) l : count_of (x :: l) == count_of l + 1.
Proof.
  unfold count_of. cbn [length]. rewrite Nat2Z.inj_succ. unfold Z.succ.
  now rewrite inject_Z_plus.
Qed.



(** [issue_times] follows [batch_analyze]: the batch returns one result per
    post and ends with the last issue time as [last_request_time]. *)
Lemma batch_analyze_issue_times posts : forall st,
  length (fst (batch_analyze generate_content latency strip json_loads posts st))
  = length posts
  /\ last_request_time
       (fst (snd (batch_analyze generate_content latency strip json_loads
                    posts st)))
     = last_time (last_request_time (fst st)) (times posts st).
Proof.
  induction posts as [|p posts IH]; intros st; [now split|].
  cbn [batch_analyze issue_times last_time].
  destruct (analyze p st) as [result st1] eqn:E1. cbn [snd].
  destruct (IH st1) as [Hlen Hlast].
  destruct (batch_analyze _ _ _ _ posts st1) as [results st2].
  cbn [fst snd length] in *. now rewrite Hlen, Hlast.
Qed.

End AnalyzerFacts.

(** ** The channel processor *)

Section ProcessorFacts.
Import Py SlackClient MessageProcessor Spec.
Variable lower : string -> string.
Variable fromtimestamp : string -> option Q.
Variable sl : SlackClient.t.
Variable an : Analyzer.

Local Abbreviation analyze_one := (_analyze_message lower fromtimestamp).
Local Abbreviation analyze_list := (analyze_all lower fromtimestamp).
Local Abbreviation process := (process_channel lower fromtimestamp).

(** What [_analyze_message] does to a processor that has its Slack client
    and its classifier, when the classifier answers with a dict. *)
Lemma analyze_message_effect m ch self :
  slack self = Some sl -> analyzer self = Some an ->
  answers_dict an m = true ->
  analyze_one m ch self =
  (mk (Some sl) (Some an)
      (apply_call (activity sl an ch m) (scoring self))
      (violations self ++
         (if flagged an m then [violation_entry an ch m] else []))
      (positive_messages self ++
         (if praised an m then [positive_entry an ch m] else []))
      (if flagged an m
       then option_map (send_alert lower fromtimestamp m ch (analysis_of an m))
              (notification_system self)
       else notification_system self),
   None).
Proof.
  destruct self as [s a sc vs ps ns]. simpl. intros -> -> Hd.
  unfold answers_dict in Hd.
  unfold _analyze_message, apply_call, activity, violation_entry,
    positive_entry, author_name, author, flagged, praised, violation_score,
    analysis_of.
  cbn [slack analyzer scoring violations positive_messages notification_system
       c_user_id c_user_name c_post c_positive c_reaction c_violation].
  destruct (analyze_post an (or_default "" (text m))) as [| | | | | |d];
    try discriminate Hd.
  cbn [as_dict].
  destruct (truthy (get "guideline_violation" (VBool false) _));
    destruct (truthy (get "is_positive" (VBool false) _));
    cbn [slack analyzer scoring violations positive_messages
         notification_system];
    rewrite ?app_nil_r; reflexivity.
Qed.

(** An answer that is no dict makes [_analyze_message] raise
    [AttributeError] before it has changed anything. *)
Lemma analyze_message_not_dict m ch self :
  analyzer self = Some an ->
  answers_dict an m = false ->
  analyze_one m ch self = (self, Some AttributeError).
Proof.
  intros Ha Hd. unfold answers_dict in Hd. unfold _analyze_message.
  rewrite Ha.
  now destruct (analyze_post an (or_default "" (text m))).
Qed.

(** What the loop of [process_channel] does. *)
Lemma analyze_all_effect ch msgs : forall self,
  slack self = Some sl -> analyzer self = Some an ->
  forallb (answers_dict an) (filter _should_analyze msgs) = true ->
  exists self',
    analyze_list msgs ch self = (self', None)
    /\ slack self' = Some sl /\ analyzer self' = Some an
    /\ scoring self' =
       record_all (map (activity sl an ch) (filter _should_analyze msgs))
         (scoring self)
    /\ violations self' =
       violations self ++
       map (violation_entry an ch)
         (filter (flagged an) (filter _should_analyze msgs))
    /\ positive_messages self' =
       positive_messages self ++
       map (positive_entry an ch)
         (filter (praised an) (filter _should_analyze msgs)).
Proof.
  induction msgs as [|m msgs IH]; intros self Hs Ha Hd.
  - exists self. simpl. now rewrite !app_nil_r.
  - cbn [analyze_all filter] in *.
    destruct (_should_analyze m); [|now apply IH].
    cbn [forallb] in Hd. apply andb_prop in Hd. destruct Hd as [Hm Hd].
    rewrite (analyze_message_effect m ch self Hs Ha Hm).
    match goal with
    | |- context [analyze_all _ _ msgs ch ?s] =>
        destruct (IH s eq_refl eq_refl Hd)
          as (self' & Hrun & Hs' & Ha' & Hsc & Hv & Hp)
    end.
    exists self'. rewrite Hrun, Hsc, Hv, Hp. cbn [map filter].
    repeat split; try assumption; cbn [violations positive_messages scoring].
    + rewrite <- app_assoc. now destruct (flagged an m).
    + rewrite <- app_assoc. now destruct (praised an m).
Qed.

(** The loop stops at the first analyzed message that the classifier does
    not answer with a dict, with what the messages before it have left. *)
Lemma analyze_all_not_dict ch good m rest : forall self,
  slack self = Some sl -> analyzer self = Some an ->
  forallb (answers_dict an) (filter _should_analyze good) = true ->
  _should_analyze m = true -> answers_dict an m = false ->
  exists self',
    analyze_list (good ++ m :: rest) ch self = (self', Some AttributeError)
    /\ scoring self' =
       record_all (map (activity sl an ch) (filter _should_analyze good))
         (scoring self)
    /\ violations self' =
       violations self ++
       map (violation_entry an ch)
         (filter (flagged an) (filter _should_analyze good)).
Proof.
  induction good as [|g good IH]; intros self Hs Ha Hd Hm Hn.
  - exists self. cbn [app analyze_all]. rewrite Hm.
    rewrite (analyze_message_not_dict m ch self Ha Hn).
    simpl. now rewrite app_nil_r.
  - cbn [app analyze_all filter] in *.
    destruct (_should_analyze g); [|now apply IH].
    cbn [forallb] in Hd. apply andb_prop in Hd. destruct Hd as [Hg Hd].
    rewrite (analyze_message_effect g ch self Hs Ha Hg).
    match goal with
    | |- context [analyze_all _ _ (good ++ m :: rest) ch ?s] =>
        destruct (IH s eq_refl eq_refl Hd Hm Hn) as (self' & Hrun & Hsc & Hv)
    end.
    exists self'. rewrite Hrun, Hsc, Hv. cbn [map filter].
    repeat split; cbn [violations scoring].
    rewrite <- app_assoc. now destruct (flagged an g).
Qed.

Lemma enrich_loop_length msgs : forall cache,
  length (enrich_loop sl cache msgs) = length msgs.
Proof.
  induction msgs as [|m msgs IH]; intros cache; simpl; [reflexivity|].
  now rewrite IH.
Qed.

(** The processor after a run, whether the fetch was empty or not. *)
Lemma process_channel_state ch h self :
  slack self = Some sl -> analyzer self = Some an ->
  forallb (answers_dict an) (analyzed sl ch h) = true ->
  slack (snd (process ch h self)) = Some sl
  /\ analyzer (snd (process ch h self)) = Some an
  /\ scoring (snd (process ch h self)) =
     record_all (map (activity sl an ch) (analyzed sl ch h)) (scoring self)
  /\ violations (snd (process ch h self)) =
     violations self ++
     map (violation_entry an ch) (filter (flagged an) (analyzed sl ch h))
  /\ positive_messages (snd (process ch h self)) =
     positive_messages self ++
     map (positive_entry an ch) (filter (praised an) (analyzed sl ch h)).
Proof.
  intros Hs Ha Hd. unfold process_channel. unfold analyzed, fetched in *.
  rewrite Hs.
  destruct (get_channel_messages sl ch h) as [|m0 msgs0].
  - simpl. now rewrite !app_nil_r.
  - destruct (analyze_all_effect ch
                (enrich_messages_with_user_info sl (m0 :: msgs0)) self Hs Ha Hd)
      as (self' & Hrun & Hs' & Ha' & Hsc & Hv & Hp).
    rewrite Hrun.
    destruct (ScoringSystem.calculate_rankings (scoring self')); simpl; auto.
Qed.

(** The outcome of a run whose fetch is not empty: the summary, when the
    ranking of the contributors is returned. *)
Lemma process_channel_result ch h self :
  slack self = Some sl -> analyzer self = Some an ->
  forallb (answers_dict an) (analyzed sl ch h) = true ->
  get_channel_messages sl ch h <> [] ->
  fst (process ch h self) =
  match ScoringSystem.calculate_rankings (scoring (snd (process ch h self))) with
  | Ok scores =>
      Returned
        [("total_messages",
          SInt (Z.of_nat (length (get_channel_messages sl ch h))));
         ("violations_found",
          SInt (Z.of_nat (length (violations (snd (process ch h self))))));
         ("positive_messages",
          SInt (Z.of_nat (length (positive_messages (snd (process ch h self))))));
         ("top_contributors", SScores (take 5 scores))]
  | Raise e => Raised e
  | Unmodelled => Unranked
  end.
Proof.
  intros Hs Ha Hd Hne. unfold process_channel. unfold analyzed, fetched in Hd.
  rewrite Hs.
  destruct (get_channel_messages sl ch h) as [|m0 msgs0]; [congruence|].
  destruct (analyze_all_effect ch
              (enrich_messages_with_user_info sl (m0 :: msgs0)) self Hs Ha Hd)
    as (self' & Hrun & _).
  rewrite Hrun.
  destruct (ScoringSystem.calculate_rankings (scoring self')) eqn:E;
    cbn [fst snd]; rewrite E; [|reflexivity|reflexivity].
  unfold enrich_messages_with_user_info. now rewrite enrich_loop_length.
Qed.
End ProcessorFacts.

Section ProcessorProperties.
Import Py SlackClient MessageProcessor Spec.

(** C1. The two-message scenario as the code runs it: the summary counts two
    messages, one violation and one positive message, and U1 is ranked above
    U2 with a score of 6; the score of U2 is 1, because [_analyze_message]
    records the activity of a violating message without a violation. *)
Theorem scenario_two_messages :
  let u1 := ScoringSystem.mkUserScore "U1" "A" 1 1 0 0 0 in
  let u2 := ScoringSystem.mkUserScore "U2" "B" 1 0 0 0 0 in
  fst (Scenario.run "C1" Scenario.processor) =
  Returned [("total_messages", SInt 2); ("violations_found", SInt 1);
            ("positive_messages", SInt 1);
            ("top_contributors", SScores [u1; u2])]
  /\ ScoringSystem.calculate_total_score u1 = inr (Float.Num 6)
  /\ ScoringSystem.calculate_total_score u2 = inr (Float.Num 1)
  /\ map v_user_id (violations (snd (Scenario.run "C1" Scenario.processor)))
     = ["U2"].
Proof. repeat split. Qed.

(** The same violation costs 10 points when it is scored through
    [update_user_post], as [run_demo] does. *)
Lemma scenario_update_user_post :
  ScoringSystem.calculate_rankings
    (DemoPrototype.score_post "U2" "B"
       [("guideline_violation", VInt 80); ("positive_feedback", VBool false)] 0
       ScoringSystem.init) =
  Ok [ScoringSystem.mkUserScore "U2" "B" 1 0 0 1 0]
  /\ ScoringSystem.calculate_total_score
       (ScoringSystem.mkUserScore "U2" "B" 1 0 0 1 0) = inr (Float.Num (-9)).
Proof. split; reflexivity. Qed.

(** A message is recorded as a violation exactly when the value the
    classifier gives as its violation score is true for Python, that is,
    for a number, when it is not zero. *)
Lemma violation_recorded_iff_truthy lower fromtimestamp sl an m ch self :
  slack self = Some sl -> analyzer self = Some an ->
  answers_dict an m = true ->
  violations (fst (_analyze_message lower fromtimestamp m ch self)) =
  violations self ++
  (if truthy (violation_score an m) then [violation_entry an ch m] else []).
Proof.
  intros Hs Ha Hd.
  now rewrite (analyze_message_effect lower fromtimestamp sl an m ch self
                 Hs Ha Hd).
Qed.

(** C2 on the code: a message that the classifier scores 30 out of 100 is
    recorded as a violation and an alert is sent for it, although 30 is not
    above 50; [run_demo] does not record it. *)
Theorem score_30_is_recorded_as_violation :
  violation_score Scenario.stub_classifier Scenario.doubt = VInt 30
  /\ violations (snd (Scenario.run "C2" Scenario.notifying_processor)) =
     [mkViolation "U3" "U3" "その考え方は完全に間違ってますね。" "3.0" "C2"
        (VStr "")]
  /\ option_map (fun ns => map va_message_id (dispatched ns))
       (notification_system
          (snd (Scenario.run "C2" Scenario.notifying_processor))) =
     Some ["3.0"]
  /\ DemoPrototype.records_violation
       (analysis_of Scenario.stub_classifier Scenario.doubt) = Some false.
Proof. repeat split. Qed.

(** C8. The severity of a violation: high as soon as a word of the urgent
    list occurs in the lowered text, whatever else occurs in it; medium when
    none does and a word of the problem list occurs; low otherwise. *)
Theorem severity_priority lower fromtimestamp text :
  ((exists w, In w high_words /\ occurs w (lower text)) ->
   severity_of lower text = high)
  /\ (~ (exists w, In w high_words /\ occurs w (lower text)) ->
      (exists w, In w medium_words /\ occurs w (lower text)) ->
      severity_of lower text = medium)
  /\ (~ (exists w, In w high_words /\ occurs w (lower text)) ->
      ~ (exists w, In w medium_words /\ occurs w (lower text)) ->
      severity_of lower text = low)
  /\ (forall m ch analysis ns t,
        fromtimestamp (or_default "" (ts m)) = Some t ->
        map va_severity
          (dispatched (send_alert lower fromtimestamp m ch analysis ns)) =
        map va_severity (dispatched ns)
        ++ [severity_of lower (or_default "" (SlackClient.text m))]).
Proof.
  assert (Hany : forall words,
             any (fun word => str_contains word (lower text)) words = true <->
             exists w, In w words /\ occurs w (lower text)).
  { intros words. unfold any. rewrite existsb_exists.
    split; intros (w & Hin & Hw); exists w; split; try assumption;
      now apply str_contains_occurs. }
  unfold severity_of. repeat split.
  - intros H. apply Hany in H. now rewrite H.
  - intros Hh Hm. apply Hany in Hm.
    destruct (any _ high_words) eqn:E; [|now rewrite Hm].
    exfalso. apply Hh. now apply Hany.
  - intros Hh Hm.
    destruct (any _ high_words) eqn:E; [exfalso; apply Hh; now apply Hany|].
    destruct (any _ medium_words) eqn:E'; [|reflexivity].
    exfalso. apply Hm. now apply Hany.
  - intros m ch analysis ns t Ht. unfold send_alert. rewrite Ht.
    unfold send_violation_alert. simpl. now rewrite map_app.
Qed.

(** A text with a word of each list. *)
Lemma severity_priority_witness :
  occurs "問題" (Scenario.lower "これは緊急の問題です")
  /\ severity_of Scenario.lower "これは緊急の問題です" = high.
Proof.
  split.
  - apply str_contains_occurs. reflexivity.
  - apply (proj1 (severity_priority Scenario.lower Scenario.fromtimestamp
                    "これは緊急の問題です")).
    exists "緊急". split; [now left|].
    apply str_contains_occurs. reflexivity.
Defined.

(** C9 as stated fails: on an empty fetch the returned dict has no
    [total_messages], [violations_found], [positive_messages] or
    [top_contributors] entry. *)
Lemma empty_fetch_returns_no_fields :
  ~ (exists d,
        fst (Scenario.run "C0" Scenario.processor) = Returned d
        /\ dict_get "total_messages" d = Some (SInt 0)
        /\ dict_get "violations_found" d = Some (SInt 0)
        /\ dict_get "positive_messages" d = Some (SInt 0)
        /\ dict_get "top_contributors" d = Some (SScores [])).
Proof.
  intros (d & Hd & Ht & _). vm_compute in Hd. injection Hd as <-. discriminate.
Qed.

(** C9, amended. When the fetch returns no message, [process_channel] does
    not raise: it returns the empty dict, which has no entry at all, and
    leaves the processor as it was. *)
Theorem process_channel_empty_fetch lower fromtimestamp sl ch h self :
  slack self = Some sl ->
  get_channel_messages sl ch h = [] ->
  process_channel lower fromtimestamp ch h self = (Returned [], self)
  /\ (forall k, dict_get k ([] : dict summary_value) = None).
Proof.
  intros Hs He. unfold process_channel. rewrite Hs, He. now split.
Qed.

Lemma process_channel_empty_fetch_witness :
  Scenario.run "C0" Scenario.processor = (Returned [], Scenario.processor).
Proof.
  apply (process_channel_empty_fetch Scenario.lower Scenario.fromtimestamp
           Scenario.stub_slack "C0" 24 Scenario.processor);
    reflexivity.
Defined.

(** C10. The lists of violations and of positive messages start empty with
    the processor and are never emptied: the second of two runs on one
    processor reports the violations and the positive messages of both runs,
    and its top contributors are ranked on the activity of both runs.  (The
    classifier answers each analyzed message with a dict; the run raises
    when that ranking does.) *)
Theorem accumulators_span_runs lower fromtimestamp sl an ns ch1 h1 ch2 h2 :
  get_channel_messages sl ch2 h2 <> [] ->
  forallb (answers_dict an) (analyzed sl ch1 h1) = true ->
  forallb (answers_dict an) (analyzed sl ch2 h2) = true ->
  let p0 := MessageProcessor.init (Some sl) (Some an) ns in
  let p1 := snd (process_channel lower fromtimestamp ch1 h1 p0) in
  fst (process_channel lower fromtimestamp ch2 h2 p1) =
  match
    ScoringSystem.calculate_rankings
      (record_all
         (map (activity sl an ch1) (analyzed sl ch1 h1)
          ++ map (activity sl an ch2) (analyzed sl ch2 h2))
         ScoringSystem.init)
  with
  | Ok scores =>
      Returned
        [("total_messages",
          SInt (Z.of_nat (length (get_channel_messages sl ch2 h2))));
         ("violations_found",
          SInt (Z.of_nat (length (filter (flagged an) (analyzed sl ch1 h1))
                          + length (filter (flagged an) (analyzed sl ch2 h2)))));
         ("positive_messages",
          SInt (Z.of_nat (length (filter (praised an) (analyzed sl ch1 h1))
                          + length (filter (praised an) (analyzed sl ch2 h2)))));
         ("top_contributors", SScores (take 5 scores))]
  | Raise e => Raised e
  | Unmodelled => Unranked
  end.
Proof.
  intros Hne Hd1 Hd2 p0 p1.
  destruct (process_channel_state lower fromtimestamp sl an ch1 h1 p0
              eq_refl eq_refl Hd1) as (Hs1 & Ha1 & Hsc1 & Hv1 & Hp1).
  fold p1 in Hs1, Ha1, Hsc1, Hv1, Hp1.
  destruct (process_channel_state lower fromtimestamp sl an ch2 h2 p1 Hs1 Ha1
              Hd2)
    as (_ & _ & Hsc2 & Hv2 & Hp2).
  rewrite (process_channel_result lower fromtimestamp sl an ch2 h2 p1 Hs1 Ha1
             Hd2 Hne).
  rewrite Hsc2, Hv2, Hp2, Hsc1, Hv1, Hp1.
  change (scoring p0) with ScoringSystem.init.
  change (violations p0) with (@nil Violation).
  change (positive_messages p0) with (@nil Positive).
  replace (record_all (map (activity sl an ch2) (analyzed sl ch2 h2))
             (record_all (map (activity sl an ch1) (analyzed sl ch1 h1))
                ScoringSystem.init))
    with (record_all
            (map (activity sl an ch1) (analyzed sl ch1 h1)
             ++ map (activity sl an ch2) (analyzed sl ch2 h2))
            ScoringSystem.init)
    by (unfold record_all; now rewrite fold_left_app).
  destruct (ScoringSystem.calculate_rankings _); [|reflexivity|reflexivity].
  cbn [app]. now rewrite !length_app, !length_map.
Qed.

(** Channel C1 processed twice by one processor: the second summary counts
    two violations and two positive messages for two fetched messages. *)
Lemma accumulators_span_runs_witness :
  fst (Scenario.run "C1" (snd (Scenario.run "C1" Scenario.processor))) =
  Returned
    [("total_messages", SInt 2); ("violations_found", SInt 2);
     ("positive_messages", SInt 2);
     ("top_contributors",
      SScores [ScoringSystem.mkUserScore "U1" "A" 2 2 0 0 0;
               ScoringSystem.mkUserScore "U2" "B" 2 0 0 0 0])].
Proof.
  refine (eq_trans
            (accumulators_span_runs Scenario.lower Scenario.fromtimestamp
               Scenario.stub_slack Scenario.stub_classifier None
               "C1" 24 "C1" 24 _ _ _) _).
  - discriminate.
  - reflexivity.
  - reflexivity.
  - reflexivity.
Defined.
End ProcessorProperties.

(** ** The invariant of [users] holds in every engine the code builds *)

Section Reachable.
Import Py ScoringSystem Spec.

Lemma init_well_formed : well_formed init = true.
Proof. reflexivity. Qed.

Lemma dict_set_distinct (V : Type) k (v : V) d :
  distinct (keys d) = true -> distinct (keys (dict_set k v d)) = true.
Proof.
  intros Hd. destruct (dict_get k d) as [v0|] eqn:E.
  - now rewrite (keys_dict_set_present V d k v v0 E).
  - rewrite (dict_set_absent V d k v E). unfold keys. rewrite map_app.
    apply distinct_snoc; [exact Hd|]. now apply dict_get_none_existsb.
Qed.

Lemma load_user_id uid score_data u :
  load_user uid score_data = Ok u -> user_id u = uid.
Proof.
  unfold load_user. destruct score_data; try discriminate.
  destruct (dict_get "user_name" d) as [[| | | |name| |]|]; try discriminate.
  destruct (get_int "post_count" d), (get_int "positive_count" d),
    (get_int "reaction_count" d), (get_int "violation_count" d),
    (get_float "total_score" d); try discriminate.
  intros H. injection H as <-. reflexivity.
Qed.

Lemma load_items_well_formed items : forall us us' e,
  well_formed (mk us) = true ->
  load_items items us = Some (us', e) ->
  well_formed (mk us') = true.
Proof.
  induction items as [|[uid score_data] items IH]; intros us us' e H Hl.
  - injection Hl as <- _. exact H.
  - simpl in Hl.
    destruct (load_user uid score_data) as [u|e'|] eqn:E;
      [|injection Hl as <- _; exact H|discriminate].
    refine (IH _ _ _ _ Hl). unfold well_formed in *. simpl in *.
    apply andb_prop in H. destruct H as [Hd Ho].
    apply andb_true_intro. split.
    + now apply dict_set_distinct.
    + apply forallb_dict_set; [exact Ho|]. simpl.
      rewrite (load_user_id _ _ _ E). apply String.eqb_refl.
Qed.

Lemma load_from_file_well_formed path fs s s' e :
  well_formed s = true ->
  load_from_file path fs s = Some (s', e) ->
  well_formed s' = true.
Proof.
  intros H. unfold load_from_file.
  destruct (dict_get path fs) as [[| | | | | |data]|];
    try (intros Hl; injection Hl as <- _; first [exact H|reflexivity]).
  destruct (load_items data []) as [[us e']|] eqn:El; [|discriminate].
  intros Hl. injection Hl as <- _.
  exact (load_items_well_formed data [] us e' eq_refl El).
Qed.

(** The processor reads the key [is_positive]; a classifier that answers
    with the keys of [ContentAnalyzer.safe_default] is never taken to have
    found a positive message. *)
Lemma positive_feedback_key_not_read text :
  let an := MessageProcessor.mkAnalyzer
              (fun _ => VDict [("guideline_violation", VInt 0);
                               ("positive_feedback", VBool true)]) in
  praised an (SlackClient.mkMessage (Some "U1") (Some text) None None None)
  = false.
Proof. reflexivity. Qed.
End Reachable.

(** ** More on the scoring engine *)

Section ScoringMore.
Import Py ScoringSystem Spec Measures.
Local Open Scope Z_scope.

Lemma weighted_sum_of_apply_call uid c s :
  weighted_sum_of uid (apply_call c s) =
  weighted_sum_of uid s
  + (if String.eqb (c_user_id c) uid then points c else 0).
Proof.
  unfold weighted_sum_of, apply_call.
  destruct (String.eqb (c_user_id c) uid) eqn:E.
  - apply String.eqb_eq in E. subst uid.
    destruct (dict_get (c_user_id c) (users s)) as [u|] eqn:G.
    + rewrite (add_user_activity_present _ (c_user_name c) (c_post c)
                 (c_positive c) (c_reaction c) (c_violation c) _ _ G).
      unfold derived_score, points. simpl. lia.
    + rewrite (add_user_activity_absent _ (c_user_name c) (c_post c)
                 (c_positive c) (c_reaction c) (c_violation c) _ G).
      unfold derived_score, points. simpl. lia.
  - apply String.eqb_neq in E. rewrite add_user_activity_other by exact E. lia.
Qed.

Lemma weighted_sum_of_record_all uid calls : forall s,
  weighted_sum_of uid (record_all calls s) =
  weighted_sum_of uid s + sum (map points (calls_of uid calls)).
Proof.
  induction calls as [|c calls IH]; intros s.
  - simpl. lia.
  - rewrite record_all_cons, IH, weighted_sum_of_apply_call, calls_of_cons.
    destruct (String.eqb (c_user_id c) uid); simpl; lia.
Qed.

(** In the exact range the score of a user is the weighted sum of the
    counts. *)
Lemma score_of_exact uid s :
  exact_for uid s = true ->
  score_of uid s = inr (Float.Num (weighted_sum_of uid s)).
Proof.
  unfold exact_for, score_of, weighted_sum_of.
  destruct (dict_get uid (users s)) as [u|]; [|reflexivity].
  apply calculate_total_score_exact.
Qed.

(** X1. The derived score is additive: as long as the counts of a user stay
    in the range in which the floats do not round, any list of calls
    changes the score of the user by the points of the calls made for that
    user, and by nothing else. *)
Theorem score_is_sum_of_points uid calls s :
  exact_for uid s = true ->
  exact_for uid (record_all calls s) = true ->
  score_of uid s = inr (Float.Num (weighted_sum_of uid s))
  /\ score_of uid (record_all calls s) =
     inr (Float.Num (weighted_sum_of uid s
                     + sum (map points (calls_of uid calls)))).
Proof.
  intros H0 H1. split; [now apply score_of_exact|].
  rewrite (score_of_exact _ _ H1). now rewrite weighted_sum_of_record_all.
Qed.

(** U1 has 6 points; two calls for U1, worth 2 and -10, and one for U2. *)
Lemma score_is_sum_of_points_witness :
  score_of "U1"
    (record_all [mkCall "U1" "A" 0 0 1 0; mkCall "U2" "B" 1 0 0 0;
                 mkCall "U1" "A" 0 0 0 1]
       (record_all [mkCall "U1" "A" 1 1 0 0] init)) =
  inr (Float.Num (6 + (2 + (-10 + 0)))).
Proof.
  apply (proj2 (score_is_sum_of_points "U1"
                  [mkCall "U1" "A" 0 0 1 0; mkCall "U2" "B" 1 0 0 0;
                   mkCall "U1" "A" 0 0 0 1]
                  (record_all [mkCall "U1" "A" 1 1 0 0] init)
                  eq_refl eq_refl)).
Defined.

Lemma record_all_untouched uid calls : forall s,
  calls_of uid calls = [] ->
  dict_get uid (users (record_all calls s)) = dict_get uid (users s).
Proof.
  induction calls as [|c calls IH]; intros s H; [reflexivity|].
  rewrite calls_of_cons in H. rewrite record_all_cons.
  destruct (String.eqb (c_user_id c) uid) eqn:E; [discriminate|].
  apply String.eqb_neq in E. rewrite IH by exact H.
  unfold apply_call. now apply add_user_activity_other.
Qed.

(** X2. Recording activity never removes or moves a user: the users known
    before keep their place, new users are added behind them, and the record
    of a user for whom no call is made is left as it was. *)
Theorem users_are_never_removed calls s :
  (exists added, keys (users (record_all calls s)) = keys (users s) ++ added)
  /\ (forall uid,
        calls_of uid calls = [] ->
        dict_get uid (users (record_all calls s)) = dict_get uid (users s)).
Proof.
  split.
  - eexists. apply record_all_keys.
  - intros uid. apply record_all_untouched.
Qed.

Lemma users_are_never_removed_witness :
  dict_get "U1"
    (users (record_all [mkCall "U2" "B" 1 0 0 0; mkCall "U3" "C" 1 0 0 0]
              (record_all [mkCall "U1" "A" 2 1 0 0] init))) =
  Some (mkUserScore "U1" "A" 2 1 0 0 0%Q).
Proof.
  refine (eq_trans
            (proj2 (users_are_never_removed
                      [mkCall "U2" "B" 1 0 0 0; mkCall "U3" "C" 1 0 0 0]
                      (record_all [mkCall "U1" "A" 2 1 0 0] init))
               "U1" _) _);
    reflexivity.
Defined.

Lemma sum_values_dict_set_present (f : UserScore -> Z) k v u : forall d,
  dict_get k d = Some u ->
  sum (map f (values (dict_set k v d))) = sum (map f (values d)) - f u + f v.
Proof.
  induction d as [|[k' v'] d IH]; simpl; [discriminate|].
  destruct (String.eqb k k'); simpl.
  - intros H. injection H as ->. lia.
  - intros H. rewrite (IH H). lia.
Qed.

Lemma sum_values_dict_set_absent (f : UserScore -> Z) k v d :
  dict_get k d = None ->
  sum (map f (values (dict_set k v d))) = sum (map f (values d)) + f v.
Proof.
  intros H. rewrite (dict_set_absent _ d k v H). unfold values.
  rewrite !map_app. simpl. induction (map f (map snd d)); simpl; lia.
Qed.

Lemma total_add_user_activity_gen (f : UserScore -> Z) (delta : Z)
    uid name p q r v s :
  (forall u,
      f (mkUserScore (user_id u) (user_name u)
           (post_count u + p) (positive_count u + q)
           (reaction_count u + r) (violation_count u + v) (total_score u)) =
      f u + delta) ->
  f (new_user uid name) = 0 ->
  total f (add_user_activity uid name p q r v s) = total f s + delta.
Proof.
  intros Hf H0. unfold total, add_user_activity, dict_mem.
  destruct (dict_get uid (users s)) as [u|] eqn:E.
  - rewrite E. cbn [users].
    rewrite (sum_values_dict_set_present f _ _ _ _ E), Hf. lia.
  - rewrite dict_get_set_same. cbn [users].
    rewrite (sum_values_dict_set_present f uid _ (new_user uid name))
      by apply dict_get_set_same.
    rewrite (sum_values_dict_set_absent f _ _ _ E), Hf. lia.
Qed.

Lemma total_add_user_activity uid name p q r v s :
  total post_count (add_user_activity uid name p q r v s)
  = total post_count s + p
  /\ total positive_count (add_user_activity uid name p q r v s)
     = total positive_count s + q
  /\ total reaction_count (add_user_activity uid name p q r v s)
     = total reaction_count s + r
  /\ total violation_count (add_user_activity uid name p q r v s)
     = total violation_count s + v.
Proof.
  repeat split; apply total_add_user_activity_gen; reflexivity.
Qed.

(** X3. Nothing is lost and nothing is counted twice: summed over all
    users, each count of the engine grows by the sum of the corresponding
    argument over all the calls. *)
Theorem counts_are_conserved calls : forall s,
  total post_count (record_all calls s)
  = total post_count s + sum (map c_post calls)
  /\ total positive_count (record_all calls s)
     = total positive_count s + sum (map c_positive calls)
  /\ total reaction_count (record_all calls s)
     = total reaction_count s + sum (map c_reaction calls)
  /\ total violation_count (record_all calls s)
     = total violation_count s + sum (map c_violation calls).
Proof.
  induction calls as [|c calls IH]; intros s.
  - simpl. repeat split; lia.
  - rewrite record_all_cons.
    destruct (IH (apply_call c s)) as (H1 & H2 & H3 & H4).
    destruct (total_add_user_activity (c_user_id c) (c_user_name c) (c_post c)
                (c_positive c) (c_reaction c) (c_violation c) s)
      as (A1 & A2 & A3 & A4).
    unfold apply_call in *. rewrite H1, H2, H3, H4, A1, A2, A3, A4.
    simpl. repeat split; lia.
Qed.

Lemma forall_values_dict_set (P : UserScore -> Prop) k v : forall d,
  Forall P (values d) -> P v -> Forall P (values (dict_set k v d)).
Proof.
  induction d as [|[k' v'] d IH]; simpl; intros Hd Hv.
  - now constructor.
  - inversion Hd; subst. destruct (String.eqb k k'); simpl.
    + now constructor.
    + constructor; [assumption|now apply IH].
Qed.

Lemma forall_values_dict_get (P : UserScore -> Prop) k u : forall d,
  Forall P (values d) -> dict_get k d = Some u -> P u.
Proof.
  induction d as [|[k' v'] d IH]; simpl; intros Hd Hk; [discriminate|].
  inversion Hd; subst. destruct (String.eqb k k').
  - now injection Hk as <-.
  - now apply IH.
Qed.

Lemma add_user_activity_total_score uid name p q r v s :
  Forall (fun u => total_score u = 0%Q) (values (users s)) ->
  Forall (fun u => total_score u = 0%Q)
    (values (users (add_user_activity uid name p q r v s))).
Proof.
  intros H. unfold add_user_activity, dict_mem.
  destruct (dict_get uid (users s)) as [u|] eqn:E.
  - rewrite E. simpl. apply forall_values_dict_set; [exact H|]. simpl.
    exact (forall_values_dict_get _ _ _ _ H E).
  - rewrite dict_get_set_same. simpl.
    apply forall_values_dict_set; [|reflexivity].
    apply forall_values_dict_set; [exact H|reflexivity].
Qed.

(** X4. The stored field [total_score] is never brought up to date: in an
    engine built by [add_user_activity] alone every record has
    [total_score] 0, whatever its derived score, so this is the value
    [save_to_file] writes and the value a reader of the field sees. *)
Theorem total_score_field_stays_zero calls :
  Forall (fun u => total_score u = 0%Q)
    (values (users (record_all calls init))).
Proof.
  assert (H : forall s,
             Forall (fun u => total_score u = 0%Q) (values (users s)) ->
             Forall (fun u => total_score u = 0%Q)
               (values (users (record_all calls s)))).
  { induction calls as [|c calls IH]; intros s Hs; [exact Hs|].
    rewrite record_all_cons. apply IH. unfold apply_call.
    now apply add_user_activity_total_score. }
  apply H. constructor.
Qed.

Lemma enumerate_from_fst (A : Type) (l : list A) : forall n,
  map fst (enumerate_from n l) = seq n (length l).
Proof.
  induction l as [|x l IH]; intros n; simpl; [reflexivity|].
  now rewrite IH.
Qed.

Lemma enumerate_from_snd (A : Type) (l : list A) : forall n,
  map snd (enumerate_from n l) = l.
Proof.
  induction l as [|x l IH]; intros n; simpl; [reflexivity|].
  now rewrite IH.
Qed.

Lemma rank_entries_scored (l : list (nat * UserScore)) :
  Forall (fun p => scored (snd p) = true) l ->
  rank_entries l =
  inr (map (fun p =>
              mkRankEntry (fst p) (user_id (snd p)) (user_name (snd p))
                (float_score (snd p)) (post_count (snd p))
                (positive_count (snd p)) (reaction_count (snd p)))
         l).
Proof.
  induction 1 as [|[r u] l Hu Hl IH]; [reflexivity|].
  cbn [rank_entries map fst snd] in *.
  destruct (scored_float_score u Hu) as [-> _]. now rewrite IH.
Qed.

Lemma enumerate_from_scored (l : list UserScore) : forall n,
  Forall (fun u => scored u = true) l ->
  Forall (fun p => scored (snd p) = true) (enumerate_from n l).
Proof.
  induction l as [|u l IH]; intros n H; [constructor|].
  inversion H; subst. constructor; [assumption|now apply IH].
Qed.

(** The entries of [get_rankings] when the ranking is returned. *)
Lemma get_rankings_ok top_n s scores :
  calculate_rankings s = Ok scores ->
  Permutation (values (users s)) scores
  /\ get_rankings top_n s =
     Ok (map (fun p =>
                mkRankEntry (fst p) (user_id (snd p)) (user_name (snd p))
                  (float_score (snd p)) (post_count (snd p))
                  (positive_count (snd p)) (reaction_count (snd p)))
           (enumerate_from 1 (firstn top_n scores))).
Proof.
  intros Hok. unfold get_rankings, take. rewrite Hok.
  destruct (calculate_rankings_ok s scores Hok) as [Hsc Hr].
  assert (Hperm : Permutation (values (users s)) scores)
    by (rewrite Hr; apply sorted_reverse_perm).
  split; [exact Hperm|].
  assert (Hall : Forall (fun u => scored u = true) (firstn top_n scores)).
  { apply Forall_forall. intros u Hin.
    assert (Hin' : In u scores)
      by (rewrite <- (firstn_skipn top_n); apply in_or_app; now left).
    rewrite forallb_forall in Hsc. apply Hsc.
    eapply Permutation_in; [apply Permutation_sym; exact Hperm|exact Hin']. }
  now rewrite (rank_entries_scored _ (enumerate_from_scored _ 1 Hall)).
Qed.

(** X5. When the ranking is returned, [get_rankings] numbers its entries 1,
    2, ... without gaps, returns [top_n] entries or all the users if there
    are fewer, and its entries are the first records of
    [calculate_rankings], each with its derived score; when the ranking
    raises, so does [get_rankings]. *)
Theorem get_rankings_ranks top_n s :
  (forall scores,
      calculate_rankings s = Ok scores ->
      exists rankings,
        get_rankings top_n s = Ok rankings
        /\ map rank rankings = seq 1 (Nat.min top_n (length (users s)))
        /\ map re_user_id rankings = map user_id (firstn top_n scores)
        /\ map (fun r => inr (re_total_score r)) rankings =
           map calculate_total_score (firstn top_n scores))
  /\ (forall e, calculate_rankings s = Raise e -> get_rankings top_n s = Raise e).
Proof.
  split; [|intros e H; unfold get_rankings; now rewrite H].
  intros scores Hok. unfold get_rankings, take. rewrite Hok.
  destruct (calculate_rankings_ok s scores Hok) as [Hsc Hr].
  assert (Hperm : Permutation (values (users s)) scores)
    by (rewrite Hr; apply sorted_reverse_perm).
  assert (Hall : Forall (fun u => scored u = true) (firstn top_n scores)).
  { apply Forall_forall. intros u Hin.
    assert (Hin' : In u scores)
      by (rewrite <- (firstn_skipn top_n); apply in_or_app; now left).
    rewrite forallb_forall in Hsc. apply Hsc.
    eapply Permutation_in; [apply Permutation_sym; exact Hperm|exact Hin']. }
  assert (Hlen : length (firstn top_n scores) =
                 Nat.min top_n (length (users s))).
  { rewrite length_firstn, <- (Permutation_length Hperm).
    unfold values. now rewrite length_map. }
  rewrite (rank_entries_scored _ (enumerate_from_scored _ 1 Hall)).
  eexists. split; [reflexivity|].
  set (l := firstn top_n scores) in *.
  split; [|split]; rewrite map_map; cbn [rank re_user_id re_total_score].
  - now rewrite enumerate_from_fst, Hlen.
  - rewrite <- map_map with (f := snd) (g := user_id).
    now rewrite enumerate_from_snd.
  - rewrite <- map_map with (f := snd) (g := fun u => inr (float_score u)).
    rewrite enumerate_from_snd. apply map_ext_in. intros u Hin.
    rewrite Forall_forall in Hall.
    now destruct (scored_float_score u (Hall u Hin)) as [-> _].
Qed.

(** Three users, of whom the two best are asked for. *)
Lemma get_rankings_ranks_witness :
  exists rankings,
    get_rankings 2
      (record_all [mkCall "U1" "A" 1 0 0 0; mkCall "U2" "B" 1 1 0 0;
                   mkCall "U3" "C" 1 0 1 0] init) = Ok rankings
    /\ map rank rankings = [1; 2]%nat
    /\ map re_user_id rankings = ["U2"; "U3"].
Proof.
  destruct (proj1 (get_rankings_ranks 2
                     (record_all [mkCall "U1" "A" 1 0 0 0;
                                  mkCall "U2" "B" 1 1 0 0;
                                  mkCall "U3" "C" 1 0 1 0] init))
              _ eq_refl) as (rankings & Hr & Hn & Hu & _).
  exists rankings. split; [exact Hr|]. split; [exact Hn|exact Hu].
Defined.
End ScoringMore.

(** ** More on persistence and on [update_user_post] *)

Section PersistenceMore.
Import Py ScoringSystem Spec Measures.
Local Open Scope Z_scope.

(** [kv] is an entry of a score file that [load_from_file] turns into the
    record [u]. *)
Local Abbreviation loads_as := (fun (kv : string * value) (u : UserScore) =>
  load_user (fst kv) (snd kv) = Ok u).

Lemma load_items_all items : forall recs acc,
  distinct (keys acc ++ keys items) = true ->
  Forall2 loads_as items recs ->
  load_items items acc = Some (acc ++ combine (keys items) recs, None).
Proof.
  induction items as [|[k sd] items IH]; intros recs acc Hd Hl;
    inversion Hl as [|kv u items' recs' Hu Hrest]; subst.
  - simpl. now rewrite app_nil_r.
  - simpl in Hu. simpl. rewrite Hu.
    rewrite (dict_set_absent _ _ _ _ (distinct_head_absent _ _ _ _ Hd)).
    rewrite (IH recs' _); [now rewrite <- app_assoc| |exact Hrest].
    unfold keys in *. now rewrite map_app, <- app_assoc.
Qed.


(** X6. [load_from_file] replaces, it does not merge: when every entry of
    the file can be read, the engine afterwards holds exactly the users of
    the file, in the order of the file, and nothing of what it held before.
    Counts that an entry leaves out are read as 0. *)
Theorem load_replaces_engine path fs s0 items recs :
  dict_get path fs = Some (VDict items) ->
  distinct (keys items) = true ->
  Forall2 loads_as items recs ->
  load_from_file path fs s0 = Some (mk (combine (keys items) recs), None).
Proof.
  intros Hf Hd Hl. unfold load_from_file. rewrite Hf.
  now rewrite (load_items_all items recs [] Hd Hl).
Qed.

(** A file whose first entry has only a name, loaded into an engine that
    knows another user. *)
Lemma load_replaces_engine_witness :
  load_from_file "scores.json"
    [("scores.json",
      VDict [("U1", VDict [("user_name", VStr "A")]);
             ("U2", VDict [("user_name", VStr "B"); ("post_count", VInt 3);
                           ("total_score", VInt 7)])])]
    (record_all [mkCall "U9" "Z" 1 0 0 0] init) =
  Some (mk [("U1", mkUserScore "U1" "A" 0 0 0 0 0%Q);
            ("U2", mkUserScore "U2" "B" 3 0 0 0 (inject_Z 7))],
        None).
Proof.
  apply (load_replaces_engine "scores.json" _ _
           [("U1", VDict [("user_name", VStr "A")]);
            ("U2", VDict [("user_name", VStr "B"); ("post_count", VInt 3);
                          ("total_score", VInt 7)])]
           [mkUserScore "U1" "A" 0 0 0 0 0%Q;
            mkUserScore "U2" "B" 3 0 0 0 (inject_Z 7)]).
  - reflexivity.
  - reflexivity.
  - repeat constructor.
Defined.




(** X8. What one post is worth through [update_user_post], as long as the
    counts of the user stay in the range in which the floats do not round:
    1 point for the post, 5 more if [positive_feedback] is true for Python,
    2 per reaction, and 10 less if [guideline_violation] is true for
    Python, that is, for a score, as soon as it is not zero. *)
Theorem update_user_post_points uid name analysis reactions s :
  exact_for uid s = true ->
  exact_for uid (update_user_post uid name analysis reactions s) = true ->
  score_of uid s = inr (Float.Num (weighted_sum_of uid s))
  /\ score_of uid (update_user_post uid name analysis reactions s) =
     inr (Float.Num
            (weighted_sum_of uid s + 1
             + (if truthy (get "positive_feedback" (VBool false) analysis)
                then 5 else 0)
             + 2 * reactions
             - (if truthy (get "guideline_violation" (VBool false) analysis)
                then 10 else 0))).
Proof.
  intros H0 H1. split; [now apply score_of_exact|].
  rewrite (score_of_exact _ _ H1). do 2 f_equal.
  unfold update_user_post.
  set (pos := if truthy (get "positive_feedback" (VBool false) analysis)
              then 1 else 0).
  set (vio := if truthy (get "guideline_violation" (VBool false) analysis)
              then 1 else 0).
  change (add_user_activity uid name 1 pos reactions vio s)
    with (apply_call (mkCall uid name 1 pos reactions vio) s).
  rewrite weighted_sum_of_apply_call. cbn [c_user_id].
  rewrite String.eqb_refl.
  unfold points, pos, vio.
  cbn [c_post c_positive c_reaction c_violation].
  destruct (truthy (get "positive_feedback" _ _));
    destruct (truthy (get "guideline_violation" _ _)); lia.
Qed.

(** A positive post with three reactions and a violation score of 30, by a
    user who has 6 points: 6 + 1 + 5 + 6 - 10. *)
Lemma update_user_post_points_witness :
  score_of "U1"
    (update_user_post "U1" "A"
       [("guideline_violation", VInt 30); ("positive_feedback", VBool true)] 3
       (record_all [mkCall "U1" "A" 1 1 0 0] init)) =
  inr (Float.Num 8).
Proof.
  apply (proj2 (update_user_post_points "U1" "A"
                  [("guideline_violation", VInt 30);
                   ("positive_feedback", VBool true)] 3
                  (record_all [mkCall "U1" "A" 1 1 0 0] init)
                  eq_refl eq_refl)).
Defined.

(** X9. In [run_demo] every post that is listed as a violation (score above
    50) is also penalised by [update_user_post]; a post whose score is
    between 1 and 50 is penalised without being listed. *)
Theorem demo_listed_implies_penalised result :
  (DemoPrototype.records_violation result = Some true ->
   truthy (get "guideline_violation" (VBool false) result) = true)
  /\ (forall n, 0 < n <= 50 ->
        dict_get "guideline_violation" result = Some (VInt n) ->
        DemoPrototype.records_violation result = Some false
        /\ truthy (get "guideline_violation" (VBool false) result) = true).
Proof.
  unfold DemoPrototype.records_violation, get. split.
  - destruct (dict_get "guideline_violation" result) as [v|]; simpl;
      [|discriminate].
    destruct v as [|b|n|q|?|?|?]; simpl; try discriminate; intros H;
      injection H as H.
    + destruct b; [reflexivity|discriminate].
    + apply Z.ltb_lt in H. apply negb_true_iff, Z.eqb_neq. lia.
    + apply negb_true_iff. apply negb_true_iff in H.
      destruct (Qeq_bool q 0) eqn:E; [|reflexivity].
      apply Qeq_bool_iff in E.
      assert (Hle : Qle_bool q (inject_Z 50) = true).
      { apply Qle_bool_iff. rewrite E. unfold inject_Z, Qle. simpl. lia. }
      congruence.
  - intros n Hn Hg. rewrite Hg. simpl. split.
    + f_equal. apply Z.ltb_ge. lia.
    + apply negb_true_iff, Z.eqb_neq. lia.
Qed.

Lemma demo_listed_implies_penalised_witness :
  DemoPrototype.records_violation [("guideline_violation", VInt 30)]
  = Some false
  /\ truthy (get "guideline_violation" (VBool false)
               [("guideline_violation", VInt 30)]) = true.
Proof.
  apply (proj2 (demo_listed_implies_penalised
                  [("guideline_violation", VInt 30)]) 30);
    [lia|reflexivity].
Defined.
End PersistenceMore.

(** ** More on the classification client *)

Section AnalyzerMore.
Import Py ContentAnalyzer Spec Timing.
Local Open Scope Q_scope.
Variable generate_content : string -> option string.
Variable latency : string -> Q.
Variable strip : string -> string.
Variable json_loads : string -> option value.

Local Abbreviation analyze := (analyze_post generate_content latency strip json_loads).
Local Abbreviation batch := (batch_analyze generate_content latency strip json_loads).

(** The clock after one call. *)
Lemma analyze_post_end text self w :
  clock (snd (snd (analyze text (self, w)))) ==
  Qmax (clock w) (last_request_time self + request_interval self)
  + latency (prompt text).
Proof.
  unfold analyze_post. simpl.
  destruct (Qlt_le_dec _ _) as [Hlt|Hge]; simpl.
  - rewrite Q.max_r by lra. ring.
  - rewrite Q.max_l by lra. reflexivity.
Qed.

(** X11. One call is held back by the rate limit for at most
    [request_interval], and not at all once [request_interval] has passed
    since the previous call; the call is never issued before it is made. *)
Theorem analyze_post_wait_is_bounded text self w :
  last_request_time self <= clock w ->
  0 <= request_interval self ->
  clock w
  <= last_request_time
       (fst (snd (analyze_post generate_content latency strip json_loads
                    text (self, w))))
  /\ last_request_time
       (fst (snd (analyze_post generate_content latency strip json_loads
                    text (self, w))))
     <= clock w + request_interval self
  /\ (last_request_time self + request_interval self <= clock w ->
      last_request_time
        (fst (snd (analyze_post generate_content latency strip json_loads
                     text (self, w))))
      == clock w).
Proof.
  intros Hlast Hint.
  destruct (analyze_post_clock generate_content latency strip json_loads
              text self w) as [Ht _].
  rewrite Ht. repeat split.
  - apply Q.le_max_l.
  - apply Q.max_lub; lra.
  - intros H. now apply Q.max_l.
Qed.

Lemma batch_analyze_end posts : forall self w,
  request_interval self = 9 # 2 ->
  last_request_time self <= clock w ->
  (forall p, 0 <= latency p) ->
  clock w + total_latency latency posts
  <= clock (snd (snd (batch posts (self, w))))
  /\ clock (snd (snd (batch posts (self, w))))
     <= clock w + count_of posts * (9 # 2) + total_latency latency posts.
Proof.
  induction posts as [|p posts IH]; intros self w Hi Hl Hlat.
  - unfold count_of. simpl. unfold inject_Z. split; lra.
  - cbn [batch_analyze total_latency fold_right].
    pose proof (analyze_post_end p self w) as He.
    destruct (analyze_post_clock generate_content latency strip json_loads
                p self w) as [Ht Hi'].
    destruct (analyze p (self, w)) as [result [self1 w1]]. cbn [fst snd] in *.
    rewrite Hi in *.
    assert (Hl1 : last_request_time self1 <= clock w1).
    { rewrite Ht, He. specialize (Hlat (prompt p)). lra. }
    destruct (IH self1 w1 Hi' Hl1 Hlat) as [Hlo Hhi].
    destruct (batch posts (self1, w1)) as [results [self2 w2]].
    cbn [fst snd] in *. fold (total_latency latency posts) in *.
    rewrite count_of_cons.
    assert (Hm1 : clock w <= Qmax (clock w) (last_request_time self + (9 # 2)))
      by apply Q.le_max_l.
    assert (Hm2 : Qmax (clock w) (last_request_time self + (9 # 2))
                  <= clock w + (9 # 2)) by (apply Q.max_lub; lra).
    split; lra.
Qed.

(** X12. A batch of [N] posts takes at least the time of its calls to the
    model and at most [N * 4.5] more: the rate limit costs no more than one
    interval per call. *)
Theorem batch_analyze_duration posts last0 w :
  last0 <= clock w ->
  (forall p, 0 <= latency p) ->
  clock w + total_latency latency posts
  <= clock (snd (snd (batch posts (mk last0 (9 # 2), w))))
  /\ clock (snd (snd (batch posts (mk last0 (9 # 2), w))))
     <= clock w + count_of posts * (9 # 2) + total_latency latency posts.
Proof.
  intros Hl Hlat. now apply batch_analyze_end.
Qed.
End AnalyzerMore.

Section AnalyzerMoreWitnesses.
Import Py ContentAnalyzer Spec Timing.
Local Open Scope Q_scope.

(** A call made 2 time units after the previous one. *)
Lemma analyze_post_wait_is_bounded_witness :
  last_request_time
    (fst (snd (analyze_post (fun _ => None) (fun _ => 1) (fun s => s)
                 (fun _ => None) "hello" (mk 10 (9 # 2), mkWorld 12))))
  <= 12 + (9 # 2).
Proof.
  apply (analyze_post_wait_is_bounded (fun _ => None) (fun _ => 1)
           (fun s => s) (fun _ => None) "hello" (mk 10 (9 # 2)) (mkWorld 12));
    simpl; lra.
Defined.

(** Two posts, each call to the model taking one time unit. *)
Lemma batch_analyze_duration_witness :
  clock (snd (snd (batch_analyze (fun _ => None) (fun _ => 1) (fun s => s)
                     (fun _ => None) ["a"; "b"] (mk 0 (9 # 2), mkWorld 100))))
  <= 100 + count_of ["a"; "b"] * (9 # 2)
     + total_latency (fun _ => 1) ["a"; "b"].
Proof.
  apply (batch_analyze_duration (fun _ => None) (fun _ => 1) (fun s => s)
           (fun _ => None) ["a"; "b"] 0 (mkWorld 100)).
  - simpl. lra.
  - intros p. lra.
Defined.
End AnalyzerMoreWitnesses.

Section FenceMore.
Import Py ContentAnalyzer Spec.
Local Open Scope string_scope.

Lemma no_fence_no_json_marker s :
  str_contains "```" s = false -> str_contains "```json" s = false.
Proof.
  intros H. destruct (str_contains "```json" s) eqn:E; [|reflexivity].
  apply str_contains_occurs in E. destruct E as (a & b & ->).
  assert (Ho : str_contains "```" (a ++ "```json" ++ b) = true).
  { apply str_contains_occurs. now exists a, ("json" ++ b). }
  congruence.
Qed.

(** X13. What the two [split] lines take out of a reply: the body of a
    [```json] block or of a bare [```] block, without what stands before
    and after the block; everything after the marker when the block is not
    closed; the reply itself when it has no fence. *)
Theorem extract_json_blocks pre body post :
  free_of backtick pre = true ->
  free_of backtick body = true ->
  (str_contains "```json" (body ++ "```" ++ post) = false ->
   extract_json (pre ++ "```json" ++ body ++ "```" ++ post) = Some body)
  /\ (str_contains "```json" (pre ++ "```" ++ body ++ "```" ++ post) = false ->
      extract_json (pre ++ "```" ++ body ++ "```" ++ post) = Some body)
  /\ extract_json (pre ++ "```json" ++ body) = Some body
  /\ extract_json body = Some body.
Proof.
  intros Hpre Hbody.
  assert (Hnf : forall s, free_of backtick s = true ->
                          str_contains "```" s = false).
  { intros s Hs. destruct (str_contains "```" s) eqn:E; [|reflexivity].
    apply str_contains_occurs in E. destruct E as (a & b & ->).
    exfalso. clear -Hs. induction a as [|c a IH]; simpl in Hs.
    - discriminate.
    - apply andb_prop in Hs. now apply IH. }
  repeat split.
  - intros H. rewrite extract_json_unfence. f_equal.
    now apply unfence_json_block.
  - intros H. rewrite extract_json_unfence. f_equal.
    now apply unfence_bare_block.
  - rewrite extract_json_unfence. unfold unfence.
    rewrite (cut_first backtick "``json" pre _ Hpre).
    pose proof (Hnf body Hbody) as Hb.
    pose proof (no_fence_no_json_marker body Hb) as Hj.
    apply cut_none in Hb. apply cut_none in Hj.
    unfold before. now rewrite Hj, Hb.
  - rewrite extract_json_unfence. f_equal. apply unfence_plain.
    now apply Hnf.
Qed.

(** A reply with words around a [```json] block. *)
Lemma extract_json_blocks_witness :
  extract_json "Here it is: ```json{QaQ: 1}``` Done." = Some "{QaQ: 1}".
Proof.
  apply (proj1 (extract_json_blocks "Here it is: " "{QaQ: 1}" " Done."
                  eq_refl eq_refl)).
  reflexivity.
Defined.
End FenceMore.

(** ** The Slack client *)

Section SlackMore.
Import Py SlackClient SlackApi.

Lemma history_loop_pages client channel_id oldest pages :
  forall cursor fuel messages,
  history_pages client channel_id oldest cursor pages ->
  (length pages <= fuel)%nat ->
  history_loop client channel_id oldest fuel cursor messages =
  Some (messages ++ concat (map hp_messages pages)).
Proof.
  induction pages as [|page pages IH]; intros cursor fuel messages Hp Hf;
    inversion Hp as [c p Hc Hm|c p ps Hc Hm Hrest]; subst;
    (destruct fuel as [|fuel]; [simpl in Hf; lia|]);
    simpl; rewrite Hc, Hm; simpl.
  - now rewrite app_nil_r.
  - rewrite (IH _ fuel _ Hrest) by (simpl in Hf; lia).
    now rewrite <- app_assoc.
Qed.

(** X14. Pagination: when the history of a channel comes in pages, of which
    each but the last says there is more, [get_channel_messages] returns
    the messages of all the pages, in the order of the pages, as soon as it
    may ask for that many pages. *)
Theorem get_channel_messages_collects_pages
    client oldest_of channel_id hours pages fuel :
  history_pages client channel_id (oldest_of hours) None pages ->
  (length pages <= fuel)%nat ->
  SlackApi.get_channel_messages client oldest_of channel_id hours fuel =
  Some (concat (map hp_messages pages)).
Proof.
  intros Hp Hf. unfold SlackApi.get_channel_messages.
  now rewrite (history_loop_pages _ _ _ pages None fuel [] Hp Hf).
Qed.

Lemma history_loop_breaks client channel_id oldest good :
  forall cursor fuel messages,
  history_breaks client channel_id oldest cursor good ->
  (length good < fuel)%nat ->
  history_loop client channel_id oldest fuel cursor messages = Some [].
Proof.
  induction good as [|page good IH]; intros cursor fuel messages Hb Hf;
    inversion Hb as [c Hc|c p g Hc Hm Hrest]; subst;
    (destruct fuel as [|fuel]; [simpl in Hf; lia|]);
    simpl; rewrite Hc; [reflexivity|].
  rewrite Hm. simpl. apply (IH _ fuel _ Hrest). simpl in Hf. lia.
Qed.

(** X15. When a page cannot be fetched, [get_channel_messages] returns the
    empty list: the messages of the pages fetched before the failure are
    dropped with it. *)
Theorem get_channel_messages_drops_pages_on_error
    client oldest_of channel_id hours good fuel :
  history_breaks client channel_id (oldest_of hours) None good ->
  (length good < fuel)%nat ->
  SlackApi.get_channel_messages client oldest_of channel_id hours fuel = Some [].
Proof.
  intros Hb Hf. unfold SlackApi.get_channel_messages.
  exact (history_loop_breaks _ _ _ good None fuel [] Hb Hf).
Qed.

Lemma channels_loop_pages client pages : forall cursor fuel channels,
  channel_pages client cursor pages ->
  (length pages <= fuel)%nat ->
  channels_loop client fuel cursor channels =
  Some (channels ++ filter is_member (concat (map cp_channels pages))).
Proof.
  induction pages as [|page pages IH]; intros cursor fuel channels Hp Hf;
    inversion Hp as [c p Hc Hm|c p ps Hc Hm Hrest]; subst;
    (destruct fuel as [|fuel]; [simpl in Hf; lia|]);
    simpl; rewrite Hc, Hm; simpl.
  - now rewrite app_nil_r.
  - rewrite (IH _ fuel _ Hrest) by (simpl in Hf; lia).
    now rewrite filter_app, <- app_assoc.
Qed.

Lemma channels_loop_breaks client good : forall cursor fuel channels,
  channel_breaks client cursor good ->
  (length good < fuel)%nat ->
  channels_loop client fuel cursor channels = Some [].
Proof.
  induction good as [|page good IH]; intros cursor fuel channels Hb Hf;
    inversion Hb as [c Hc|c p g Hc Hm Hrest]; subst;
    (destruct fuel as [|fuel]; [simpl in Hf; lia|]);
    simpl; rewrite Hc; [reflexivity|].
  rewrite Hm. simpl. apply (IH _ fuel _ Hrest). simpl in Hf. lia.
Qed.

(** X16. [get_channels] returns the channels of which the bot is a member,
    and only these, in the order of the pages of the list, as soon as it may
    ask for that many pages; when a page cannot be fetched it returns the
    empty list. *)
Theorem get_channels_only_members client fuel :
  (forall pages,
      channel_pages client None pages ->
      (length pages <= fuel)%nat ->
      get_channels client fuel =
      Some (filter is_member (concat (map cp_channels pages)))
      /\ Forall (fun c => ch_is_member c = Some true)
           (filter is_member (concat (map cp_channels pages))))
  /\ (forall good,
        channel_breaks client None good ->
        (length good < fuel)%nat ->
        get_channels client fuel = Some []).
Proof.
  split.
  - intros pages Hp Hf. split.
    + unfold get_channels.
      now rewrite (channels_loop_pages client pages None fuel [] Hp Hf).
    + apply Forall_forall. intros c Hin. apply filter_In in Hin.
      destruct Hin as [_ Hm]. unfold is_member in Hm.
      destruct (ch_is_member c) as [[|]|]; simpl in Hm; congruence.
  - intros good Hb Hf. unfold get_channels.
    exact (channels_loop_breaks client good None fuel [] Hb Hf).
Qed.

Lemma enrich_loop_is_map self messages : forall user_cache,
  (forall uid info,
      dict_get uid user_cache = Some info ->
      uid <> "" /\
      exists raw, get_user_info self uid = Some raw /\ info = info_of raw) ->
  enrich_loop self user_cache messages = map (with_user_info self) messages.
Proof.
  induction messages as [|m messages IH]; intros cache Hok; [reflexivity|].
  cbn [enrich_loop map]. unfold with_user_info at 1.
  destruct (user m) as [uid|]; [|now rewrite (IH cache Hok)].
  destruct (String.eqb uid "") eqn:Eu.
  - cbn [negb andb]. apply String.eqb_eq in Eu. subst uid.
    destruct (dict_get "" cache) as [info|] eqn:Ec.
    + destruct (Hok _ _ Ec) as [Hne _]. congruence.
    + now rewrite (IH cache Hok).
  - cbn [negb andb]. unfold dict_mem.
    destruct (dict_get uid cache) as [info|] eqn:Ec.
    + cbn [negb]. rewrite Ec.
      destruct (Hok _ _ Ec) as (_ & raw & Hraw & ->).
      rewrite Hraw. now rewrite (IH cache Hok).
    + cbn [negb]. destruct (get_user_info self uid) as [raw|] eqn:Hraw.
      * rewrite dict_get_set_same. fold (info_of raw). f_equal.
        apply IH. intros uid' info' H'.
        destruct (String.eqb uid uid') eqn:E.
        -- apply String.eqb_eq in E. subst uid'.
           rewrite dict_get_set_same in H'. injection H' as <-.
           split; [now apply String.eqb_neq|now exists raw].
        -- apply String.eqb_neq in E.
           rewrite dict_get_set_other in H' by exact E. now apply Hok.
      * rewrite Ec. now rewrite (IH cache Hok).
Qed.

(** X17. [enrich_messages_with_user_info] treats each message on its own:
    a message whose author Slack knows gets the author's information, any
    other message is left as it is; the cache of users changes nothing in
    the result, no message is added, dropped or moved, and no text is
    touched. *)
Theorem enrich_is_per_message self messages :
  enrich_messages_with_user_info self messages =
  map (with_user_info self) messages
  /\ length (enrich_messages_with_user_info self messages) = length messages
  /\ map text (enrich_messages_with_user_info self messages) =
     map text messages
  /\ map user (enrich_messages_with_user_info self messages) =
     map user messages.
Proof.
  assert (H : enrich_messages_with_user_info self messages =
              map (with_user_info self) messages).
  { unfold enrich_messages_with_user_info. apply enrich_loop_is_map.
    intros uid info Hget. discriminate. }
  assert (Hkeep : forall m,
             text (with_user_info self m) = text m
             /\ user (with_user_info self m) = user m).
  { intros m. unfold with_user_info. destruct (user m) as [uid|] eqn:E.
    - destruct (String.eqb uid ""); [now rewrite E|].
      destruct (get_user_info self uid); [now split|now rewrite E].
    - now rewrite E. }
  rewrite H, length_map, !map_map.
  repeat split; apply map_ext; intros m; apply Hkeep.
Qed.
End SlackMore.

Section SlackMoreWitnesses.
Import Py SlackClient SlackApi.

(** Two pages of one message each, then a third call that fails. *)
Local Abbreviation two_pages := (mkWebClient
  (fun _ _ cursor =>
     match cursor with
     | None => Some (mkHistoryPage [Scenario.thanks] (Some true) (Some "c1"))
     | Some _ => Some (mkHistoryPage [Scenario.blame] None None)
     end)
  (fun _ => None)).

Local Abbreviation broken_second_page := (mkWebClient
  (fun _ _ cursor =>
     match cursor with
     | None => Some (mkHistoryPage [Scenario.thanks] (Some true) (Some "c1"))
     | Some _ => None
     end)
  (fun cursor =>
     match cursor with
     | None =>
         Some (mkChannelsPage
                 [mkChannel "C1" "general" (Some true);
                  mkChannel "C2" "random" (Some false);
                  mkChannel "C3" "dev" None]
                 (Some true) (Some "c1"))
     | Some _ => None
     end)).

Lemma get_channel_messages_collects_pages_witness :
  SlackApi.get_channel_messages two_pages (fun _ => "0") "C1" 24 5 =
  Some [Scenario.thanks; Scenario.blame].
Proof.
  apply (get_channel_messages_collects_pages two_pages (fun _ => "0") "C1" 24
           [mkHistoryPage [Scenario.thanks] (Some true) (Some "c1");
            mkHistoryPage [Scenario.blame] None None] 5).
  - apply pages_more; [reflexivity|reflexivity|].
    apply pages_last; reflexivity.
  - simpl. lia.
Defined.

Lemma get_channel_messages_drops_pages_on_error_witness :
  SlackApi.get_channel_messages broken_second_page (fun _ => "0") "C1" 24 5 =
  Some [].
Proof.
  apply (get_channel_messages_drops_pages_on_error broken_second_page
           (fun _ => "0") "C1" 24
           [mkHistoryPage [Scenario.thanks] (Some true) (Some "c1")] 5).
  - apply breaks_later; [reflexivity|reflexivity|].
    apply breaks_now. reflexivity.
  - simpl. lia.
Defined.

(** Two pages of channels; the bot is a member of C1 and of C4. *)
Local Abbreviation two_channel_pages := (mkWebClient
  (fun _ _ _ => None)
  (fun cursor =>
     match cursor with
     | None =>
         Some (mkChannelsPage
                 [mkChannel "C1" "general" (Some true);
                  mkChannel "C2" "random" (Some false);
                  mkChannel "C3" "dev" None]
                 (Some true) (Some "c1"))
     | Some _ =>
         Some (mkChannelsPage [mkChannel "C4" "ops" (Some true)] None None)
     end)).

Lemma get_channels_only_members_witness :
  get_channels two_channel_pages 5 =
  Some [mkChannel "C1" "general" (Some true); mkChannel "C4" "ops" (Some true)]
  /\ get_channels broken_second_page 5 = Some [].
Proof.
  split.
  - apply (proj1 (get_channels_only_members two_channel_pages 5)
             [mkChannelsPage
                [mkChannel "C1" "general" (Some true);
                 mkChannel "C2" "random" (Some false);
                 mkChannel "C3" "dev" None]
                (Some true) (Some "c1");
              mkChannelsPage [mkChannel "C4" "ops" (Some true)] None None]).
    + apply channels_more; [reflexivity|reflexivity|].
      apply channels_last; reflexivity.
    + simpl. lia.
  - apply (proj2 (get_channels_only_members broken_second_page 5)
             [mkChannelsPage
                [mkChannel "C1" "general" (Some true);
                 mkChannel "C2" "random" (Some false);
                 mkChannel "C3" "dev" None]
                (Some true) (Some "c1")]).
    + apply channels_break_later; [reflexivity|reflexivity|].
      apply channels_break_now. reflexivity.
    + simpl. lia.
Defined.
End SlackMoreWitnesses.

(** ** More on the channel processor *)

Section ProcessorMore.
Import Py SlackClient MessageProcessor Spec Measures Alerts.
Variable lower : string -> string.
Variable fromtimestamp : string -> option Q.
Variable sl : SlackClient.t.
Variable an : Analyzer.

Local Abbreviation process := (process_channel lower fromtimestamp).

Lemma record_all_totals calls : forall s,
  (total ScoringSystem.post_count (record_all calls s)
   = total ScoringSystem.post_count s + sum (map c_post calls)
   /\ total ScoringSystem.positive_count (record_all calls s)
      = total ScoringSystem.positive_count s + sum (map c_positive calls)
   /\ total ScoringSystem.violation_count (record_all calls s)
      = total ScoringSystem.violation_count s + sum (map c_violation calls))%Z.
Proof.
  induction calls as [|c calls IH]; intros s.
  - simpl. repeat split; lia.
  - rewrite record_all_cons.
    destruct (IH (apply_call c s)) as (H1 & H2 & H3).
    destruct (total_add_user_activity (c_user_id c) (c_user_name c) (c_post c)
                (c_positive c) (c_reaction c) (c_violation c) s)
      as (A1 & A2 & _ & A4).
    unfold apply_call in *. rewrite H1, H2, H3, A1, A2, A4.
    simpl. repeat split; lia.
Qed.

Lemma sum_cons x l : sum (x :: l) = (x + sum l)%Z.
Proof. reflexivity. Qed.

Lemma activity_sums ch msgs :
  (sum (map c_post (map (activity sl an ch) msgs)) = Z.of_nat (length msgs)
   /\ sum (map c_positive (map (activity sl an ch) msgs))
      = Z.of_nat (length (filter (praised an) msgs))
   /\ sum (map c_violation (map (activity sl an ch) msgs)) = 0)%Z.
Proof.
  induction msgs as [|m msgs (H1 & H2 & H3)]; [now repeat split|].
  cbn [map]. rewrite !sum_cons, H1, H2, H3.
  unfold activity. cbn [c_post c_positive c_violation filter].
  destruct (praised an m); cbn [length]; repeat split; lia.
Qed.

(** X18. After a run on a fresh processor, in which the classifier
    answers every analyzed message with a dict, the scoring engine and the
    summary agree: the posts counted over all users are the analyzed
    messages, of which there are no more than fetched messages, and the
    positive posts counted over all users are the positive messages of the
    summary. *)
Theorem scoring_matches_summary ns ch h :
  forallb (answers_dict an) (analyzed sl ch h) = true ->
  let p := snd (process ch h (MessageProcessor.init (Some sl) (Some an) ns)) in
  total ScoringSystem.post_count (scoring p)
  = Z.of_nat (length (analyzed sl ch h))
  /\ total ScoringSystem.positive_count (scoring p)
     = Z.of_nat (length (positive_messages p))
  /\ (length (analyzed sl ch h) <= length (get_channel_messages sl ch h))%nat.
Proof.
  intros Hd p.
  destruct (process_channel_state lower fromtimestamp sl an ch h
              (MessageProcessor.init (Some sl) (Some an) ns) eq_refl eq_refl Hd)
    as (_ & _ & Hsc & _ & Hp).
  fold p in Hsc, Hp.
  change (scoring (MessageProcessor.init (Some sl) (Some an) ns))
    with ScoringSystem.init in Hsc.
  change (positive_messages (MessageProcessor.init (Some sl) (Some an) ns))
    with (@nil Positive) in Hp.
  rewrite Hsc, Hp.
  destruct (record_all_totals (map (activity sl an ch) (analyzed sl ch h))
              ScoringSystem.init) as (H1 & H2 & _).
  destruct (activity_sums ch (analyzed sl ch h)) as (S1 & S2 & _).
  rewrite H1, H2, S1, S2. simpl. rewrite length_map.
  repeat split.
  unfold analyzed, fetched, enrich_messages_with_user_info.
  rewrite <- (enrich_loop_length sl (get_channel_messages sl ch h) []).
  apply filter_length_le.
Qed.

(** [process_channel] passes no violation to the scoring engine: whatever
    it appends to the list of violations, the violation counts of the
    engine, added over all users, are after the run what they were before. *)
Lemma violations_are_never_scored ch h self :
  slack self = Some sl -> analyzer self = Some an ->
  forallb (answers_dict an) (analyzed sl ch h) = true ->
  total ScoringSystem.violation_count (scoring (snd (process ch h self)))
  = total ScoringSystem.violation_count (scoring self)
  /\ length (violations (snd (process ch h self)))
     = (length (violations self)
        + length (filter (flagged an) (analyzed sl ch h)))%nat.
Proof.
  intros Hs Ha Hd.
  destruct (process_channel_state lower fromtimestamp sl an ch h self Hs Ha Hd)
    as (_ & _ & Hsc & Hv & _).
  rewrite Hsc, Hv.
  destruct (record_all_totals (map (activity sl an ch) (analyzed sl ch h))
              (scoring self)) as (_ & _ & H3).
  destruct (activity_sums ch (analyzed sl ch h)) as (_ & _ & S3).
  rewrite H3, S3, length_app, length_map. split; [lia|reflexivity].
Qed.

(** Two processors that differ in their notification system only go
    through a message in the same way, whatever the classifier answers. *)
Lemma analyze_message_alerts lower' fromtimestamp' m ch self self' :
  slack self = slack self' -> analyzer self = analyzer self' ->
  scoring self = scoring self' -> violations self = violations self' ->
  positive_messages self = positive_messages self' ->
  let r := _analyze_message lower fromtimestamp m ch self in
  let r' := _analyze_message lower' fromtimestamp' m ch self' in
  snd r = snd r'
  /\ slack (fst r) = slack (fst r') /\ analyzer (fst r) = analyzer (fst r')
  /\ scoring (fst r) = scoring (fst r')
  /\ violations (fst r) = violations (fst r')
  /\ positive_messages (fst r) = positive_messages (fst r').
Proof.
  destruct self as [s a sc vs ps ns], self' as [s' a' sc' vs' ps' ns'].
  cbn [slack analyzer scoring violations positive_messages].
  intros <- <- <- <- <-. unfold _analyze_message.
  cbn [slack analyzer scoring violations positive_messages notification_system].
  destruct a as [an0|]; [|now repeat split].
  destruct (analyze_post an0 _) as [| | | | | |d]; try (now repeat split).
  destruct (truthy (get "guideline_violation" (VBool false) d));
    destruct (truthy (get "is_positive" (VBool false) d));
    cbn [slack analyzer scoring violations positive_messages
         notification_system];
    destruct s; cbn [fst snd slack analyzer scoring violations
                     positive_messages]; now repeat split.
Qed.

Lemma analyze_all_alerts_irrelevant lower' fromtimestamp' ch msgs :
  forall self self',
  slack self = slack self' -> analyzer self = analyzer self' ->
  scoring self = scoring self' -> violations self = violations self' ->
  positive_messages self = positive_messages self' ->
  let r := analyze_all lower fromtimestamp msgs ch self in
  let r' := analyze_all lower' fromtimestamp' msgs ch self' in
  snd r = snd r'
  /\ slack (fst r) = slack (fst r') /\ analyzer (fst r) = analyzer (fst r')
  /\ scoring (fst r) = scoring (fst r')
  /\ violations (fst r) = violations (fst r')
  /\ positive_messages (fst r) = positive_messages (fst r').
Proof.
  induction msgs as [|m msgs IH]; intros self self' H1 H2 H3 H4 H5;
    [now repeat split|].
  cbn [analyze_all]. destruct (_should_analyze m); [|now apply IH].
  destruct (analyze_message_alerts lower' fromtimestamp' m ch self self'
              H1 H2 H3 H4 H5) as (He & G1 & G2 & G3 & G4 & G5).
  destruct (_analyze_message lower fromtimestamp m ch self) as [t1 e1].
  destruct (_analyze_message lower' fromtimestamp' m ch self') as [t1' e1'].
  cbn [fst snd] in *. subst e1'.
  destruct e1; [now repeat split|]. now apply IH.
Qed.

(** X19. Alerts are fire-and-forget: neither the notification system, nor
    the way time stamps are read, nor the lowering of the text changes the
    summary, the scoring engine or the lists of violations and of positive
    messages of a run. *)
Theorem alerts_do_not_affect_the_run
    lower' fromtimestamp' sc vs ps ns ns' ch h :
  let r := process ch h (mk (Some sl) (Some an) sc vs ps ns) in
  let r' := process_channel lower' fromtimestamp' ch h
              (mk (Some sl) (Some an) sc vs ps ns') in
  fst r = fst r'
  /\ scoring (snd r) = scoring (snd r')
  /\ violations (snd r) = violations (snd r')
  /\ positive_messages (snd r) = positive_messages (snd r').
Proof.
  intros r r'. subst r r'. unfold process_channel. cbn [slack].
  destruct (get_channel_messages sl ch h) as [|m0 msgs0];
    [now repeat split|].
  destruct (analyze_all_alerts_irrelevant lower' fromtimestamp' ch
              (enrich_messages_with_user_info sl (m0 :: msgs0))
              (mk (Some sl) (Some an) sc vs ps ns)
              (mk (Some sl) (Some an) sc vs ps ns')
              eq_refl eq_refl eq_refl eq_refl eq_refl)
    as (He & _ & _ & G3 & G4 & G5).
  destruct (analyze_all lower fromtimestamp _ ch _) as [t1 e1].
  destruct (analyze_all lower' fromtimestamp' _ ch _) as [t1' e1'].
  cbn [fst snd] in *. subst e1'.
  destruct e1; [now repeat split|].
  rewrite G3, G4, G5.
  destruct (ScoringSystem.calculate_rankings (scoring t1'));
    cbn [fst snd]; now repeat split.
Qed.

Lemma analyze_all_alerts ch msgs : forall self,
  slack self = Some sl -> analyzer self = Some an ->
  forallb (answers_dict an) (filter _should_analyze msgs) = true ->
  notification_system (fst (analyze_all lower fromtimestamp msgs ch self)) =
  option_map
    (alerted lower fromtimestamp an ch (filter _should_analyze msgs))
    (notification_system self).
Proof.
  induction msgs as [|m msgs IH]; intros self Hs Ha Hd.
  - simpl. now destruct (notification_system self).
  - cbn [analyze_all filter] in *.
    destruct (_should_analyze m); [|now apply IH].
    cbn [forallb] in Hd. apply andb_prop in Hd. destruct Hd as [Hm Hd].
    rewrite (analyze_message_effect lower fromtimestamp sl an m ch self
               Hs Ha Hm).
    match goal with
    | |- context [analyze_all _ _ msgs ch ?s] =>
        rewrite (IH s eq_refl eq_refl Hd)
    end.
    cbn [notification_system]. unfold alerted. cbn [filter].
    destruct (flagged an m); [|reflexivity].
    now destruct (notification_system self).
Qed.

Lemma alerted_ids ch msgs : forall ns,
  map va_message_id (dispatched (alerted lower fromtimestamp an ch msgs ns)) =
  map va_message_id (dispatched ns)
  ++ map (fun m => or_default "" (ts m))
       (filter (alertable fromtimestamp) (filter (flagged an) msgs)).
Proof.
  unfold alerted.
  induction (filter (flagged an) msgs) as [|m l IH]; intros ns.
  - simpl. now rewrite app_nil_r.
  - cbn [fold_left filter]. rewrite IH. unfold send_alert, alertable.
    destruct (fromtimestamp (or_default "" (ts m))) as [t|].
    + unfold send_violation_alert. simpl.
      now rewrite map_app, <- app_assoc.
    + reflexivity.
Qed.

(** X20. One alert per violation whose time stamp can be read, in the order
    of the messages: after a run in which the classifier answers every
    analyzed message with a dict, the notification system has been handed,
    behind the alerts it had, an alert for each analyzed message that is
    taken for a violation and has a readable time stamp, and for no other
    message; a processor without notification system stays without. *)
Theorem alerts_follow_violations ch h self :
  slack self = Some sl -> analyzer self = Some an ->
  forallb (answers_dict an) (analyzed sl ch h) = true ->
  (forall ns0,
      notification_system self = Some ns0 ->
      exists ns1,
        notification_system (snd (process ch h self)) = Some ns1
        /\ map va_message_id (dispatched ns1) =
           map va_message_id (dispatched ns0)
           ++ map (fun m => or_default "" (ts m))
                (filter (alertable fromtimestamp)
                   (filter (flagged an) (analyzed sl ch h))))
  /\ (notification_system self = None ->
      notification_system (snd (process ch h self)) = None).
Proof.
  intros Hs Ha Hd.
  assert (Hn : notification_system (snd (process ch h self)) =
               option_map
                 (alerted lower fromtimestamp an ch (analyzed sl ch h))
                 (notification_system self)).
  { unfold process_channel. unfold analyzed, fetched in *. rewrite Hs.
    destruct (get_channel_messages sl ch h) as [|m0 msgs0].
    - simpl. now destruct (notification_system self).
    - pose proof (analyze_all_alerts ch
                    (enrich_messages_with_user_info sl (m0 :: msgs0)) self
                    Hs Ha Hd) as Hal.
      destruct (analyze_all_effect lower fromtimestamp sl an ch
                  (enrich_messages_with_user_info sl (m0 :: msgs0)) self
                  Hs Ha Hd)
        as (self' & Hrun & _).
      rewrite Hrun in *. cbn [fst] in Hal.
      now destruct (ScoringSystem.calculate_rankings (scoring self')). }
  rewrite Hn. split.
  - intros ns0 H0. rewrite H0. eexists. split; [reflexivity|].
    apply alerted_ids.
  - intros H0. now rewrite H0.
Qed.

Lemma analyze_all_without_analyzer ch msgs : forall self,
  analyzer self = None ->
  analyze_all lower fromtimestamp msgs ch self =
  (self, if existsb _should_analyze msgs then Some AttributeError else None).
Proof.
  induction msgs as [|m msgs IH]; intros self Ha; [reflexivity|].
  cbn [analyze_all existsb]. destruct (_should_analyze m); [|now apply IH].
  unfold _analyze_message. now rewrite Ha.
Qed.

(** X21. A processor built without a classifier still processes a channel
    in which no message is to be analyzed, and returns its summary; on the
    first message that is to be analyzed it raises [AttributeError], before
    it has changed anything. *)
Theorem process_channel_without_analyzer ns ch h :
  get_channel_messages sl ch h <> [] ->
  let p := MessageProcessor.init (Some sl) None ns in
  (analyzed sl ch h = [] ->
   process ch h p =
   (Returned
      [("total_messages",
        SInt (Z.of_nat (length (get_channel_messages sl ch h))));
       ("violations_found", SInt 0); ("positive_messages", SInt 0);
       ("top_contributors", SScores [])],
    p))
  /\ (analyzed sl ch h <> [] -> process ch h p = (Raised AttributeError, p)).
Proof.
  intros Hne p. unfold process_channel, analyzed, fetched. cbn [slack p MessageProcessor.init].
  destruct (get_channel_messages sl ch h) as [|m0 msgs0] eqn:E; [congruence|].
  rewrite (analyze_all_without_analyzer ch _ p eq_refl).
  assert (Hex : forall l : list Message,
             existsb _should_analyze l = true <-> filter _should_analyze l <> []).
  { induction l as [|x l IHl]; simpl; [split; [discriminate|congruence]|].
    destruct (_should_analyze x); simpl; [split; [discriminate|reflexivity]|].
    exact IHl. }
  split; intros Hf.
  - destruct (existsb _should_analyze _) eqn:Ee.
    + apply Hex in Ee. contradiction.
    + unfold enrich_messages_with_user_info.
      cbn [scoring p MessageProcessor.init].
      change (ScoringSystem.calculate_rankings ScoringSystem.init)
        with (Ok (@nil ScoringSystem.UserScore)).
      cbn iota. now rewrite enrich_loop_length.
  - apply Hex in Hf. now rewrite Hf.
Qed.

(** X22. A classification that failed is harmless: a message for which the
    classifier returns the safe default of [ContentAnalyzer] is taken
    neither for a violation nor for a positive message, scores as a plain
    post, and is not listed by [run_demo] either. *)
Theorem failed_classification_is_neutral ch m :
  analysis_of an m = as_dict ContentAnalyzer.safe_default ->
  flagged an m = false
  /\ praised an m = false
  /\ Measures.points (activity sl an ch m)
     = (1 + 2 * c_reaction (activity sl an ch m))%Z
  /\ DemoPrototype.records_violation (analysis_of an m) = Some false
  /\ ScoringSystem.update_user_post (author m) (author_name m)
       (analysis_of an m) 0 ScoringSystem.init
     = ScoringSystem.add_user_activity (author m) (author_name m) 1 0 0 0
         ScoringSystem.init.
Proof.
  intros H.
  assert (Hf : flagged an m = false)
    by (unfold flagged, violation_score; now rewrite H).
  assert (Hp : praised an m = false) by (unfold praised; now rewrite H).
  split; [exact Hf|]. split; [exact Hp|]. split; [|split].
  - unfold Measures.points, activity.
    cbn [c_post c_positive c_reaction c_violation]. rewrite Hp. lia.
  - unfold DemoPrototype.records_violation. now rewrite H.
  - unfold ScoringSystem.update_user_post. now rewrite H.
Qed.
End ProcessorMore.

Section ProcessorMoreWitnesses.
Import Py SlackClient MessageProcessor Spec Measures Alerts.

(** Channel C1: two messages, both analyzed, one of them positive. *)
Lemma scoring_matches_summary_witness :
  total ScoringSystem.post_count
    (scoring (snd (Scenario.run "C1" Scenario.processor))) = 2%Z
  /\ total ScoringSystem.positive_count
       (scoring (snd (Scenario.run "C1" Scenario.processor))) = 1%Z.
Proof.
  destruct (scoring_matches_summary Scenario.lower Scenario.fromtimestamp
              Scenario.stub_slack Scenario.stub_classifier None "C1" 24
              eq_refl) as (H1 & H2 & _).
  split; [exact H1|exact H2].
Defined.

(** The doubtful message of channel C2 is recorded and scored without a
    violation. *)
Lemma violations_are_never_scored_witness :
  total ScoringSystem.violation_count
    (scoring (snd (Scenario.run "C2" Scenario.processor))) = 0%Z
  /\ length (violations (snd (Scenario.run "C2" Scenario.processor))) = 1%nat.
Proof.
  apply (violations_are_never_scored Scenario.lower Scenario.fromtimestamp
           Scenario.stub_slack Scenario.stub_classifier "C2" 24
           Scenario.processor);
    reflexivity.
Defined.

(** Channel C1 processed by a processor that has a notification system: of
    its two messages the second is taken for a violation, and one alert is
    handed over, for that message. *)
Lemma alerts_follow_violations_witness :
  exists ns1,
    notification_system (snd (Scenario.run "C1" Scenario.notifying_processor))
    = Some ns1
    /\ map va_message_id (dispatched ns1) = ["2.0"].
Proof.
  exact (proj1 (alerts_follow_violations Scenario.lower Scenario.fromtimestamp
                  Scenario.stub_slack Scenario.stub_classifier "C1" 24
                  Scenario.notifying_processor eq_refl eq_refl eq_refl)
           (mkNotificationSystem []) eq_refl).
Defined.

Lemma process_channel_without_analyzer_witness :
  process_channel Scenario.lower Scenario.fromtimestamp "C1" 24
    (MessageProcessor.init (Some Scenario.stub_slack) None None) =
  (Raised AttributeError,
   MessageProcessor.init (Some Scenario.stub_slack) None None).
Proof.
  apply (proj2 (process_channel_without_analyzer Scenario.lower
                  Scenario.fromtimestamp Scenario.stub_slack None "C1" 24
                  ltac:(discriminate))).
  discriminate.
Defined.

Lemma failed_classification_is_neutral_witness :
  flagged (mkAnalyzer (fun _ => ContentAnalyzer.safe_default))
    Scenario.blame = false.
Proof.
  apply (failed_classification_is_neutral Scenario.stub_slack
           (mkAnalyzer (fun _ => ContentAnalyzer.safe_default))
           "C1" Scenario.blame).
  reflexivity.
Defined.
End ProcessorMoreWitnesses.

(** ** The reports *)

Section ReportFacts.
Import Py MessageProcessor Spec Reports.
Local Open Scope string_scope.

Lemma occurs_refl s : occurs s s.
Proof. exists "", "". simpl. now rewrite str_app_nil_r. Qed.

Lemma occurs_app_r s a b : occurs s a -> occurs s (a ++ b).
Proof.
  intros (x & y & ->). exists x, (y ++ b). now rewrite !str_app_assoc.
Qed.

Lemma occurs_app_l s a b : occurs s b -> occurs s (a ++ b).
Proof.
  intros (x & y & ->). exists (a ++ x), y. now rewrite !str_app_assoc.
Qed.

Lemma occurs_trans a b c : occurs a b -> occurs b c -> occurs a c.
Proof.
  intros Hab (x & y & ->). now apply occurs_app_l, occurs_app_r.
Qed.

Lemma occurs_fold_init (A : Type) (f : A -> string) s l : forall init,
  occurs s init -> occurs s (fold_left (fun acc x => acc ++ f x) l init).
Proof.
  induction l as [|x l IH]; intros init H; [exact H|].
  simpl. apply IH. now apply occurs_app_r.
Qed.

Lemma occurs_fold (A : Type) (f : A -> string) v l : forall init,
  In v l -> occurs (f v) (fold_left (fun acc x => acc ++ f x) l init).
Proof.
  induction l as [|x l IH]; intros init Hin; [contradiction|].
  simpl. destruct Hin as [->|Hin].
  - apply occurs_fold_init. apply occurs_app_l. apply occurs_refl.
  - now apply IH.
Qed.

Lemma prefix_fold (A : Type) (f : A -> string) p l : forall init,
  prefix p init = true ->
  prefix p (fold_left (fun acc x => acc ++ f x) l init) = true.
Proof.
  induction l as [|x l IH]; intros init H; [exact H|].
  simpl. apply IH. now apply prefix_app_mono.
Qed.

(** X23. [get_violations_report] says that nothing was found exactly when
    the list of violations is empty; otherwise the report has a block for
    every violation, with the name of its author. *)
Theorem violations_report_lists_all str_of self :
  (violations self = [] <->
   get_violations_report str_of self =
   "ガイドライン違反は検出されませんでした。")
  /\ (forall v,
        In v (violations self) ->
        occurs (violation_block str_of v) (get_violations_report str_of self)
        /\ occurs (v_user_name v) (get_violations_report str_of self)).
Proof.
  unfold get_violations_report. split.
  - destruct (violations self) as [|v0 vs]; [now split|].
    split; [discriminate|]. intros H. exfalso.
    assert (Hp : prefix "【ガイドライン違反レポート】"
                   (fold_left (fun report v => report ++ violation_block str_of v)
                      (v0 :: vs) ("【ガイドライン違反レポート】" ++ nl ++ nl))
                 = true).
    { apply prefix_fold. apply prefix_app. }
    rewrite H in Hp. discriminate.
  - intros v Hin. destruct (violations self) as [|v0 vs]; [contradiction|].
    assert (Hb : occurs (violation_block str_of v)
                   (fold_left
                      (fun report v => report ++ violation_block str_of v)
                      (v0 :: vs) ("【ガイドライン違反レポート】" ++ nl ++ nl)))
      by (now apply occurs_fold).
    split; [exact Hb|].
    destruct Hb as (x & y & ->). apply occurs_app_l, occurs_app_r.
    unfold violation_block. apply occurs_app_l, occurs_app_r, occurs_refl.
Qed.

Lemma violations_report_lists_all_witness :
  occurs "U3"
    (get_violations_report (fun _ => "")
       (snd (Scenario.run "C2" Scenario.processor))).
Proof.
  apply (proj2 (violations_report_lists_all (fun _ => "")
                  (snd (Scenario.run "C2" Scenario.processor)))
           (mkViolation "U3" "U3" "その考え方は完全に間違ってますね。" "3.0" "C2"
              (VStr ""))).
  vm_compute. left. reflexivity.
Defined.

(** X24. [get_positive_report] shows the first ten positive messages and no
    more: the report is the one of a processor that has only these ten, and
    it has a block for each of them. *)
Theorem positive_report_shows_ten str_of self :
  get_positive_report str_of self =
  get_positive_report str_of
    (mk (slack self) (analyzer self) (scoring self) (violations self)
        (firstn 10 (positive_messages self)) (notification_system self))
  /\ (forall p,
        In p (firstn 10 (positive_messages self)) ->
        occurs (positive_block str_of p) (get_positive_report str_of self)).
Proof.
  unfold get_positive_report, take. cbn [positive_messages]. split.
  - rewrite firstn_firstn. now destruct (positive_messages self).
  - intros p Hin. destruct (positive_messages self) as [|p0 ps];
      [contradiction|].
    now apply occurs_fold.
Qed.

Lemma positive_report_shows_ten_witness :
  occurs (positive_block (fun _ => "")
            (mkPositive "U1" "A" "ありがとうございます！" "1.0" "C1" (VStr "")))
    (get_positive_report (fun _ => "")
       (snd (Scenario.run "C1" Scenario.processor))).
Proof.
  apply (proj2 (positive_report_shows_ten (fun _ => "")
                  (snd (Scenario.run "C1" Scenario.processor)))).
  vm_compute. left. reflexivity.
Defined.

(** X25. [notify_violations] posts nothing when there is no violation.
    Otherwise a processor without Slack client raises [AttributeError], and
    one with a Slack client posts one text to the administrators' channel,
    which mentions the author of every violation; when Slack does not
    accept the post, its [SlackApiError] is raised. *)
Theorem notify_violations_mentions_all admin_channel self :
  (violations self = [] ->
   notify_violations admin_channel self = (None, None))
  /\ (violations self <> [] -> slack self = None ->
      notify_violations admin_channel self = (None, Some AttributeError))
  /\ (forall sl,
        violations self <> [] -> slack self = Some sl ->
        exists text,
          notify_violations admin_channel self =
          (Some (admin_channel, text),
           if SlackClient.post_message sl admin_channel text then None
           else Some SlackApiError)
          /\ forall v, In v (violations self) ->
                       occurs ("<@" ++ v_user_id v ++ ">") text).
Proof.
  unfold notify_violations. split; [|split].
  - now intros ->.
  - intros Hv Hs. rewrite Hs. now destruct (violations self).
  - intros sl Hv Hs. rewrite Hs.
    destruct (violations self) as [|v0 vs]; [congruence|].
    eexists. split; [reflexivity|]. intros v Hin.
    apply occurs_trans with (b := mention_line v).
    + unfold mention_line.
      exists "• ", (" の投稿をチェックしてください" ++ nl).
      rewrite !str_app_assoc. reflexivity.
    + exact (occurs_fold _ mention_line v (v0 :: vs)
               ("⚠️ ガイドライン違反の可能性がある投稿を検出しました" ++ nl ++ nl)
               Hin).
Qed.

(** After channel C1 was processed there is one violation, by U2: the text
    is posted to the administrators' channel and mentions U2.  The same
    violation in a processor without Slack client: [AttributeError]. *)
Lemma notify_violations_mentions_all_witness :
  (exists text,
      notify_violations "ADMIN" (snd (Scenario.run "C1" Scenario.processor))
      = (Some ("ADMIN", text), None)
      /\ occurs "<@U2>" text)
  /\ notify_violations "ADMIN"
       (mk None None ScoringSystem.init
          [mkViolation "U2" "B" "こんな簡単なこともわからないの？" "2.0" "C1"
             (VStr "")]
          [] None)
     = (None, Some AttributeError).
Proof.
  split;
    [|apply (proj1 (proj2 (notify_violations_mentions_all "ADMIN" _)));
      [discriminate|reflexivity]].
  assert (Hv : violations (snd (Scenario.run "C1" Scenario.processor)) <> [])
    by (vm_compute; discriminate).
  assert (Hs : slack (snd (Scenario.run "C1" Scenario.processor)) =
               Some Scenario.stub_slack)
    by (vm_compute; reflexivity).
  destruct (proj2 (proj2 (notify_violations_mentions_all "ADMIN"
                            (snd (Scenario.run "C1" Scenario.processor))))
              Scenario.stub_slack Hv Hs)
    as (text & Hn & Hm).
  exists text. split; [exact Hn|].
  apply (Hm (mkViolation "U2" "B" "こんな簡単なこともわからないの？" "2.0" "C1"
               (VStr ""))).
  vm_compute. left. reflexivity.
Defined.
End ReportFacts.

(** ** The entry points *)

Section MainFacts.
Import Py SlackClient MessageProcessor Spec SlackApi Reports Main.
Variable lower : string -> string.
Variable fromtimestamp : string -> option Q.
Variable sl : SlackClient.t.
Variable an : Analyzer.

Local Abbreviation process := (process_channel lower fromtimestamp).
Local Abbreviation process_all := (process_channels lower fromtimestamp).

Lemma record_all_app calls1 calls2 s :
  record_all (calls1 ++ calls2) s = record_all calls2 (record_all calls1 s).
Proof. unfold record_all. apply fold_left_app. Qed.

(** The activity recorded over the channels of a list. *)
Local Abbreviation recorded := (fun channels : list Channel =>
  concat (map (fun c => map (activity sl an (ch_id c))
                          (analyzed sl (ch_id c) 24))
            channels)).

(** X26. [run_analysis] over all channels.  When the classifier answers
    every analyzed message with a dict and the counts stay in the range in
    which the scores are exact, the processor goes through every channel
    without raising, and it ends with the violations and the scored activity
    of all the channels, in the order of the channels, behind what it had
    before.  An answer that is no dict ends the loop with [AttributeError],
    after the messages before it were recorded. *)
Theorem process_channels_accumulates channels : forall self,
  slack self = Some sl -> analyzer self = Some an ->
  ((forall c, In c channels ->
      forallb (answers_dict an) (analyzed sl (ch_id c) 24) = true) ->
   (forall k,
      forallb in_exact_range
        (values (ScoringSystem.users
                   (record_all (recorded (firstn k channels)) (scoring self))))
      = true) ->
   exists results self',
     process_all channels self = Some (results, self', None)
     /\ length results = length channels
     /\ violations self' =
        violations self ++
        concat (map (fun c =>
                       map (violation_entry an (ch_id c))
                         (filter (flagged an) (analyzed sl (ch_id c) 24)))
                  channels)
     /\ scoring self' = record_all (recorded channels) (scoring self))
  /\ (forall c rest good m more,
        channels = c :: rest ->
        fetched sl (ch_id c) 24 = good ++ m :: more ->
        forallb (answers_dict an) (filter _should_analyze good) = true ->
        _should_analyze m = true -> answers_dict an m = false ->
        exists self',
          process_all channels self = Some ([], self', Some AttributeError)
          /\ scoring self' =
             record_all
               (map (activity sl an (ch_id c)) (filter _should_analyze good))
               (scoring self)).
Proof.
  induction channels as [|c channels IH]; intros self Hs Ha; split.
  - intros _ _. exists [], self. simpl. now rewrite app_nil_r.
  - intros c rest good m more H. discriminate H.
  - intros Hd Hr. cbn [process_channels].
    assert (Hdc : forallb (answers_dict an) (analyzed sl (ch_id c) 24) = true)
      by (apply Hd; now left).
    destruct (process_channel_state lower fromtimestamp sl an (ch_id c) 24
                self Hs Ha Hdc) as (Hs1 & Ha1 & Hsc1 & Hv1 & _).
    assert (Hok : ScoringSystem.calculate_rankings
                    (scoring (snd (process (ch_id c) 24 self))) =
                  Ok (ScoringSystem.sorted_reverse float_score
                        (values (ScoringSystem.users
                                   (scoring (snd (process (ch_id c) 24 self))))))).
    { apply calculate_rankings_scored. rewrite Hsc1.
      specialize (Hr 1%nat). cbn [firstn map concat] in Hr.
      rewrite app_nil_r in Hr.
      apply forallb_forall. intros u Hin. apply in_exact_range_scored.
      rewrite forallb_forall in Hr. now apply Hr. }
    assert (Hret : exists d, fst (process (ch_id c) 24 self) = Returned d).
    { destruct (SlackClient.get_channel_messages sl (ch_id c) 24)
        as [|m0 msgs0] eqn:E.
      - exists []. unfold process_channel. now rewrite Hs, E.
      - rewrite (process_channel_result lower fromtimestamp sl an (ch_id c) 24
                   self Hs Ha Hdc) by (rewrite E; discriminate).
        rewrite Hok. now eexists. }
    destruct Hret as [d Hret].
    destruct (process (ch_id c) 24 self) as [r self1]. cbn [fst snd] in *.
    subst r.
    destruct (proj1 (IH self1 Hs1 Ha1)) as (results & self' & Hrun & Hlen & Hv & Hsc).
    + intros c' Hin. apply Hd. now right.
    + intros k. rewrite Hsc1, <- record_all_app.
      exact (Hr (S k)).
    + exists (d :: results), self'. rewrite Hrun, Hv, Hsc, Hv1, Hsc1.
      cbn [map concat length]. rewrite Hlen, record_all_app, <- app_assoc.
      repeat split.
  - intros c' rest good m more Hc Hf Hg Hm Hn. injection Hc as <- <-.
    cbn [process_channels]. unfold process_channel. rewrite Hs.
    unfold fetched in Hf.
    destruct (SlackClient.get_channel_messages sl (ch_id c) 24)
      as [|m0 msgs0] eqn:E.
    { destruct good; discriminate Hf. }
    rewrite Hf.
    destruct (analyze_all_not_dict lower fromtimestamp sl an (ch_id c)
                good m more self Hs Ha Hg Hm Hn) as (self' & Hrun & Hsc & _).
    rewrite Hrun. now exists self'.
Qed.

(** X27. [print_summary] on the summary that a run returns: it prints
    nothing when the fetch was empty and only then, it never raises, and it
    prints at most eight lines, of which at most three are contributors. *)
Theorem print_summary_of_run str_int str_float str_scores ch h name self d :
  slack self = Some sl ->
  fst (process ch h self) = Returned d ->
  exists lines,
    print_summary str_int str_float str_scores d name = (lines, None)
    /\ (lines = [] <-> SlackClient.get_channel_messages sl ch h = [])
    /\ (length lines <= 8)%nat.
Proof.
  intros Hs. unfold process_channel. rewrite Hs.
  destruct (SlackClient.get_channel_messages sl ch h) as [|m0 msgs0] eqn:E.
  - cbn [fst]. intros H. injection H as <-. exists []. simpl.
    repeat split; lia.
  - destruct (analyze_all lower fromtimestamp _ ch self) as [self1 [e|]];
      [discriminate|].
    destruct (ScoringSystem.calculate_rankings (scoring self1)) as [scores|e|];
      try discriminate.
    cbn [fst]. generalize (take 5 scores). intros top H. injection H as <-.
    match goal with
    | |- exists lines, print_summary _ _ _ ?dd _ = _ /\ _ =>
        exists (fst (print_summary str_int str_float str_scores dd name))
    end.
    unfold print_summary. cbn [dict_get String.eqb Ascii.eqb Bool.eqb get].
    unfold summary_truthy, take.
    destruct top as [|u top'].
    + cbn [fst]. split; [reflexivity|]. split; [split; discriminate|].
      simpl. lia.
    + cbn [fst]. split; [reflexivity|]. split; [split; discriminate|].
      rewrite length_app. cbn [length]. rewrite length_map, length_firstn.
      lia.
Qed.

Lemma record_all_total_score calls : forall s,
  Forall (fun u => ScoringSystem.total_score u = 0%Q)
    (values (ScoringSystem.users s)) ->
  Forall (fun u => ScoringSystem.total_score u = 0%Q)
    (values (ScoringSystem.users (record_all calls s))).
Proof.
  induction calls as [|c calls IH]; intros s Hs; [exact Hs|].
  rewrite record_all_cons. apply IH. unfold apply_call.
  now apply add_user_activity_total_score.
Qed.

(** X28. The scores that [run_analysis] prints in its final ranking are the
    stored fields [total_score], not the derived scores: for an engine
    built by [add_user_activity] alone every line of the ranking shows the
    score 0. *)
Theorem ranking_lines_show_zero str_int str_float calls :
  ranking_lines str_int str_float (record_all calls ScoringSystem.init) =
  outcome_map
    (fun scores =>
       map (fun entry =>
              (str_int (Z.of_nat (fst entry)) ++ ". "
               ++ ScoringSystem.user_name (snd entry) ++ ": "
               ++ str_float 0%Q ++ "点")%string)
         (ScoringSystem.enumerate_from 1 (firstn 10 scores)))
    (ScoringSystem.calculate_rankings (record_all calls ScoringSystem.init)).
Proof.
  unfold ranking_lines, take.
  destruct (ScoringSystem.calculate_rankings
              (record_all calls ScoringSystem.init)) as [scores|e|] eqn:Hok;
    [|reflexivity|reflexivity].
  cbn [outcome_map]. f_equal.
  assert (Hz : Forall (fun u => ScoringSystem.total_score u = 0%Q)
                 (firstn 10 scores)).
  { apply Forall_forall. intros u Hin.
    assert (Hin' : In u scores)
      by (rewrite <- (firstn_skipn 10); apply in_or_app; now left).
    pose proof (record_all_total_score calls ScoringSystem.init
                  (Forall_nil _)) as Hall.
    rewrite Forall_forall in Hall. apply Hall.
    destruct (calculate_rankings_ok _ _ Hok) as [_ Hr].
    eapply Permutation_in; [|exact Hin'].
    apply Permutation_sym. rewrite Hr. apply sorted_reverse_perm. }
  set (l := firstn 10 scores) in *.
  clearbody l. revert Hz. generalize 1%nat.
  induction l as [|u l IH]; intros n Hz; [reflexivity|].
  inversion Hz as [|u' l' Hu Hl]; subst. cbn [ScoringSystem.enumerate_from map].
  unfold ranking_line at 1. cbn [fst snd]. rewrite Hu. f_equal. now apply IH.
Qed.
End MainFacts.

Section DemoFacts.
Import Py ScoringSystem Demo.

(** X29. The end of [run_demo]: as soon as one user has been scored and the
    ranking is returned, the display of the ranking raises [KeyError] on the
    key [total_posts], which the dicts of [get_rankings] do not have, after
    two lines of the first entry; the scores are not saved.  Without any
    user the scores are saved.  When the ranking raises, the exception comes
    after the title and nothing is saved either. *)
Theorem run_demo_display_raises str_of fixed1 (s : ScoringSystem.t) fs :
  (forall scores,
      calculate_rankings s = Ok scores -> users s <> [] ->
      exists title1 title2 line1 line2,
        finish str_of fixed1 s fs =
        Some ([title1; title2; line1; line2], fs,
              Some (KeyError "total_posts")))
  /\ (users s = [] ->
      exists title1 title2,
        finish str_of fixed1 s fs =
        Some ([title1; title2;
               "✅ スコアデータを data/scores.json に保存しました"],
              save_to_file "data/scores.json" s fs, None))
  /\ (forall e,
        calculate_rankings s = Raise e ->
        exists title1 title2,
          finish str_of fixed1 s fs = Some ([title1; title2], fs, Some e)).
Proof.
  split; [|split].
  - intros scores Hok Hne. unfold finish.
    destruct (get_rankings_ok 5 s scores Hok) as [Hp ->].
    assert (Hr : scores <> []).
    { intros H. apply Hne. rewrite H in Hp.
      apply Permutation_sym, Permutation_nil in Hp.
      unfold values in Hp. now apply map_eq_nil in Hp. }
    destruct scores as [|u rs]; [congruence|].
    cbn [firstn enumerate_from map show_rankings].
    do 4 eexists. reflexivity.
  - intros He. unfold finish, get_rankings, calculate_rankings.
    rewrite He. do 2 eexists. reflexivity.
  - intros e He. unfold finish, get_rankings. rewrite He.
    do 2 eexists. reflexivity.
Qed.

Lemma run_demo_display_raises_witness :
  option_map snd
    (finish (fun _ => "") (fun _ => "")
       (Spec.record_all [Spec.mkCall "U001" "A" 1 0 3 0] init) []) =
  Some (Some (KeyError "total_posts")).
Proof.
  destruct (proj1 (run_demo_display_raises (fun _ => "") (fun _ => "")
                     (Spec.record_all [Spec.mkCall "U001" "A" 1 0 3 0] init) [])
              _ eq_refl ltac:(discriminate)) as (t1 & t2 & l1 & l2 & H).
  now rewrite H.
Defined.
End DemoFacts.

Section MainWitnesses.
Import Py SlackClient MessageProcessor Spec SlackApi Reports Main.

(** Channels C1 and C2, one after the other; and channel C1 with a
    classifier that answers [None] to every text. *)
Lemma process_channels_accumulates_witness :
  (exists results self',
      process_channels Scenario.lower Scenario.fromtimestamp
        [mkChannel "C1" "general" (Some true);
         mkChannel "C2" "random" (Some true)]
        Scenario.processor = Some (results, self', None)
      /\ length results = 2%nat
      /\ map v_user_id (violations self') = ["U2"; "U3"])
  /\ (exists self',
        process_channels Scenario.lower Scenario.fromtimestamp
          [mkChannel "C1" "general" (Some true)]
          (MessageProcessor.init (Some Scenario.stub_slack)
             (Some (mkAnalyzer (fun _ => VNone))) None)
        = Some ([], self', Some AttributeError)
        /\ scoring self' = ScoringSystem.init).
Proof.
  split.
  - destruct (proj1 (process_channels_accumulates Scenario.lower
                       Scenario.fromtimestamp
                       Scenario.stub_slack Scenario.stub_classifier
                       [mkChannel "C1" "general" (Some true);
                        mkChannel "C2" "random" (Some true)]
                       Scenario.processor eq_refl eq_refl))
      as (results & self' & Hrun & Hlen & Hv & _).
    + intros c [<-|[<-|[]]]; reflexivity.
    + intros [|[|[|k]]]; reflexivity.
    + exists results, self'. split; [exact Hrun|]. split; [exact Hlen|].
      rewrite Hv. reflexivity.
  - exact (proj2 (process_channels_accumulates Scenario.lower
                    Scenario.fromtimestamp
                    Scenario.stub_slack (mkAnalyzer (fun _ => VNone))
                    [mkChannel "C1" "general" (Some true)]
                    (MessageProcessor.init (Some Scenario.stub_slack)
                       (Some (mkAnalyzer (fun _ => VNone))) None)
                    eq_refl eq_refl)
             (mkChannel "C1" "general" (Some true)) [] []
             (mkMessage (Some "U1") (Some "ありがとうございます！") (Some "1.0")
                None (Some (mkUserInfo (Some "A") "" false)))
             [mkMessage (Some "U2") (Some "こんな簡単なこともわからないの？")
                (Some "2.0") None (Some (mkUserInfo (Some "B") "" false))]
             eq_refl eq_refl eq_refl eq_refl eq_refl).
Defined.

(** The summary of channel C1: a title, three counts, and the two
    contributors under their heading. *)
Lemma print_summary_of_run_witness :
  exists lines,
    print_summary (fun _ => "") (fun _ => "") (fun _ => "")
      [("total_messages", SInt 2); ("violations_found", SInt 1);
       ("positive_messages", SInt 1);
       ("top_contributors",
        SScores [ScoringSystem.mkUserScore "U1" "A" 1 1 0 0 0;
                 ScoringSystem.mkUserScore "U2" "B" 1 0 0 0 0])]
      "general"
    = (lines, None)
    /\ length lines = 7%nat.
Proof.
  assert (Hrun : fst (process_channel Scenario.lower Scenario.fromtimestamp
                        "C1" 24 Scenario.processor) =
                 Returned
                   [("total_messages", SInt 2); ("violations_found", SInt 1);
                    ("positive_messages", SInt 1);
                    ("top_contributors",
                     SScores [ScoringSystem.mkUserScore "U1" "A" 1 1 0 0 0;
                              ScoringSystem.mkUserScore "U2" "B" 1 0 0 0 0])])
    by (vm_compute; reflexivity).
  destruct (print_summary_of_run Scenario.lower Scenario.fromtimestamp
              Scenario.stub_slack
              (fun _ => "") (fun _ => "") (fun _ => "") "C1" 24 "general"
              Scenario.processor _ eq_refl Hrun)
    as (lines & Hp & _ & _).
  exists lines. split; [exact Hp|].
  assert (He : length (fst (lines, @None exn)) = 7%nat)
    by (rewrite <- Hp; reflexivity).
  exact He.
Defined.
End MainWitnesses.
